(* ===== verification/_CoqProject ===== *)
-Q . S2P
Prelude.v
PyStr.v
Config.v
Exclusions.v
TokenFormat.v
TextIO.v
World.v
TokenCounter.v
Version.v
Ingest.v
Clean.v
Cli.v
ArgParse.v
System.v
