(* ===== verification/Prelude.v ===== *)
(** * A verification development of gitingest_manager.py

    The program ([src/utils/gitingest_manager.py]) is one Python class,
    [GitIngestManager], and a command-line front end [main].  It runs the
    third-party [gitingest] tool on a configured repository, measures the
    resulting Markdown file (token and character counts), names it
    [{repo}_{version}_{tokens}.md], records metadata in the YAML
    configuration and in a JSON log, and prunes old artifacts.

    ** The parts and how they interact

    [ingest] is the orchestrator: it builds the command line
    ([_build_gitingest_command], which calls [_get_exclusions]), runs
    gitingest into a temporary file, calls [_count_tokens], counts code
    fences, resolves the version ([_get_github_version]), formats the
    token count ([_format_token_count]), renames the file, hashes it
    ([_get_file_hash]), stores the metadata, saves the configuration
    ([_save_config]) and appends to the log ([_save_ingestion_log]).
    [clean_old] works on the output directory alone.  The outside world
    (clock, gitingest, the token counter, git, HTTP, MD5) is an interface,
    the class [World.Externals]: every theorem about a component that
    calls it holds for every instance, and the examples run the model
    with [World.stub_externals].

    ** Which file models which part

    - [Prelude] (this file): the Python runtime: the exceptions
      ([PyExc]), dictionaries in insertion order ([pydict], [Module
      PyDict], with [wf]: no key twice), the state-and-exception monad
      [PyM] with [x <- m ;; k], [raise] and [try_except] (a raise keeps
      the effects before it, as in Python), generic list lemmas, the hint
      databases [pydb] and [pyrw] and the tactic [zlia].
    - [PyStr]: the [str] operations the code calls ([split], [split()],
      [strip], [startswith], [endswith], [in], [count], [str(int)],
      [int(str)]).  [count] is the model of [str.count] for the code-fence
      count of line 192; CPython's own loop is library code and not
      modelled.
    - [Config]: the document [self.config] as records (settings,
      repositories, profiles, the metadata block of lines 213-221).
    - [Exclusions]: [_get_exclusions] (lines 41-54) and
      [_build_gitingest_command] (lines 56-73).
    - [TokenFormat]: [_format_token_count] (lines 121-128); [count /
      1_000_000] is IEEE-754 binary64 division (the Standard Library's
      [SpecFloat]) and [.1f] rounds the exact binary value half to even.
    - [TextIO]: strict UTF-8 decoding and universal newlines, what
      [open(p, 'r', encoding='utf-8').read()] returns.  Line 190 opens
      the file with the locale's encoding; the model assumes a UTF-8
      locale.
    - [World]: the state, a record of the configuration in memory and
      on disk, the files (path to bytes and mtime), the directories, the
      log file and the printed messages.  It also holds the [Externals]
      interface and the primitive effects [read_text], [unlink],
      [rename] (POSIX replace) and [run_checked] ([subprocess.run(...,
      check=True)]).  Its step invariant [world_skel]: the document in
      memory and the one saved keep the skeleton ([Config.config_skel]:
      everything but the metadata blocks) of the document loaded, with
      the rules [keeps_skel] and the tactic [solve_keeps].
    - [TokenCounter]: [_count_tokens] (lines 75-114).
    - [Version]: [_get_github_version] (lines 130-166).
    - [Ingest]: [ingest] (lines 168-239) with [_save_config],
      [_get_file_hash] and [_save_ingestion_log] (lines 241-266).
    - [Clean]: [clean_old] (lines 308-339).
    - [Cli]: [main] after argument parsing (lines 352-374), start-up
      ([__init__], [_load_config], lines 19-34) and the reports
      [list_repos], [list_profiles], [list_ingested] (lines 268-306).
      Its state is a [Disk] (the YAML documents by path, files,
      directories, log, output); a command runs as a [PyM World] method
      on the loaded document, and the document it leaves is written back.
    - [ArgParse]: the parser [main] declares (lines 342-352: the
      [command] choices, the five options, their defaults, [type=int])
      read with CPython 3.12's [argparse] rules: [classify] gives each
      argument its reading ([parse_optional]: option, long prefix,
      attached value, negative number, [--]), [scan] consumes them left
      to right, [parse_args] adds the final checks, and [run] is the
      program on its command line: help (exit 0), usage error (exit 2)
      or [Cli.main] on the parsed arguments.
    - [System]: the program over time.  [step d d'] is one invocation of
      [ArgParse.run] on any command line against any instance of
      [Externals]; [reachable] is its reflexive-transitive closure.  The
      abstract log machine [astep] (append at most one entry) and the
      abstraction [abs_log] (absent log = empty list) state what the log
      promises; [yaml_skel] is the stored documents reduced to their
      skeletons; [log_frame] and [log_once] are the two step properties
      ("does not touch the log", "appends at most once") with bind and
      handler rules, closed by the tactics [solve_frame] and
      [solve_once].

    Each operation is one definition, named as in the source, written in
    [PyM World]; its guards and early returns are those of the code.

    ** What the theorems show

    - Exclusions: the exclusion list is the repository's patterns then
      the profile's, in order; the [-e] flags of the argv read back to
      it; an unknown repository raises [KeyError], never the spec's
      [ValueError].
    - TokenFormat: the three bands with their bounds; the spec's values
      and the float rounding of the million band are evaluated in an
      example.
    - TokenCounter: each branch (counter missing, counter failing,
      success, unparsable output raising [ValueError]).
    - Version: the release path, the list of exceptions that escape,
      and the owner part of HTTPS and SSH remotes.
    - Ingest, for every instance of the externals: every normal return
      satisfies [success_post] (artifact, metadata, one log entry); the
      liveness theorem [ingest_returns]: when the outside world
      cooperates the run returns; the gitingest-failure handler
      (SystemExit 1, temporary file removed, nothing else changed); the
      [IndexError] of an SSH remote and the [FileNotFoundError] of a
      final name with [/] escape and leave the temporary file
      ([ingest_escaping_exceptions_leave_temp]); a log that is not a
      JSON list fails the run after the artifact and the configuration
      were written ([ingest_invalid_log_after_save]); the shape
      [YYYYmmdd_HHMMSS] of the timestamp.
    - Clean: the exact effect of [clean_old]; with [keep >= 0], every
      group keeps exactly its [keep] newest files and a second run
      removes nothing; a negative [keep] leaves each group only its
      [len + keep] newest files ([clean_old_negative_keep]).
    - Cli: the start-up failures (missing settings, missing parent of
      the output directory, missing configuration file); [ingest]
      without [--repo] exits 1; [main clean] is [clean_old] on the
      configured directory; the reports change nothing but the output;
      [list_repos] prints every repository in order and stops with
      [KeyError 'source'] at the first one without a source
      ([list_repos_output]); [list_ingested] prints each [.md] file of
      the output directory once, in lexicographic order of the paths
      ([list_ingested_output]: a permutation of [glob] that is
      [Sorted]).
    - System: along every sequence of invocations, exceptions
      included, every configuration document keeps its settings,
      profiles and repositories (names, order, fields); only metadata
      blocks change ([reachable_config_skel]); one invocation
      refines the abstract log machine ([main_refines_log]), so the log
      is append-only along every run ([reachable_log_prefix]).
    - ArgParse: every value of [Args] is the parse of a command line
      ([parse_unparse]); the spellings of an option ([--repo v],
      [--repo=v], [-r v], [-r=v], [--rep v]) are equivalent; the exits
      before [main] (missing or invalid command, invalid int, missing
      value, extra argument, ambiguous option, help); and for every
      integer [k], [clean -k str(k)] and its spellings reach [clean_old]
      with [keep = k], negative ones included ([run_clean_keep]).
    - Library facts used on the way (not claims of their own):
      [int(str(n)) = n] and UTF-8 decode after encode.

    ** Bounds and fuel

    Every loop of the code runs over a finite list (argv, exclusions,
    bytes, directory entries, groups) and is a structural [Fixpoint] or
    a [fold_left], so no definition needs fuel or a measure.  Integers
    are Python [int]s,
    hence [Z] without wrap-around; the only bounded arithmetic is the
    binary64 division of [_format_token_count], whose overflow to
    infinity raises [OverflowError] in [.1f] formatting and is modelled.

    ** Not modelled

    YAML and JSON (de)serialisation ([yaml.safe_load], [yaml.dump],
    [json.load], [json.dump]): the configuration and the log are kept as
    structured values, and an unparsable log is the value [LogInvalid].
    [argparse]'s text output (usage and help are the messages [MsgUsage]
    and [MsgHelp]) and its behaviour on features this parser does not
    use (nargs other than one, subparsers, [fromfile_prefix_chars]).
    MD5, HTTP, git, gitingest, the counter and
    [os.path.expandvars] are oracles of [Externals].  Printed text is
    kept as structured messages carrying the values the code computes.
    The log file [output_dir/ingestion_log.json] is a field of the state
    of its own rather than an entry of the file map: the only listing of
    the directory the code does is [glob("*.md")], which never matches
    it.  The disk has one log while the code keeps one per output
    directory (line 243): runs with configurations naming different
    output directories share one log in the model.  The log theorems are
    unaffected, since [_save_ingestion_log] is the only writer of any log
    file.  The timestamp theorem covers four-digit years: [%Y] of a year
    below 1000 is platform-dependent.
*)

From stdpp Require Export base list sets strings.
From Stdlib Require Export ZArith Lia Sorted.

Declare Scope py_scope.
Delimit Scope py_scope with py.

Create HintDb pydb.
Create Rewrite HintDb pyrw.

(** Linear integer arithmetic with [Z.div] and [Z.modulo] by constants:
    the quotients and remainders become variables with their equations. *)
Ltac zlia := Z.div_mod_to_equations; lia.

(** Decide a closed decidable proposition by evaluation. *)
Ltac decide_it := apply (bool_decide_unpack _); vm_compute; exact I.

(** ** Python exceptions raised or caught by the modelled code *)

Inductive PyExc :=
  | CalledProcessError (returncode : Z) (stderr : string)
  | FileNotFoundError (path : string)
  | FileExistsError (path : string)
  | ValueError (msg : string)
  | IndexError
  | KeyError (key : string)
  | AttributeError
  | OverflowError
  | UnicodeDecodeError
  | SystemExit (code : Z).

(** ** Python dictionaries: association lists in insertion order.
    [d[k] = v] updates an existing key in place and appends a new one;
    [d.get(k)] returns the first binding. *)

Definition pydict (K V : Type) := list (K * V).

Module PyDict.
Section Dict.
Context {K V : Type} `{EqDecision K}.

Fixpoint get (k : K) (d : pydict K V) : option V :=
  match d with
  | [] => None
  | (k', v) :: d' => if decide (k = k') then Some v else get k d'
  end.

Fixpoint set (k : K) (v : V) (d : pydict K V) : pydict K V :=
  match d with
  | [] => [(k, v)]
  | (k', v') :: d' =>
      if decide (k = k') then (k, v) :: d' else (k', v') :: set k v d'
  end.

Definition keys (d : pydict K V) : list K := map fst d.

Definition mem (k : K) (d : pydict K V) : bool :=
  match get k d with Some _ => true | None => false end.

(** [d.get(k, default)] *)
Definition get_default (k : K) (dflt : V) (d : pydict K V) : V :=
  match get k d with Some v => v | None => dflt end.

(** The invariant every dictionary built by the code satisfies. *)
Definition wf (d : pydict K V) : Prop := NoDup (keys d).

Lemma get_set_eq k v d : get k (set k v d) = Some v.
Proof.
  induction d as [|[k' v'] d IH]; simpl.
  - by rewrite decide_True.
  - destruct (decide (k = k')); simpl; [by rewrite decide_True|].
    by rewrite decide_False.
Qed.

Lemma get_set_ne k k' v d : k ≠ k' → get k' (set k v d) = get k' d.
Proof.
  intros Hne. induction d as [|[k0 v0] d IH]; simpl.
  - by rewrite decide_False.
  - destruct (decide (k = k0)) as [->|]; simpl.
    + destruct (decide (k' = k0)); congruence.
    + by destruct (decide (k' = k0)).
Qed.

Lemma keys_set_mem k v d :
  k ∈ keys d → keys (set k v d) = keys d.
Proof.
  induction d as [|[k0 v0] d IH]; simpl; [by intros ?%elem_of_nil|].
  intros Hin. destruct (decide (k = k0)) as [->|Hne]; simpl; [done|].
  f_equal. apply IH. apply elem_of_cons in Hin as [|]; congruence.
Qed.

(** Replacing a value by one with the same image under [f] leaves the
    dictionary's image under [f] as it was. *)
Lemma map_vals_set {W} (f : V -> W) k v v0 d :
  get k d = Some v0 -> f v = f v0 ->
  map (fun kv => (kv.1, f kv.2)) (set k v d) = map (fun kv => (kv.1, f kv.2)) d.
Proof.
  induction d as [|[k' v'] d IH]; cbn; [done|].
  destruct (decide (k = k')) as [->|]; cbn; intros Hg Hf.
  - injection Hg as ->. by rewrite Hf.
  - by rewrite IH.
Qed.

Lemma keys_set_fresh k v d :
  k ∉ keys d → keys (set k v d) = keys d ++ [k].
Proof.
  induction d as [|[k0 v0] d IH]; simpl; [done|].
  intros Hnin. rewrite decide_False by (intros ->; apply Hnin; left).
  simpl. f_equal. apply IH. intros ?; apply Hnin; by right.
Qed.

(** Setting a key keeps the keys unique. *)
Lemma set_wf k v d : wf d → wf (set k v d).
Proof.
  unfold wf. intros Hnd. destruct (decide (k ∈ keys d)) as [Hin|Hnin].
  - by rewrite keys_set_mem.
  - rewrite keys_set_fresh by done. apply NoDup_app. split; [done|].
    split; [|apply NoDup_singleton]. intros x Hx ->%list_elem_of_singleton. done.
Qed.

Lemma mem_set_eq k v d : mem k (set k v d) = true.
Proof. unfold mem. by rewrite get_set_eq. Qed.

(** [filter] out a key: what deleting it leaves. *)
Definition drop (k : K) (d : pydict K V) : pydict K V :=
  List.filter (fun e => negb (bool_decide (e.1 = k))) d.

Lemma drop_set k v d : drop k (set k v d) = drop k d.
Proof.
  unfold drop. induction d as [|[k0 v0] d IH]; cbn.
  - by case_bool_decide.
  - destruct (decide (k = k0)) as [->|Hne]; cbn; repeat case_bool_decide; cbn;
      try congruence; by rewrite IH.
Qed.

Lemma drop_not_mem k d : mem k d = false -> drop k d = d.
Proof.
  unfold mem, drop. induction d as [|[k0 v0] d IH]; cbn; [done|].
  destruct (decide (k = k0)) as [->|Hne]; [done|]. intros Hm.
  case_bool_decide; [congruence|]. cbn. by rewrite IH.
Qed.

Lemma wf_cons k v d : wf ((k, v) :: d) <-> k ∉ keys d /\ wf d.
Proof. unfold wf, keys. simpl. apply NoDup_cons. Qed.

(** Filtering a dictionary keeps its keys unique. *)
Lemma wf_filter (P : K * V -> bool) d : wf d -> wf (List.filter P d).
Proof.
  induction d as [|[k v] d IH]; simpl; [done|].
  intros [Hk Hd]%wf_cons. destruct (P (k, v)); [|auto].
  apply wf_cons. split; [|auto]. intros Hin. apply Hk.
  unfold keys in *. apply list_elem_of_In in Hin. apply list_elem_of_In.
  apply in_map_iff in Hin as ([k' v'] & <- & Hin). apply filter_In in Hin as [Hin _].
  apply in_map_iff. by exists (k', v').
Qed.

Lemma drop_wf k d : wf d -> wf (drop k d).
Proof. intros Hd. by apply wf_filter. Qed.

(** In a dictionary with unique keys, a key names one entry. *)
Lemma wf_key_unique d x y : wf d -> x ∈ d -> y ∈ d -> x.1 = y.1 -> x = y.
Proof.
  induction d as [|[k v] d IH]; [by intros _ ?%elem_of_nil|].
  intros [Hk Hd]%wf_cons [->|Hx]%elem_of_cons [->|Hy]%elem_of_cons Heq; simpl in Heq; auto.
  - exfalso. apply Hk. unfold keys. rewrite Heq. apply list_elem_of_In, in_map, list_elem_of_In, Hy.
  - exfalso. apply Hk. unfold keys. rewrite <- Heq. apply list_elem_of_In, in_map, list_elem_of_In, Hx.
Qed.

Lemma wf_get_in d k v : wf d -> (k, v) ∈ d -> get k d = Some v.
Proof.
  induction d as [|[k0 v0] d IH]; [by intros _ ?%elem_of_nil|].
  intros [Hk Hd]%wf_cons [[= -> ->]|Hin]%elem_of_cons; simpl.
  - by rewrite decide_True.
  - rewrite decide_False; [auto|]. intros ->. apply Hk.
    unfold keys. apply list_elem_of_In, (in_map fst _ (k0, v)), list_elem_of_In, Hin.
Qed.

Lemma wf_NoDup d : wf d -> NoDup d.
Proof. unfold wf, keys. intros H. apply NoDup_ListNoDup, NoDup_map_inv with (f := fst), NoDup_ListNoDup, H. Qed.

Lemma mem_of_elem k v d : (k, v) ∈ d -> mem k d = true.
Proof.
  unfold mem. induction d as [|[k' v'] d IH]; [by intros ?%elem_of_nil|].
  intros Hin. simpl. destruct (decide (k = k')); [done|].
  apply IH. apply elem_of_cons in Hin as [Heq|]; [congruence|done].
Qed.

Lemma get_drop_eq k d : get k (drop k d) = None.
Proof.
  unfold drop. induction d as [|[k' v'] d IH]; simpl; [done|].
  destruct (decide (k' = k)) as [->|Hne]; simpl.
  - by rewrite bool_decide_eq_true_2.
  - rewrite bool_decide_eq_false_2 by done. simpl. by rewrite decide_False by congruence.
Qed.

Lemma get_drop_ne k k' d : k <> k' -> get k (drop k' d) = get k d.
Proof.
  intros Hne. unfold drop. induction d as [|[k'' v] d IH]; simpl; [done|].
  destruct (decide (k'' = k')) as [->|Hne'].
  - rewrite bool_decide_eq_true_2 by done. simpl. by rewrite decide_False.
  - rewrite bool_decide_eq_false_2 by done. simpl. by rewrite IH.
Qed.

Lemma set_get_same k v d : get k d = Some v -> set k v d = d.
Proof.
  induction d as [|[k' v'] d IH]; simpl; [done|].
  destruct (decide (k = k')) as [->|]; [by intros [= ->]|]. intros Hg. by rewrite IH.
Qed.

Lemma get_Some_elem k v d : get k d = Some v -> (k, v) ∈ d.
Proof.
  induction d as [|[k0 v0] d IH]; simpl; [done|].
  destruct (decide (k = k0)) as [->|]; intros H; [injection H as ->; left|right; auto].
Qed.

Lemma get_Some_in k v d : get k d = Some v → k ∈ keys d.
Proof.
  induction d as [|[k0 v0] d IH]; simpl; [done|].
  destruct (decide (k = k0)) as [->|]; intros H; [left|right; auto].
Qed.
End Dict.
End PyDict.

#[export] Hint Resolve PyDict.set_wf PyDict.drop_wf PyDict.get_Some_in : pydb.
#[export] Hint Rewrite @PyDict.get_set_eq : pyrw.

(** ** Lists *)

Section ListFacts.
Context {A : Type}.

Lemma filter_all (f : A -> bool) l : (forall x, x ∈ l -> f x = true) -> List.filter f l = l.
Proof.
  induction l as [|x l IH]; intros Hf; simpl; [done|].
  rewrite (Hf x) by left. f_equal. apply IH. intros y Hy. apply Hf. by right.
Qed.

Lemma filter_none (f : A -> bool) l : (forall x, x ∈ l -> f x = false) -> List.filter f l = [].
Proof.
  induction l as [|x l IH]; intros Hf; simpl; [done|].
  rewrite (Hf x) by left. apply IH. intros y Hy. apply Hf. by right.
Qed.

Lemma filter_ext_elem (f g : A -> bool) l :
  (forall x, x ∈ l -> f x = g x) -> List.filter f l = List.filter g l.
Proof. intros H. apply filter_ext_in. intros x Hx. apply H, list_elem_of_In, Hx. Qed.

Lemma elem_of_filter_bool (f : A -> bool) l x : x ∈ List.filter f l <-> x ∈ l /\ f x = true.
Proof. rewrite !list_elem_of_In. apply filter_In. Qed.

Lemma StronglySorted_app_elem (R : A -> A -> Prop) l1 l2 x y :
  StronglySorted R (l1 ++ l2) -> x ∈ l1 -> y ∈ l2 -> R x y.
Proof.
  induction l1 as [|z l1 IH]; simpl; [by intros _ ?%elem_of_nil|].
  intros Hs [->|Hx]%elem_of_cons Hy; apply StronglySorted_inv in Hs as [Hs Hall].
  - apply Forall_forall with (x := y) in Hall; [done|]. apply list_elem_of_In, in_or_app. right.
    by apply list_elem_of_In.
  - by apply IH.
Qed.
Lemma NoDup_submseteq_inv (l k : list A) : l ⊆+ k -> NoDup k -> NoDup l.
Proof.
  intros (r & Hk)%submseteq_Permutation Hnd. rewrite Hk in Hnd.
  by apply NoDup_app in Hnd as [? _].
Qed.

Lemma concat_map_submseteq {B} (f g : B -> list A) (l : list B) :
  (forall x, x ∈ l -> f x ⊆+ g x) -> concat (map f l) ⊆+ concat (map g l).
Proof.
  induction l as [|x l IH]; intros Hfg; simpl; [done|].
  apply submseteq_app; [by apply Hfg; left|]. apply IH. intros y Hy. apply Hfg. by right.
Qed.
Lemma filter_sublist_bool (f : A -> bool) l : List.filter f l `sublist_of` l.
Proof. induction l as [|x l IH]; simpl; [constructor|]. destruct (f x); by constructor. Qed.

Lemma filter_comm (f g : A -> bool) l :
  List.filter f (List.filter g l) = List.filter g (List.filter f l).
Proof.
  induction l as [|x l IH]; simpl; [done|].
  destruct (f x) eqn:Hf, (g x) eqn:Hg; simpl; rewrite ?Hf, ?Hg, IH; done.
Qed.

Lemma Permutation_filter_bool (f : A -> bool) l k : l ≡ₚ k -> List.filter f l ≡ₚ List.filter f k.
Proof.
  induction 1 as [|x l k _ IH|x y l|l m k _ IH1 _ IH2]; simpl.
  - done.
  - destruct (f x); [by constructor|done].
  - destruct (f x), (f y); try constructor; done.
  - by rewrite IH1, IH2.
Qed.
Lemma filter_not_in_drop `{EqDecision A} (l : list A) n : NoDup l ->
  List.filter (fun x => negb (bool_decide (x ∈ drop n l))) l = take n l.
Proof.
  intros Hnd.
  transitivity (List.filter (fun x => negb (bool_decide (x ∈ drop n l))) (take n l ++ drop n l));
    [by rewrite take_drop|].
  rewrite <- (take_drop n l) in Hnd. apply NoDup_app in Hnd as (_ & Hdis & _).
  rewrite List.filter_app, filter_all, filter_none, app_nil_r; [done| |].
  - intros x Hx. by rewrite bool_decide_eq_true_2.
  - intros x Hx. rewrite bool_decide_eq_false_2; [done|]. by apply Hdis.
Qed.

Lemma concat_map_nil {B} (f : B -> list A) (l : list B) :
  (forall x, x ∈ l -> f x = []) -> concat (map f l) = [].
Proof.
  induction l as [|x l IH]; intros Hf; simpl; [done|].
  rewrite Hf by left. apply IH. intros y Hy. apply Hf. by right.
Qed.
End ListFacts.

Lemma map_submseteq {A B} (f : A -> B) (l k : list A) : l ⊆+ k -> map f l ⊆+ map f k.
Proof. induction 1; simpl; econstructor; eauto. Qed.

(** A boolean property checked on every integer of [lo .. lo + n - 1]
    holds on each of them: how bounded claims are decided by evaluation. *)
Lemma forallb_Z_range (P : Z -> bool) (lo : Z) (n : nat) (z : Z) :
  forallb (fun k => P (lo + Z.of_nat k)%Z) (seq 0 n) = true ->
  (lo <= z < lo + Z.of_nat n)%Z -> P z = true.
Proof.
  intros Hall Hz. rewrite forallb_forall in Hall.
  replace z with (lo + Z.of_nat (Z.to_nat (z - lo)))%Z by lia.
  apply Hall, in_seq. lia.
Qed.

(** ** The state-and-exception monad of Python statements.
    A computation runs on a state [S] and either returns a value or
    raises an exception; the state it leaves is kept in both cases,
    since Python does not roll back the effects before a [raise]. *)

Inductive outcome (A : Type) :=
  | Ret (a : A)
  | Exc (e : PyExc).
Arguments Ret {A} a.
Arguments Exc {A} e.

Definition PyM (S A : Type) := S -> S * outcome A.

Section Monad.
Context {S : Type}.

Definition pret {A} (a : A) : PyM S A := fun s => (s, Ret a).

Definition pbind {A B} (m : PyM S A) (k : A -> PyM S B) : PyM S B :=
  fun s => match m s with
           | (s', Ret a) => k a s'
           | (s', Exc e) => (s', Exc e)
           end.

Definition raise {A} (e : PyExc) : PyM S A := fun s => (s, Exc e).

Definition pget : PyM S S := fun s => (s, Ret s).
Definition pmodify (f : S -> S) : PyM S unit := fun s => (f s, Ret tt).

(** [try: m except E: h]: the handler answers [Some h] for the
    exceptions its [except] clause catches, [None] for the others,
    which propagate. *)
Definition try_except {A} (m : PyM S A) (h : PyExc -> option (PyM S A))
  : PyM S A :=
  fun s => match m s with
           | (s', Exc e) => match h e with Some k => k s' | None => (s', Exc e) end
           | r => r
           end.

(** [for x in xs: body(x)]: the first exception ends the loop. *)
Fixpoint pfor {A} (xs : list A) (body : A -> PyM S unit) : PyM S unit :=
  match xs with
  | [] => pret tt
  | x :: xs' => pbind (body x) (fun _ => pfor xs' body)
  end.

Lemma pbind_ret {A B} (a : A) (k : A -> PyM S B) s :
  pbind (pret a) k s = k a s.
Proof. reflexivity. Qed.

Lemma pbind_raise {A B} e (k : A -> PyM S B) s :
  pbind (raise e) k s = (s, Exc e).
Proof. reflexivity. Qed.

Lemma pbind_assoc {A B C} (m : PyM S A) (k : A -> PyM S B) (j : B -> PyM S C) s :
  pbind (pbind m k) j s = pbind m (fun a => pbind (k a) j) s.
Proof. unfold pbind. by destruct (m s) as [s' [a|e]]. Qed.

(** Running [pbind m k] when [m] is known to return. *)
Lemma pbind_Ret {A B} (m : PyM S A) (k : A -> PyM S B) s s' a :
  m s = (s', Ret a) -> pbind m k s = k a s'.
Proof. unfold pbind. by intros ->. Qed.

Lemma pbind_Exc {A B} (m : PyM S A) (k : A -> PyM S B) s s' e :
  m s = (s', Exc e) -> pbind m k s = (s', Exc e).
Proof. unfold pbind. by intros ->. Qed.
(** A run that ends normally ran each step of a bind normally. *)
Lemma pbind_Ret_inv {A B} (m : PyM S A) (k : A -> PyM S B) s s' b :
  pbind m k s = (s', Ret b) -> exists s1 a, m s = (s1, Ret a) /\ k a s1 = (s', Ret b).
Proof. unfold pbind. destruct (m s) as [s1 [a|e]]; [eauto|intros [=]]. Qed.

Lemma try_except_Ret_inv {A} (m : PyM S A) h s s' a :
  try_except m h s = (s', Ret a) ->
  m s = (s', Ret a) \/ exists s1 e k, m s = (s1, Exc e) /\ h e = Some k /\ k s1 = (s', Ret a).
Proof.
  unfold try_except. destruct (m s) as [s1 [b|e]]; intros Hr; [by left|].
  destruct (h e) as [k|] eqn:He; [|congruence]. right. by exists s1, e, k.
Qed.

(** A property of the state that every step keeps is kept by their
    composition, whether the run ends normally or by an exception. *)
Lemma pbind_preserves {A B} (P : S -> Prop) (m : PyM S A) (k : A -> PyM S B) s :
  (forall s, P s -> P (fst (m s))) -> (forall a s, P s -> P (fst (k a s))) ->
  P s -> P (fst (pbind m k s)).
Proof.
  intros Hm Hk Hs. unfold pbind. specialize (Hm s Hs).
  destruct (m s) as [s' [a|e]]; simpl in *; auto.
Qed.

Lemma pfor_preserves {A} (P : S -> Prop) (xs : list A) (body : A -> PyM S unit) s :
  (forall x s, x ∈ xs -> P s -> P (fst (body x s))) -> P s -> P (fst (pfor xs body s)).
Proof.
  revert s. induction xs as [|x xs IH]; intros s Hb Hs; simpl; [done|].
  apply pbind_preserves; [intros s'; by apply Hb; left| |done].
  intros _ s' Hs'. apply IH; [|done]. intros y s'' Hy. apply Hb. by right.
Qed.
End Monad.

Notation "x <- m ;; k" := (pbind m (fun x => k))
  (at level 100, m at next level, right associativity) : py_scope.
Notation "m ;;; k" := (pbind m (fun _ => k))
  (at level 100, right associativity) : py_scope.

#[export] Hint Rewrite @pbind_ret @pbind_raise : pyrw.
