(* ===== verification/PyStr.v ===== *)
(** * PyStr: the Python [str] operations the program calls

    Strings are the Standard Library's [string] (ASCII characters):
    repository names, paths, command arguments, process output and tags.
    Each definition is the documented behaviour of the CPython method
    for ASCII text; the whitespace set of [str.split()] and [str.strip()]
    is ASCII's [str.isspace]: 9 to 13 and 28 to 32.  [count] works on any
    list with decidable equality, since the file contents it is applied to
    are sequences of code points. *)

From S2P Require Import Prelude.
From Stdlib Require Import Ascii DecimalString DecimalN.

Open Scope string_scope.

Module PyStr.

(** [c.isspace()] for an ASCII character. *)
Definition is_space (c : ascii) : bool :=
  let n := nat_of_ascii c in
  (Nat.leb 9 n && Nat.leb n 13) || (Nat.leb 28 n && Nat.leb n 32).

Definition is_digit (c : ascii) : bool :=
  let n := nat_of_ascii c in Nat.leb 48 n && Nat.leb n 57.

(** [prefix in s] *)
Fixpoint contains (sub s : string) : bool :=
  String.prefix sub s ||
  match s with "" => false | String _ s' => contains sub s' end.

Definition startswith (s p : string) : bool := String.prefix p s.

Definition endswith (s suf : string) : bool :=
  let n := String.length s in
  let m := String.length suf in
  Nat.leb m n && String.eqb (String.substring (n - m) m s) suf.

(** [s[i:]] and [s[:-k]] for [0 <= i] and [0 < k]. *)
Definition slice_from (i : nat) (s : string) : string :=
  String.substring i (String.length s - i) s.
Definition drop_last (k : nat) (s : string) : string :=
  String.substring 0 (String.length s - k) s.

(** Splitting at every character satisfying [p]: [s.split(sep)] for a
    one-character separator.  There is always at least one part. *)
Fixpoint split_pred (p : ascii -> bool) (s : string) : list string :=
  match s with
  | "" => [""]
  | String c s' =>
      match split_pred p s' with
      | [] => []
      | w :: ws => if p c then "" :: w :: ws else String c w :: ws
      end
  end.

Definition split (sep : ascii) (s : string) : list string :=
  split_pred (fun c => Ascii.eqb c sep) s.

(** [s.split()]: maximal runs of non-whitespace, no empty parts. *)
Definition split_ws (s : string) : list string :=
  filter (fun w => negb (String.eqb w "")) (split_pred is_space s).

Fixpoint lstrip (s : string) : string :=
  match s with
  | String c s' => if is_space c then lstrip s' else s
  | "" => ""
  end.

Fixpoint rstrip (s : string) : string :=
  match s with
  | String c s' =>
      let r := rstrip s' in
      if String.eqb r "" && is_space c then "" else String c r
  | "" => ""
  end.

Definition strip (s : string) : string := rstrip (lstrip s).

(** [sep.join(parts)] *)
Fixpoint join (sep : string) (parts : list string) : string :=
  match parts with
  | [] => ""
  | [w] => w
  | w :: ws => w +:+ sep +:+ join sep ws
  end.

(** [l[-n:]] *)
Definition last_n {A} (n : nat) (l : list A) : list A := drop (length l - n) l.

(** [str(n)] for a Python [int]. *)
Definition str_of_N (n : N) : string := NilEmpty.string_of_uint (N.to_uint n).
Definition str_of_Z (z : Z) : string :=
  match z with
  | Zneg p => "-" +:+ str_of_N (Npos p)
  | _ => str_of_N (Z.to_N z)
  end.

(** [int(s)] in base 10: optional surrounding whitespace, an optional
    sign, then digits where single underscores may separate two digits. *)
Fixpoint digits_tail_ok (s : string) : bool :=
  match s with
  | "" => true
  | String c s' =>
      if is_digit c then digits_tail_ok s'
      else if Ascii.eqb c "_" then
        match s' with
        | String c2 s'' => is_digit c2 && digits_tail_ok s''
        | "" => false
        end
      else false
  end.

Definition digits_ok (s : string) : bool :=
  match s with String c s' => is_digit c && digits_tail_ok s' | "" => false end.

Fixpoint drop_underscores (s : string) : string :=
  match s with
  | "" => ""
  | String c s' => if Ascii.eqb c "_" then drop_underscores s' else String c (drop_underscores s')
  end.

Definition parse_N (s : string) : option N :=
  if digits_ok s then
    match NilEmpty.uint_of_string (drop_underscores s) with
    | Some u => Some (N.of_uint u)
    | None => None
    end
  else None.

Definition parse_signed (s : string) : option Z :=
  match s with
  | String "-" s' => option_map (fun n => Z.opp (Z.of_N n)) (parse_N s')
  | String "+" s' => option_map Z.of_N (parse_N s')
  | _ => option_map Z.of_N (parse_N s)
  end.

(** [int(s)]: [None] is the [ValueError] of CPython. *)
Definition py_int (s : string) : option Z := parse_signed (strip s).

(** ** [int(str(n)) = n] *)

Fixpoint all_digits (s : string) : bool :=
  match s with "" => true | String c s' => is_digit c && all_digits s' end.

Lemma all_digits_string_of_uint u : all_digits (NilEmpty.string_of_uint u) = true.
Proof. induction u; simpl; auto. Qed.

(** Facts about one digit character, checked on all 256 characters. *)
Local Ltac by_char c := destruct c as [[] [] [] [] [] [] [] []]; vm_compute; auto.

Lemma digit_not_space c : is_digit c = true -> is_space c = false.
Proof. by_char c. Qed.

Lemma digit_not_underscore c : is_digit c = true -> Ascii.eqb c "_" = false.
Proof. by_char c. Qed.

Lemma parse_signed_digit c s :
  is_digit c = true -> parse_signed (String c s) = option_map Z.of_N (parse_N (String c s)).
Proof. by_char c; discriminate. Qed.

Lemma all_digits_facts s :
  all_digits s = true ->
  digits_tail_ok s = true /\ drop_underscores s = s /\ rstrip s = s.
Proof.
  induction s as [|c s IH]; simpl; [done|].
  intros [Hc Hs]%andb_prop. destruct (IH Hs) as (H1 & H2 & H3).
  rewrite Hc, H1, digit_not_underscore, H2, H3 by done.
  rewrite digit_not_space by done. by rewrite andb_false_r.
Qed.

Lemma str_of_N_shape n :
  exists c s, str_of_N n = String c s /\ is_digit c = true /\ all_digits s = true.
Proof.
  unfold str_of_N. pose proof (all_digits_string_of_uint (N.to_uint n)) as Hd.
  assert (Hnil : N.to_uint n <> Decimal.Nil).
  { intros E. pose proof (Unsigned.of_to n) as Hn. rewrite E in Hn.
    simpl in Hn. subst n. discriminate E. }
  destruct (N.to_uint n); [congruence|..];
    simpl in Hd |- *; do 2 eexists; split_and!; first [reflexivity | exact Hd].
Qed.

Lemma parse_N_str_of_N n : parse_N (str_of_N n) = Some n.
Proof.
  destruct (str_of_N_shape n) as (c & s & E & Hc & Hs).
  unfold parse_N. rewrite E. simpl. rewrite Hc.
  destruct (all_digits_facts s Hs) as (H1 & H2 & _). rewrite H1.
  rewrite digit_not_underscore, H2, <- E by done. unfold str_of_N.
  by rewrite NilEmpty.usu, Unsigned.of_to.
Qed.

Lemma strip_str_of_N n : strip (str_of_N n) = str_of_N n.
Proof.
  destruct (str_of_N_shape n) as (c & s & E & Hc & Hs). rewrite E.
  unfold strip. simpl. rewrite digit_not_space by done.
  assert (Hall : all_digits (String c s) = true) by (simpl; by rewrite Hc, Hs).
  apply all_digits_facts in Hall as (_ & _ & ->). done.
Qed.

Lemma parse_signed_str_of_N n : parse_signed (str_of_N n) = Some (Z.of_N n).
Proof.
  destruct (str_of_N_shape n) as (c & s & E & Hc & _).
  rewrite E, parse_signed_digit, <- E, parse_N_str_of_N by done. done.
Qed.

(** [int(str(n)) == n] for every Python [int]: the parser the token
    counter's output goes through reads back every decimal rendering. *)
Lemma py_int_str_of_Z z : py_int (str_of_Z z) = Some z.
Proof.
  unfold py_int, str_of_Z. destruct z as [|p|p].
  - by rewrite strip_str_of_N, parse_signed_str_of_N.
  - by rewrite strip_str_of_N, parse_signed_str_of_N.
  - destruct (str_of_N_shape (Npos p)) as (c & s & E & Hc & Hs).
    assert (Hall : all_digits (String c s) = true) by (simpl; by rewrite Hc, Hs).
    apply all_digits_facts in Hall as (_ & _ & Hr).
    unfold strip. simpl. rewrite E. simpl in Hr |- *. rewrite Hr. simpl.
    rewrite <- E, parse_N_str_of_N. done.
Qed.

(** A decimal rendering has no final newline, so a regular
    expression's [$] reads it as it is. *)
Lemma all_digits_no_newline s : all_digits s = true -> endswith s (String "010" "") = false.
Proof.
  induction s as [|c s IH]; [done|]. cbn [all_digits]. intros [Hc Hs]%andb_prop.
  destruct s as [|c' s'].
  - revert Hc. by_char c; discriminate.
  - specialize (IH Hs). unfold endswith in *. cbn in *. by rewrite Nat.sub_0_r in IH.
Qed.

(** ** Splitting and suffixes *)

Fixpoint all_chars (p : ascii -> bool) (s : string) : bool :=
  match s with "" => true | String c s' => p c && all_chars p s' end.

Lemma split_pred_cons p s : exists w ws, split_pred p s = w :: ws.
Proof.
  induction s as [|c s (w & ws & IH)]; simpl; [eauto|]. rewrite IH.
  destruct (p c); eauto.
Qed.

Lemma split_pred_no_sep p s : all_chars (fun c => negb (p c)) s = true -> split_pred p s = [s].
Proof.
  induction s as [|c s IH]; simpl; [done|].
  intros [Hc Hs]%andb_prop. rewrite IH by done. by destruct (p c).
Qed.

Lemma split_pred_app_sep p a c b :
  p c = true -> split_pred p (a +:+ String c b) = (split_pred p a ++ split_pred p b)%list.
Proof.
  intros Hc. induction a as [|d a IH]; simpl.
  - rewrite Hc. destruct (split_pred_cons p b) as (w & ws & ->). done.
  - rewrite IH. destruct (split_pred_cons p a) as (w & ws & ->). simpl.
    by destruct (p d).
Qed.

Lemma length_append (a b : string) : String.length (a +:+ b) = (String.length a + String.length b)%nat.
Proof. induction a; simpl; auto. Qed.

(** stdpp makes [String.append] [simpl never]; its defining equation. *)
Lemma append_cons x (a b : string) : String x a +:+ b = String x (a +:+ b).
Proof. reflexivity. Qed.

Lemma append_assoc (a b c : string) : a +:+ (b +:+ c) = (a +:+ b) +:+ c.
Proof. induction a as [|x a IH]; [done|]. by rewrite !append_cons, IH. Qed.

Lemma all_digits_append a b : all_digits (a +:+ b) = all_digits a && all_digits b.
Proof. induction a as [|c a IH]; [done|]. rewrite append_cons. simpl. by rewrite IH, andb_assoc. Qed.

Lemma all_chars_append p a b : all_chars p (a +:+ b) = all_chars p a && all_chars p b.
Proof. induction a as [|c a IH]; [done|]. rewrite append_cons. simpl. by rewrite IH, andb_assoc. Qed.

Lemma substring_all t : String.substring 0 (String.length t) t = t.
Proof. induction t; simpl; congruence. Qed.

(** Positions past a prefix [a] are positions of what follows it. *)
Lemma substring_app_ge a b i n :
  String.length a <= i -> String.substring i n (a +:+ b) = String.substring (i - String.length a) n b.
Proof.
  revert i. induction a as [|x a IH]; intros i Hi; [by rewrite Nat.sub_0_r|].
  rewrite append_cons. destruct i as [|i]; [cbn in Hi; lia|]. cbn in Hi |- *. apply IH. lia.
Qed.

Lemma substring_app_len a b n : n = String.length a -> String.substring 0 n (a +:+ b) = a.
Proof.
  intros ->. induction a as [|x a IH]; [by destruct b|]. rewrite append_cons. cbn. by rewrite IH.
Qed.

Lemma substring_suffix a t :
  String.substring (String.length a) (String.length t) (a +:+ t) = t.
Proof. induction a; simpl; [apply substring_all|done]. Qed.

Lemma substring_prefix a t : String.substring 0 (String.length a) (a +:+ t) = a.
Proof. induction a; simpl; [by destruct t|congruence]. Qed.

Lemma endswith_append a t : endswith (a +:+ t) t = true.
Proof.
  unfold endswith. rewrite length_append.
  replace (String.length a + String.length t - String.length t)%nat with (String.length a) by lia.
  rewrite substring_suffix, String.eqb_refl. apply andb_true_intro; split; [|done].
  apply Nat.leb_le. lia.
Qed.

Lemma drop_last_append a t : drop_last (String.length t) (a +:+ t) = a.
Proof.
  unfold drop_last. rewrite length_append.
  replace (String.length a + String.length t - String.length t)%nat with (String.length a) by lia.
  apply substring_prefix.
Qed.

End PyStr.

(** [seq.count(sub)] for a non-empty [sub]: non-overlapping occurrences
    scanned from the left.  [skip] is the number of elements of the last
    match still to be passed over, which keeps the recursion structural. *)
Section Count.
Context {A : Type} `{EqDecision A}.

Fixpoint is_prefix (p l : list A) : bool :=
  match p, l with
  | [], _ => true
  | x :: p', y :: l' => bool_decide (x = y) && is_prefix p' l'
  | _ :: _, [] => false
  end.

Fixpoint count_go (pat : list A) (skip : nat) (l : list A) : nat :=
  match l with
  | [] => 0
  | _ :: l' =>
      match skip with
      | S k => count_go pat k l'
      | O => if is_prefix pat l then S (count_go pat (pred (length pat)) l')
             else count_go pat 0 l'
      end
  end.

Definition count (pat l : list A) : nat := count_go pat 0 l.

End Count.

