(* ===== verification/Config.v ===== *)
(** * Config: the configuration document [self.config]

    [yaml.safe_load] of [gitingest.yaml] yields a dictionary with three
    sections, [settings], [repositories] and [profiles]; the code reads
    the keys of a section either with [d[k]] (a [KeyError] when absent)
    or with [d.get(k, default)].  Each key the code reads is a field of
    a record below, an [option] where the document may leave it out, so
    that both access styles can be written as in the source.  The two
    named sections are Python dictionaries in document order
    ([pydict]).  The metadata block is the dictionary written by
    [ingest] (lines 213-221). *)

From S2P Require Import Prelude PyStr.

Open Scope string_scope.

(** [repo_config['metadata']] as written by [ingest]. *)
Record IngestMetadata := {
  last_updated : string;
  token_count : Z;
  character_count : Z;
  file_count : Z;
  last_file : string;
  md_profile : string;
  md_hash : string
}.

(** One entry of [repositories].  [rc_extra] lists the keys of the entry
    the code never reads; it matters only to [if not repo_config], which
    is true of an empty mapping. *)
Record RepoConfig := {
  rc_source : option string;
  rc_description : option string;
  rc_exclusions : option (list string);
  rc_metadata : option IngestMetadata;
  rc_extra : list string
}.

Record ProfileConfig := {
  pc_description : option string;
  pc_additional_exclusions : option (list string)
}.

Record Settings := {
  st_output_dir : option string;
  st_token_counter : option string;
  st_default_max_size : option Z
}.

Record Config := {
  settings : Settings;
  repositories : pydict string RepoConfig;
  profiles : pydict string ProfileConfig
}.

(** Truth value of a repository entry: a mapping is false when empty. *)
Definition repo_truthy (rc : RepoConfig) : bool :=
  match rc with
  | {| rc_source := None; rc_description := None; rc_exclusions := None;
       rc_metadata := None; rc_extra := [] |} => false
  | _ => true
  end.

(** [repo_config['metadata'] = {...}]: the block is replaced whole. *)
Definition set_metadata (md : IngestMetadata) (rc : RepoConfig) : RepoConfig :=
  {| rc_source := rc_source rc; rc_description := rc_description rc;
     rc_exclusions := rc_exclusions rc; rc_metadata := Some md;
     rc_extra := rc_extra rc |}.

(** The in-memory update of [ingest] (line 212-213): [repo_config] is the
    object stored under [repo_name], so assigning its key changes
    [self.config]. *)
Definition update_repo_metadata (name : string) (md : IngestMetadata) (cfg : Config)
  : Config :=
  match PyDict.get name (repositories cfg) with
  | Some rc =>
      {| settings := settings cfg;
         repositories := PyDict.set name (set_metadata md rc) (repositories cfg);
         profiles := profiles cfg |}
  | None => cfg
  end.

(** A repository entry without its [metadata] block. *)
Definition meta_erased (rc : RepoConfig) : RepoConfig :=
  {| rc_source := rc_source rc; rc_description := rc_description rc;
     rc_exclusions := rc_exclusions rc; rc_metadata := None; rc_extra := rc_extra rc |}.

(** What of a document the program has no business changing: the
    settings, the profiles, and every repository entry (its name, its
    place and every field) except its [metadata] block. *)
Definition config_skel (cfg : Config) : Config :=
  {| settings := settings cfg;
     repositories := map (fun kv => (kv.1, meta_erased kv.2)) (repositories cfg);
     profiles := profiles cfg |}.

(** Line 213 assigns one key of the entry: the skeleton is unchanged. *)
Lemma update_repo_metadata_skel name md cfg :
  config_skel (update_repo_metadata name md cfg) = config_skel cfg.
Proof.
  unfold update_repo_metadata. destruct (PyDict.get name (repositories cfg)) as [rc|] eqn:Hg;
    [|done].
  unfold config_skel. cbn. f_equal. by apply (PyDict.map_vals_set _ _ _ rc).
Qed.
