(* ===== verification/Exclusions.v ===== *)
(** * Exclusions: [_get_exclusions] and [_build_gitingest_command]

    [_get_exclusions] (lines 41-54) copies the repository's own patterns
    and appends the profile's additional patterns when the profile name
    is a key of [profiles]; an unknown profile adds nothing.
    [_build_gitingest_command] (lines 56-73) reads [source] with
    [repo_config['source']] before calling [_get_exclusions], so an
    unknown repository raises [KeyError] there, not the [ValueError] of
    [_get_exclusions]. *)

From S2P Require Import Prelude PyStr Config.

Open Scope string_scope.
Open Scope list_scope.

Module Exclusions.

Definition not_found_msg (repo_name : string) : string :=
  "Repository '" +:+ repo_name +:+ "' not found in configuration".

(** The profile's contribution, [[]] for an unknown profile. *)
Definition profile_exclusions (cfg : Config) (profile : string) : list string :=
  match PyDict.get profile (profiles cfg) with
  | Some pc => default [] (pc_additional_exclusions pc)
  | None => []
  end.

Definition _get_exclusions (cfg : Config) (repo_name profile : string)
  : outcome (list string) :=
  match PyDict.get repo_name (repositories cfg) with
  | Some rc =>
      if repo_truthy rc then
        Ret (default [] (rc_exclusions rc) ++ profile_exclusions cfg profile)
      else Exc (ValueError (not_found_msg repo_name))
  | None => Exc (ValueError (not_found_msg repo_name))
  end.

(** [cmd.extend(['-s', str(max_size)])] when [max_size] is truthy. *)
Definition size_flag (cfg : Config) : list string :=
  match st_default_max_size (settings cfg) with
  | Some n => if Z.eqb n 0 then [] else ["-s"; PyStr.str_of_Z n]
  | None => []
  end.

(** One [-e pattern] pair per pattern, in order. *)
Definition exclusion_flags (excl : list string) : list string :=
  concat (map (fun e => ["-e"; e]) excl).

Definition _build_gitingest_command (cfg : Config) (repo_name output_file profile : string)
  : outcome (list string) :=
  match PyDict.get repo_name (repositories cfg) with
  | None => Exc (KeyError repo_name)
  | Some rc =>
      match rc_source rc with
      | None => Exc (KeyError "source")
      | Some source =>
          match _get_exclusions cfg repo_name profile with
          | Exc e => Exc e
          | Ret excl =>
              Ret (["gitingest"; source; "-o"; output_file] ++ size_flag cfg
                   ++ exclusion_flags excl)
          end
      end
  end.

(** Reading the [-e] arguments back, as the ingestion tool's argument
    parser does: the inverse of [exclusion_flags]. *)
Fixpoint parse_exclusion_flags (args : list string) : option (list string) :=
  match args with
  | [] => Some []
  | "-e" :: e :: rest => option_map (cons e) (parse_exclusion_flags rest)
  | _ => None
  end.

(** ** Properties *)

Lemma parse_exclusion_flags_roundtrip excl :
  parse_exclusion_flags (exclusion_flags excl) = Some excl.
Proof. unfold exclusion_flags. induction excl as [|e excl IH]; simpl; [done|]. by rewrite IH. Qed.

Lemma profile_exclusions_unknown cfg profile :
  PyDict.get profile (profiles cfg) = None -> profile_exclusions cfg profile = [].
Proof. unfold profile_exclusions. by intros ->. Qed.

(** C18: For a configured repository, [_get_exclusions] returns the
    repository's own patterns, in their order, followed by exactly the
    profile's additional patterns, or by nothing when the profile name
    is unknown. *)
Theorem get_exclusions_order_preserving cfg repo_name profile rc :
  PyDict.get repo_name (repositories cfg) = Some rc ->
  repo_truthy rc = true ->
  _get_exclusions cfg repo_name profile =
    Ret (default [] (rc_exclusions rc) ++
         match PyDict.get profile (profiles cfg) with
         | Some pc => default [] (pc_additional_exclusions pc)
         | None => []
         end).
Proof. intros Hr Ht. unfold _get_exclusions. by rewrite Hr, Ht. Qed.

(** C29: Unknown names: a repository that is absent (or an empty mapping)
    makes [_get_exclusions] raise [ValueError]; an unknown profile is
    accepted silently and contributes no pattern. *)
Theorem get_exclusions_errors cfg repo_name profile :
  (forall rc, PyDict.get repo_name (repositories cfg) = Some rc -> repo_truthy rc = false) ->
  _get_exclusions cfg repo_name profile = Exc (ValueError (not_found_msg repo_name)).
Proof.
  intros H. unfold _get_exclusions.
  destruct (PyDict.get repo_name (repositories cfg)) as [rc|] eqn:E; [|done].
  by rewrite (H rc eq_refl).
Qed.

(** A command line is built only for a configured repository. *)
Lemma build_command_repo cfg repo_name out profile argv :
  _build_gitingest_command cfg repo_name out profile = Ret argv ->
  exists rc, PyDict.get repo_name (repositories cfg) = Some rc.
Proof. unfold _build_gitingest_command. destruct (PyDict.get _ _) as [rc|]; [eauto|done]. Qed.

(** The command line of [_build_gitingest_command] when it returns. *)
Lemma build_command_Ret cfg repo_name out profile argv :
  _build_gitingest_command cfg repo_name out profile = Ret argv ->
  exists rc source excl,
    PyDict.get repo_name (repositories cfg) = Some rc /\
    rc_source rc = Some source /\
    _get_exclusions cfg repo_name profile = Ret excl /\
    argv = ["gitingest"; source; "-o"; out] ++ size_flag cfg ++ exclusion_flags excl.
Proof.
  unfold _build_gitingest_command.
  destruct (PyDict.get repo_name (repositories cfg)) as [rc|] eqn:Hr; [|done].
  destruct (rc_source rc) as [source|] eqn:Hs; [|done].
  destruct (_get_exclusions cfg repo_name profile) as [excl|] eqn:He; [|done].
  intros [= <-]. by exists rc, source, excl.
Qed.

(** C8: The command line is [gitingest <source> -o <output>], then the
    size flag, then one [-e] flag per resolved pattern: reading the
    flags after the fixed prefix back gives exactly the list of
    [_get_exclusions], in its order. *)
Theorem build_command_exclusions_roundtrip cfg repo_name out profile argv :
  _build_gitingest_command cfg repo_name out profile = Ret argv ->
  exists rc source excl,
    PyDict.get repo_name (repositories cfg) = Some rc /\
    rc_source rc = Some source /\
    _get_exclusions cfg repo_name profile = Ret excl /\
    take 4 argv = ["gitingest"; source; "-o"; out] /\
    parse_exclusion_flags (drop (4 + length (size_flag cfg)) argv) = Some excl.
Proof.
  intros (rc & source & excl & Hr & Hs & He & ->)%build_command_Ret.
  exists rc, source, excl. split_and!; [done..| |].
  - reflexivity.
  - simpl. rewrite drop_app_length. apply parse_exclusion_flags_roundtrip.
Qed.

(** C30: [_build_gitingest_command] never raises the [ValueError] of
    [_get_exclusions]: an unknown repository raises [KeyError] with the
    repository name, and an empty entry raises [KeyError 'source'],
    before [_get_exclusions] is called. *)
Theorem build_command_never_valueerror cfg repo_name out profile :
  (PyDict.get repo_name (repositories cfg) = None ->
   _build_gitingest_command cfg repo_name out profile = Exc (KeyError repo_name)) /\
  (forall msg, _build_gitingest_command cfg repo_name out profile <> Exc (ValueError msg)).
Proof.
  unfold _build_gitingest_command. split; [by intros ->|intros msg].
  destruct (PyDict.get repo_name (repositories cfg)) as [rc|] eqn:Hr; [|done].
  destruct (rc_source rc) as [source|] eqn:Hs; [|done].
  unfold _get_exclusions. rewrite Hr.
  destruct (repo_truthy rc) eqn:Ht; [done|].
  destruct rc as [[]]; simpl in *; discriminate.
Qed.

(** ** The configuration of the spec's end-to-end scenario: one
    repository with two patterns, a profile [standard] adding a third. *)

Definition scenario_repo1 : RepoConfig :=
  {| rc_source := Some "/src/repo1"; rc_description := None;
     rc_exclusions := Some ["*.lock"; "node_modules"];
     rc_metadata := None; rc_extra := [] |}.

Definition scenario_cfg : Config :=
  {| settings := {| st_output_dir := Some "out"; st_token_counter := Some "tc";
                    st_default_max_size := None |};
     repositories := [("repo1", scenario_repo1)];
     profiles := [("standard", {| pc_description := Some "std";
                                  pc_additional_exclusions := Some ["tests"] |})] |}.

Lemma get_exclusions_order_preserving_witness :
  _get_exclusions scenario_cfg "repo1" "standard" = Ret ["*.lock"; "node_modules"; "tests"] /\
  _get_exclusions scenario_cfg "repo1" "unknown" = Ret ["*.lock"; "node_modules"].
Proof.
  split; rewrite (get_exclusions_order_preserving _ _ _ scenario_repo1);
    reflexivity.
Defined.

Lemma get_exclusions_errors_witness :
  _get_exclusions scenario_cfg "nope" "standard"
    = Exc (ValueError (not_found_msg "nope")).
Proof.
  apply get_exclusions_errors. intros rc H. discriminate H.
Defined.

Lemma build_command_exclusions_roundtrip_witness :
  _build_gitingest_command scenario_cfg "repo1" "out/tmp.md" "standard" =
    Ret ["gitingest"; "/src/repo1"; "-o"; "out/tmp.md";
         "-e"; "*.lock"; "-e"; "node_modules"; "-e"; "tests"] /\
  exists rc source excl,
    PyDict.get "repo1" (repositories scenario_cfg) = Some rc /\
    rc_source rc = Some source /\
    _get_exclusions scenario_cfg "repo1" "standard" = Ret excl /\
    take 4 ["gitingest"; "/src/repo1"; "-o"; "out/tmp.md";
         "-e"; "*.lock"; "-e"; "node_modules"; "-e"; "tests"]
      = ["gitingest"; source; "-o"; "out/tmp.md"] /\
    parse_exclusion_flags (drop (4 + length (size_flag scenario_cfg))
      ["gitingest"; "/src/repo1"; "-o"; "out/tmp.md";
       "-e"; "*.lock"; "-e"; "node_modules"; "-e"; "tests"]) = Some excl.
Proof.
  split; [reflexivity|].
  apply build_command_exclusions_roundtrip. reflexivity.
Defined.

Lemma build_command_never_valueerror_witness :
  _build_gitingest_command scenario_cfg "nope" "o.md" "standard" = Exc (KeyError "nope").
Proof. apply build_command_never_valueerror. reflexivity. Defined.

End Exclusions.
