(* ===== verification/TokenFormat.v ===== *)
(** * TokenFormat: [_format_token_count] (lines 121-128)

    Three bands: [count >= 1_000_000] prints [f"{count / 1_000_000:.1f}M"],
    [count >= 1000] prints [f"{count // 1000}k"], anything else [str(count)].

    The million band goes through a Python [float]. [count / 1_000_000]
    on two [int]s is CPython's true division: the IEEE-754 binary64 value
    nearest to the exact quotient (ties to even), and [OverflowError]
    when that value is not finite.  It is written with the Standard
    Library's executable IEEE-754 specification [SpecFloat] at
    [prec = 53], [emax = 1024]: [SFdiv_core_binary] computes the quotient
    of the two integers with its rounding location, [binary_round_aux]
    rounds it to nearest-even.  The [.1f] format prints the exact binary
    value rounded to one decimal, ties to even, as CPython's [dtoa] does;
    so 1_950_000 gives [1.9M] (the double nearest 1.95 lies below it)
    while 1_050_000 gives [1.1M]. *)

From S2P Require Import Prelude PyStr.
From Stdlib Require Import SpecFloat.

Open Scope string_scope.

Module TokenFormat.

Local Open Scope Z_scope.

Definition prec : Z := 53.
Definition emax : Z := 1024.

(** [a / b] for Python [int]s, [b > 0]. *)
Definition py_truediv (a : Z) (b : positive) : spec_float :=
  match a with
  | Z0 => S754_zero false
  | Zpos p =>
      let '(m, e, l) := SFdiv_core_binary prec emax (Zpos p) 0 (Zpos b) 0 in
      binary_round_aux prec emax false m e l
  | Zneg p =>
      let '(m, e, l) := SFdiv_core_binary prec emax (Zpos p) 0 (Zpos b) 0 in
      binary_round_aux prec emax true m e l
  end.

(** [q] rounded to nearest, ties to even, from [q = n / d] with [d > 0]. *)
Definition round_half_even_div (n d : Z) : Z :=
  let '(q, r) := Z.div_eucl n d in
  match Z.compare (2 * r) d with
  | Lt => q
  | Gt => q + 1
  | Eq => if Z.even q then q else q + 1
  end.

(** The exact value [m * 2^e] times ten, rounded to an integer. *)
Definition tenths (m : positive) (e : Z) : Z :=
  if Z.leb 0 e then 10 * Zpos m * 2 ^ e
  else round_half_even_div (10 * Zpos m) (2 ^ (- e)).

(** [format(x, '.1f')] for a finite float; [t] counts tenths. *)
Definition show_tenths (t : Z) : string :=
  PyStr.str_of_Z (t / 10) +:+ "." +:+ PyStr.str_of_Z (t mod 10).

Definition format_1f (x : spec_float) : string :=
  match x with
  | S754_zero false => "0.0"
  | S754_zero true => "-0.0"
  | S754_finite false m e => show_tenths (tenths m e)
  | S754_finite true m e => "-" +:+ show_tenths (tenths m e)
  | S754_infinity false => "inf"
  | S754_infinity true => "-inf"
  | S754_nan => "nan"
  end.

Definition _format_token_count (count : Z) : outcome string :=
  if Z.leb 1000000 count then
    match py_truediv count 1000000 with
    | S754_infinity _ => Exc OverflowError
    | x => Ret (format_1f x +:+ "M")
    end
  else if Z.leb 1000 count then Ret (PyStr.str_of_Z (count / 1000) +:+ "k")
  else Ret (PyStr.str_of_Z count).

(** ** Properties *)

(** C11: The three bands of [_format_token_count]: below 1000 the count is
    printed as is; from 1000 to 999_999 it is printed as [v] thousands
    with [1 <= v <= 999], truncated ([1000 v <= count < 1000 v + 1000]);
    from 1_000_000 on the text is the [.1f] rendering of the float
    quotient followed by [M], or [OverflowError] when the quotient is
    not a finite float. *)
Theorem format_token_count_bands (c : Z) :
  (c < 1000 -> _format_token_count c = Ret (PyStr.str_of_Z c)) /\
  (1000 <= c < 1000000 ->
     exists v, _format_token_count c = Ret (PyStr.str_of_Z v +:+ "k") /\
               1 <= v <= 999 /\ 1000 * v <= c < 1000 * v + 1000) /\
  (1000000 <= c ->
     match py_truediv c 1000000 with
     | S754_infinity _ => _format_token_count c = Exc OverflowError
     | x => _format_token_count c = Ret (format_1f x +:+ "M")
     end).
Proof.
  unfold _format_token_count. split_and!.
  - intros Hc. rewrite (proj2 (Z.leb_gt 1000000 c)), (proj2 (Z.leb_gt 1000 c)) by lia.
    done.
  - intros Hc. rewrite (proj2 (Z.leb_gt 1000000 c)), (proj2 (Z.leb_le 1000 c)) by lia.
    exists (c / 1000). split; [done|].
    pose proof (Z.div_mod c 1000 ltac:(lia)). pose proof (Z.mod_pos_bound c 1000 ltac:(lia)).
    lia.
  - intros Hc. rewrite (proj2 (Z.leb_le 1000000 c)) by lia.
    by destruct (py_truediv c 1000000).
Qed.

(** The values the spec fixes, and the float behaviour of the million
    band, evaluated: 999, 1000 and 1_000_000 give [999], [1k], [1.0M]; the [k]
    band truncates (999_999 gives [999k]); a tie on an exactly
    representable quotient rounds to even (1_250_000 gives [1.2M]); a
    decimal tie that is not representable follows the binary value
    (1_050_000 gives [1.1M], 1_950_000 gives [1.9M]); 2^1100 raises
    [OverflowError]. *)
Theorem format_token_count_examples :
  _format_token_count 999 = Ret "999" /\
  _format_token_count 1000 = Ret "1k" /\
  _format_token_count 999999 = Ret "999k" /\
  _format_token_count 1000000 = Ret "1.0M" /\
  _format_token_count 1250000 = Ret "1.2M" /\
  _format_token_count 1050000 = Ret "1.1M" /\
  _format_token_count 1950000 = Ret "1.9M" /\
  _format_token_count (2 ^ 1100) = Exc OverflowError.
Proof. vm_compute. split_and!; reflexivity. Qed.

Lemma format_token_count_bands_witness :
  _format_token_count 42 = Ret "42" /\ _format_token_count 482999 = Ret "482k".
Proof.
  split.
  - apply (proj1 (format_token_count_bands 42)). lia.
  - destruct (proj1 (proj2 (format_token_count_bands 482999)) ltac:(lia))
      as (v & Hv & Hb & Hlo & Hhi).
    assert (v = 482) as -> by lia. exact Hv.
Defined.

End TokenFormat.
