(* ===== verification/TextIO.v ===== *)
(** * TextIO: what [open(path, 'r', encoding='utf-8').read()] returns

    The program reads the ingestion output three times as text
    ([_count_tokens] twice, [ingest] once) and once as bytes
    ([_get_file_hash]).  A file is a list of bytes (integers in
    [0, 256)); text is a list of code points.  Text mode decodes with
    CPython's strict UTF-8 codec, which rejects overlong forms,
    surrogates and code points above U+10FFFF ([UnicodeDecodeError]),
    then applies universal newlines: "\r\n" and a lone "\r" both
    become "\n".  [len(content)] counts code points after that
    translation. *)

From S2P Require Import Prelude.

Local Open Scope Z_scope.

Module TextIO.

Definition cont (b : Z) : bool := (128 <=? b) && (b <=? 191).
Definition in_range (lo hi b : Z) : bool := (lo <=? b) && (b <=? hi).

Definition cp2 (b1 b2 : Z) : Z := (b1 - 192) * 64 + (b2 - 128).
Definition cp3 (b1 b2 b3 : Z) : Z := ((b1 - 224) * 64 + (b2 - 128)) * 64 + (b3 - 128).
Definition cp4 (b1 b2 b3 b4 : Z) : Z :=
  (((b1 - 240) * 64 + (b2 - 128)) * 64 + (b3 - 128)) * 64 + (b4 - 128).

(** The range allowed for the second byte after a lead byte of a
    three- or four-byte sequence (Table 3-7 of the Unicode standard,
    which CPython's decoder follows). *)
Definition second_ok (b1 b2 : Z) : bool :=
  if b1 =? 224 then in_range 160 191 b2
  else if b1 =? 237 then in_range 128 159 b2
  else if b1 =? 240 then in_range 144 191 b2
  else if b1 =? 244 then in_range 128 143 b2
  else cont b2.

Fixpoint decode_utf8 (bs : list Z) : option (list Z) :=
  match bs with
  | [] => Some []
  | b1 :: rest =>
      if in_range 0 127 b1 then option_map (cons b1) (decode_utf8 rest)
      else if in_range 194 223 b1 then
        match rest with
        | b2 :: rest' =>
            if cont b2 then option_map (cons (cp2 b1 b2)) (decode_utf8 rest') else None
        | [] => None
        end
      else if in_range 224 239 b1 then
        match rest with
        | b2 :: b3 :: rest' =>
            if second_ok b1 b2 && cont b3
            then option_map (cons (cp3 b1 b2 b3)) (decode_utf8 rest') else None
        | _ => None
        end
      else if in_range 240 244 b1 then
        match rest with
        | b2 :: b3 :: b4 :: rest' =>
            if second_ok b1 b2 && cont b3 && cont b4
            then option_map (cons (cp4 b1 b2 b3 b4)) (decode_utf8 rest') else None
        | _ => None
        end
      else None
  end.

(** Universal newlines of text mode. *)
Fixpoint translate_newlines (cs : list Z) : list Z :=
  match cs with
  | 13 :: 10 :: rest => 10 :: translate_newlines rest
  | 13 :: rest => 10 :: translate_newlines rest
  | c :: rest => c :: translate_newlines rest
  | [] => []
  end.

(** [f.read()] in text mode; [None] is [UnicodeDecodeError]. *)
Definition read_text (bs : list Z) : option (list Z) :=
  option_map translate_newlines (decode_utf8 bs).

(** ** The encoder, used to state the round trip *)

Definition scalar_value (c : Z) : bool :=
  in_range 0 1114111 c && negb (in_range 55296 57343 c).

Definition encode_cp (c : Z) : list Z :=
  if c <? 128 then [c]
  else if c <? 2048 then [192 + c / 64; 128 + c mod 64]
  else if c <? 65536 then [224 + c / 4096; 128 + (c / 64) mod 64; 128 + c mod 64]
  else [240 + c / 262144; 128 + (c / 4096) mod 64; 128 + (c / 64) mod 64; 128 + c mod 64].

Definition encode_utf8 (cs : list Z) : list Z := concat (map encode_cp cs).

(** Decide every byte-range test of the decoder on a goal where the
    byte values are known up to linear arithmetic, and drop the branches
    the arithmetic rules out. *)
Ltac range_cases :=
  repeat (match goal with
          | |- context [in_range _ _ _] => unfold in_range
          | |- context [cont _] => unfold cont
          | |- context [second_ok _ _] => unfold second_ok
          | |- context [Z.leb ?a ?b] => destruct (Z.leb_spec a b)
          | |- context [Z.eqb ?a ?b] => destruct (Z.eqb_spec a b)
          | |- context [Z.ltb ?a ?b] => destruct (Z.ltb_spec a b)
          end; cbn [andb orb negb]; try (exfalso; zlia)).

Lemma scalar_value_spec c :
  scalar_value c = true <-> 0 <= c <= 1114111 /\ ~ (55296 <= c <= 57343).
Proof.
  unfold scalar_value. range_cases; split; intros; try done; try lia.
Qed.

Lemma decode_encode_cp c rest :
  scalar_value c = true ->
  decode_utf8 (encode_cp c ++ rest) = option_map (cons c) (decode_utf8 rest).
Proof.
  unfold encode_cp. intros Hc%scalar_value_spec.
  destruct (Z.ltb_spec c 128); [|destruct (Z.ltb_spec c 2048); [|destruct (Z.ltb_spec c 65536)]];
    cbn [app decode_utf8]; range_cases; f_equal; f_equal;
    unfold cp2, cp3, cp4; zlia.
Qed.

(** Strict UTF-8 decoding, as [open(..., encoding='utf-8')] does it,
    inverts encoding on every list of Unicode scalar values. *)
Lemma decode_encode_utf8 cs :
  Forall (fun c => scalar_value c = true) cs -> decode_utf8 (encode_utf8 cs) = Some cs.
Proof.
  unfold encode_utf8. induction 1 as [|c cs Hc _ IH]; [done|].
  cbn [map concat]. by rewrite decode_encode_cp, IH.
Qed.

Lemma decode_encode_utf8_witness :
  decode_utf8 (encode_utf8 [104; 233; 8364; 128512]%Z) = Some [104; 233; 8364; 128512]%Z.
Proof. apply decode_encode_utf8. repeat constructor. Defined.

End TextIO.
