(* ===== verification/World.v ===== *)
(** * World: the state the program acts on and the outside it calls

    [World] is everything a run of [gitingest_manager.py] can change:
    the manager's in-memory document [self.config], the configuration
    file as last saved, the files and directories of the file system,
    the JSON log [ingestion_log.json] and the messages printed so far.

    [Externals] is the interface of what the program does not compute
    itself: the clock, the three external programs ([gitingest], the
    token counter, [git config]), the HTTP request and MD5.  Each is an
    oracle, a function of the inputs the program passes; a component
    that calls one is proved for every instance of the class.  The
    primitive file operations are written here, in the [PyM World]
    monad, with the exceptions CPython raises. *)

From S2P Require Import Prelude PyStr Config TextIO.
From Stdlib Require Import Ascii.

Open Scope string_scope.
Open Scope py_scope.

Record FileObj := { f_bytes : list Z; f_mtime : Z }.

#[export] Instance FileObj_eq_dec : EqDecision FileObj.
Proof.
  intros [b1 m1] [b2 m2].
  destruct (decide (b1 = b2)) as [->|Hb]; [destruct (decide (m1 = m2)) as [->|Hm]|].
  - by left.
  - right. congruence.
  - right. congruence.
Defined.

(** One record of [ingestion_log.json] (lines 253-262). *)
Record LogEntry := {
  le_timestamp : string; le_repository : string; le_profile : string;
  le_file : string; le_tokens : Z; le_characters : Z; le_files : Z;
  le_hash : string
}.

(** The log file: absent, a JSON list of entries, other JSON, or text
    [json.load] rejects. *)
Inductive LogFile :=
  | LogAbsent
  | LogList (entries : list LogEntry)
  | LogNotList
  | LogInvalid.

(** What [argparse] reports before it exits with status 2, with the
    values its message names: the action's option strings joined by
    [/] ([--keep/-k]) and the offending argument. *)
Inductive ArgError :=
  | ErrInvalidChoice (value : string)
  | ErrExpectedOne (option : string)
  | ErrInvalidInt (option value : string)
  | ErrIgnoredExplicit (option value : string)
  | ErrAmbiguous (arg : string)
  | ErrRequired (names : list string)
  | ErrUnrecognized (args : list string).

(** What the program prints, with the values it computes for it. *)
Inductive Msg :=
  | MsgIngesting (repo profile : string)
  | MsgRunning (cmdline : string)
  | MsgProcessOutput (stdout : string)
  | MsgCounting
  | MsgCounterMissing (path : string)
  | MsgCounterError (returncode : Z)
  | MsgReleaseWarning
  | MsgIngested (repo path : string) (tokens chars files : Z)
  | MsgGitingestError (returncode : Z) (stderr : string)
  | MsgCleaning (keep : Z)
  | MsgRemoving (name : string) (size : Z)
  | MsgRemoved (count bytes : Z)
  | MsgRepoRequired
  | MsgReposHeader
  | MsgRepo (name description : string)
  | MsgRepoSource (source : string) (n_exclusions : Z)
  | MsgRepoMeta (last_updated profile : string) (tokens chars : Z)
  | MsgProfilesHeader
  | MsgProfile (name : string)
  | MsgProfileInfo (description : string) (n_additional : Z)
  | MsgIngestedHeader (dir : string)
  | MsgNoIngested
  | MsgIngestedFile (name : string) (size mtime : Z)
  | MsgHelp
  | MsgUsage (err : ArgError).

Record World := {
  w_config : Config;
  w_config_file : Config;
  w_fs : pydict string FileObj;
  w_dirs : list string;
  w_log : LogFile;
  w_out : list Msg
}.

(** A process run by [subprocess.run]: its exit status and output, or
    an executable that cannot be started. *)
Inductive ProcResult :=
  | ProcExit (returncode : Z) (stdout stderr : string)
  | ProcNotFound.

(** A JSON value as [response.json()] returns it. *)
Inductive Json :=
  | JNull | JBool (b : bool) | JNum (n : Z) | JStr (s : string)
  | JArr (xs : list Json) | JObj (fields : list (string * Json)).

(** [requests.get(url, timeout=5)]: an exception (timeout, connection),
    or a response with its status and its body parsed as JSON ([None]
    when [response.json()] raises). *)
Inductive HttpResult :=
  | HttpRaises
  | HttpResponse (status : Z) (body : option Json).

Record DateTime := {
  dt_year : Z; dt_month : Z; dt_day : Z; dt_hour : Z; dt_minute : Z; dt_second : Z
}.

Class Externals := {
  ext_now : DateTime;
  ext_clock : Z;
  (** [gitingest] run with [argv]: its result and the bytes it leaves at
      its [-o] path, if it created the file. *)
  ext_gitingest : list string -> ProcResult * option (list Z);
  ext_counter_exists : string -> bool;
  (** the counter run on a path whose content is given *)
  ext_counter : string -> string -> option (list Z) -> ProcResult;
  (** [git -C <path> config --get remote.origin.url] *)
  ext_git_remote : string -> ProcResult;
  ext_http_get : string -> HttpResult;
  ext_md5_hex : list Z -> string;
  (** [os.path.expandvars], which reads the environment *)
  ext_expandvars : string -> string
}.

(** ** Paths *)

(** [str(Path(d) / n)] for a normalised directory [d]. *)
Definition join_path (d n : string) : string :=
  if String.eqb d "." then n else d +:+ "/" +:+ n.

(** The directory a path names an entry of. *)
Definition parent (p : string) : string :=
  match removelast (PyStr.split "/" p) with
  | [] => "."
  | ws => PyStr.join "/" ws
  end.

Definition world_with_fs (w : World) (fs : pydict string FileObj) : World :=
  {| w_config := w_config w; w_config_file := w_config_file w;
     w_fs := fs; w_dirs := w_dirs w; w_log := w_log w; w_out := w_out w |}.

Definition world_emit (w : World) (m : Msg) : World :=
  {| w_config := w_config w; w_config_file := w_config_file w;
     w_fs := w_fs w; w_dirs := w_dirs w; w_log := w_log w; w_out := w_out w ++ [m] |}.

(** ** Primitive effects *)

Section Effects.
Context `{Externals}.

Definition emit (m : Msg) : PyM World unit := pmodify (fun w => world_emit w m).

Definition set_fs (fs : pydict string FileObj) : PyM World unit :=
  pmodify (fun w => world_with_fs w fs).

Definition file_exists (p : string) : PyM World bool :=
  w <- pget ;; pret (PyDict.mem p (w_fs w)).

(** [open(p, 'rb').read()] *)
Definition read_bytes (p : string) : PyM World (list Z) :=
  w <- pget ;;
  match PyDict.get p (w_fs w) with
  | Some f => pret (f_bytes f)
  | None => raise (FileNotFoundError p)
  end.

(** [open(p, 'r', encoding='utf-8').read()] *)
Definition read_text (p : string) : PyM World (list Z) :=
  bs <- read_bytes p ;;
  match TextIO.read_text bs with
  | Some cs => pret cs
  | None => raise UnicodeDecodeError
  end.

(** [Path(p).unlink()] *)
Definition unlink (p : string) : PyM World unit :=
  w <- pget ;;
  if PyDict.mem p (w_fs w) then set_fs (PyDict.drop p (w_fs w))
  else raise (FileNotFoundError p).

(** [Path(src).rename(dst)]: POSIX [rename], which replaces an existing
    [dst]; the file keeps its bytes and modification time. *)
Definition rename (src dst : string) : PyM World unit :=
  w <- pget ;;
  match PyDict.get src (w_fs w) with
  | None => raise (FileNotFoundError src)
  | Some f =>
      if bool_decide (parent dst ∈ w_dirs w) then
        set_fs (PyDict.set dst f (PyDict.drop src (w_fs w)))
      else raise (FileNotFoundError dst)
  end.

(** [subprocess.run(argv, capture_output=True, text=True, check=True)] *)
Definition run_checked (exe : string) (r : ProcResult) : PyM World string :=
  match r with
  | ProcNotFound => raise (FileNotFoundError exe)
  | ProcExit 0 out _ => pret out
  | ProcExit code _ err => raise (CalledProcessError code err)
  end.

End Effects.

(** What a report may change: only the printed messages. *)
Definition same_but_out (w w' : World) : Prop :=
  w_config w' = w_config w /\ w_config_file w' = w_config_file w /\ w_fs w' = w_fs w /\
  w_dirs w' = w_dirs w /\ w_log w' = w_log w.

Definition prints_only {A} (m : PyM World A) : Prop := forall w, same_but_out w (fst (m w)).

(** The invariant of every state a command produces from a document
    whose skeleton is [S]: the document in memory and the one saved
    both have the skeleton [S], that is, only metadata blocks differ. *)
Definition world_skel (S : Config) (w : World) : Prop :=
  config_skel (w_config w) = S /\ config_skel (w_config_file w) = S.

(** A step keeps the invariant, whether it returns or raises. *)
Definition keeps_skel {A} (m : PyM World A) : Prop :=
  forall S w, world_skel S w -> world_skel S (fst (m w)).

(** ** Concrete instances, for running the model on examples *)

(** An outside world whose answers do not depend on the arguments. *)
Definition stub_externals (gitingest : ProcResult * option (list Z))
    (counter_present : bool) (counter : ProcResult) (git : ProcResult)
    (http : HttpResult) : Externals :=
  {| ext_now := {| dt_year := 2026; dt_month := 11; dt_day := 9;
                   dt_hour := 8; dt_minute := 5; dt_second := 3 |};
     ext_clock := 1762675503;
     ext_gitingest := fun _ => gitingest;
     ext_counter_exists := fun _ => counter_present;
     ext_counter := fun _ _ _ => counter;
     ext_git_remote := fun _ => git;
     ext_http_get := fun _ => http;
     ext_md5_hex := fun _ => "9e107d9d372bb6826bd81d3542a419d6";
     ext_expandvars := fun s => s |}.

Definition empty_config : Config :=
  {| settings := {| st_output_dir := Some "out"; st_token_counter := Some "tc";
                    st_default_max_size := None |};
     repositories := []; profiles := [] |}.

Definition initial_world (cfg : Config) (fs : pydict string FileObj) (dirs : list string)
  : World :=
  {| w_config := cfg; w_config_file := cfg; w_fs := fs; w_dirs := dirs;
     w_log := LogAbsent; w_out := [] |}.

(** ** Steps that only print *)

Lemma same_but_out_trans w1 w2 w3 : same_but_out w1 w2 -> same_but_out w2 w3 -> same_but_out w1 w3.
Proof. unfold same_but_out. intros (?&?&?&?&?) (?&?&?&?&?). split_and!; congruence. Qed.

Lemma emit_prints_only m : prints_only (emit m).
Proof. intros w. done. Qed.

Lemma pret_prints_only {A} (a : A) : prints_only (pret a).
Proof. intros w. done. Qed.

Lemma raise_prints_only {A} e : prints_only (@raise World A e).
Proof. intros w. done. Qed.

Lemma pbind_prints_only {A B} (m : PyM World A) (k : A -> PyM World B) :
  prints_only m -> (forall a, prints_only (k a)) -> prints_only (pbind m k).
Proof.
  intros Hm Hk w. apply (pbind_preserves (same_but_out w)); [| |done].
  - intros s Hs. eapply same_but_out_trans; [exact Hs|apply Hm].
  - intros a s Hs. eapply same_but_out_trans; [exact Hs|apply Hk].
Qed.

Lemma pget_bind_prints_only {B} (k : World -> PyM World B) :
  (forall w, prints_only (k w)) -> prints_only (pbind pget k).
Proof. intros Hk w. apply Hk. Qed.

Lemma pfor_prints_only {A} (xs : list A) body :
  (forall x, prints_only (body x)) -> prints_only (pfor xs body).
Proof.
  intros Hb w. apply (pfor_preserves (same_but_out w)); [|done].
  intros x s _ Hs. eapply same_but_out_trans; [exact Hs|apply Hb].
Qed.

#[export] Hint Resolve emit_prints_only pret_prints_only raise_prints_only pbind_prints_only
  pget_bind_prints_only pfor_prints_only : pydb.

Lemma try_except_prints_only {A} (m : PyM World A) h :
  prints_only m -> (forall e k, h e = Some k -> prints_only k) -> prints_only (try_except m h).
Proof.
  intros Hm Hh w. unfold try_except. specialize (Hm w).
  destruct (m w) as [w1 [a|e]]; [done|]. cbn in Hm.
  destruct (h e) as [k|] eqn:He; [|done]. eapply same_but_out_trans; [exact Hm|by eapply Hh].
Qed.

Lemma run_checked_prints_only exe r : prints_only (run_checked exe r).
Proof. unfold run_checked. destruct r as [[] ? ?|]; auto with pydb. Qed.

#[export] Hint Resolve try_except_prints_only run_checked_prints_only : pydb.

(** ** What a step that returned normally did *)

Lemma emit_Ret m w w' a : emit m w = (w', Ret a) -> w' = world_emit w m.
Proof. by intros [= <-]. Qed.

Lemma read_bytes_Ret p w w' bs :
  read_bytes p w = (w', Ret bs) ->
  w' = w /\ exists f, PyDict.get p (w_fs w) = Some f /\ f_bytes f = bs.
Proof.
  unfold read_bytes, pbind, pget, pret, raise.
  destruct (PyDict.get p (w_fs w)) as [f|]; intros [= <-]; eauto.
Qed.

Lemma read_text_Ret p w w' cs :
  read_text p w = (w', Ret cs) ->
  w' = w /\ exists f, PyDict.get p (w_fs w) = Some f /\ TextIO.read_text (f_bytes f) = Some cs.
Proof.
  unfold read_text. intros (w1 & bs & Hb & Hr)%pbind_Ret_inv.
  apply read_bytes_Ret in Hb as [-> (f & Hf & <-)]. unfold pret, raise in Hr.
  destruct (TextIO.read_text (f_bytes f)) eqn:Ht; [|discriminate].
  injection Hr as <- <-. eauto.
Qed.

Lemma rename_Ret src dst w w' a :
  rename src dst w = (w', Ret a) ->
  exists f, PyDict.get src (w_fs w) = Some f /\ parent dst ∈ w_dirs w /\
            w' = world_with_fs w (PyDict.set dst f (PyDict.drop src (w_fs w))).
Proof.
  unfold rename, pbind, pget, set_fs, pmodify, raise.
  destruct (PyDict.get src (w_fs w)) as [f|]; [|discriminate].
  case_bool_decide; [intros [= <- _]; eauto|discriminate].
Qed.

Lemma run_checked_Ret exe r w w' out :
  run_checked exe r w = (w', Ret out) -> w' = w /\ exists err, r = ProcExit 0 out err.
Proof. destruct r as [[|c|c] o e|]; cbn; intros [= <- <-]; eauto. Qed.

Lemma read_bytes_prints_only p : prints_only (read_bytes p).
Proof. unfold read_bytes. apply pget_bind_prints_only. intros w. destruct (PyDict.get _ _); auto with pydb. Qed.

Lemma read_text_prints_only p : prints_only (read_text p).
Proof.
  unfold read_text. apply pbind_prints_only; [apply read_bytes_prints_only|intros bs].
  destruct (TextIO.read_text bs); auto with pydb.
Qed.

#[export] Hint Resolve read_bytes_prints_only read_text_prints_only : pydb.

(** ** Steps that keep the configuration's skeleton *)

Lemma prints_only_keeps_skel {A} (m : PyM World A) : prints_only m -> keeps_skel m.
Proof. intros Hm S w Hw. destruct (Hm w) as (Hc & Hcf & _). unfold world_skel. by rewrite Hc, Hcf. Qed.

Lemma pbind_keeps_skel {A B} (m : PyM World A) (k : A -> PyM World B) :
  keeps_skel m -> (forall a, keeps_skel (k a)) -> keeps_skel (pbind m k).
Proof. intros Hm Hk S w. apply (pbind_preserves (world_skel S)); auto. by intros a; apply Hk. Qed.

Lemma pget_bind_keeps_skel {B} (k : World -> PyM World B) :
  (forall w, keeps_skel (k w)) -> keeps_skel (pbind pget k).
Proof. intros Hk S w. apply Hk. Qed.

Lemma try_except_keeps_skel {A} (m : PyM World A) h :
  keeps_skel m -> (forall e k, h e = Some k -> keeps_skel k) -> keeps_skel (try_except m h).
Proof.
  intros Hm Hh S w Hw. unfold try_except. specialize (Hm S w Hw).
  destruct (m w) as [w1 [a|e]]; [done|]. cbn in Hm.
  destruct (h e) as [k|] eqn:He; [|done]. by eapply Hh.
Qed.

(** The file operations touch neither document. *)
Lemma set_fs_keeps_skel fs : keeps_skel (set_fs fs).
Proof. intros S w Hw. exact Hw. Qed.

Lemma unlink_keeps_skel p : keeps_skel (unlink p).
Proof.
  intros S w Hw. unfold unlink, pbind, pget. cbn -[PyDict.mem].
  by destruct (PyDict.mem p (w_fs w)).
Qed.

Lemma rename_keeps_skel src dst : keeps_skel (rename src dst).
Proof.
  intros S w Hw. unfold rename, pbind, pget. cbn -[PyDict.get].
  destruct (PyDict.get src (w_fs w)); [|done]. by case_bool_decide.
Qed.

Lemma emit_keeps_skel m : keeps_skel (emit m).
Proof. apply prints_only_keeps_skel, emit_prints_only. Qed.

#[export] Hint Resolve prints_only_keeps_skel pbind_keeps_skel pget_bind_keeps_skel
  try_except_keeps_skel set_fs_keeps_skel unlink_keeps_skel rename_keeps_skel
  emit_keeps_skel : pydb.

Lemma pget_prints_only : prints_only pget.
Proof. intros w. done. Qed.

#[export] Hint Resolve pget_prints_only : pydb.

(** Walk the binds, branches and handlers of a step; the leaves are
    closed by the lemmas of [pydb]. *)
Ltac keeps_step :=
  match goal with
  | |- keeps_skel (pbind _ _) => apply pbind_keeps_skel
  | |- keeps_skel (try_except _ _) => apply try_except_keeps_skel
  | |- forall _, _ => intro
  | |- keeps_skel (match ?x with _ => _ end) => destruct x
  | |- keeps_skel (if ?b then _ else _) => destruct b
  end.

Ltac solve_keeps := repeat keeps_step; eauto with pydb.

(** ** Steps that return normally *)

Lemma read_bytes_ok p w f :
  PyDict.get p (w_fs w) = Some f -> read_bytes p w = (w, Ret (f_bytes f)).
Proof. intros Hf. unfold read_bytes, pbind, pget. cbn. by rewrite Hf. Qed.

Lemma read_text_ok fp w f cs :
  PyDict.get fp (w_fs w) = Some f -> TextIO.read_text (f_bytes f) = Some cs ->
  read_text fp w = (w, Ret cs).
Proof. intros Hf Hc. unfold read_text, read_bytes, pbind, pget. by rewrite Hf; cbn; rewrite Hc. Qed.

Lemma rename_missing_dir src dst w f :
  PyDict.get src (w_fs w) = Some f -> parent dst ∉ w_dirs w ->
  rename src dst w = (w, Exc (FileNotFoundError dst)).
Proof.
  intros Hf Hd. unfold rename, pbind, pget. cbn -[PyDict.get]. rewrite Hf.
  by rewrite bool_decide_eq_false_2.
Qed.

Lemma rename_ok src dst w f :
  PyDict.get src (w_fs w) = Some f -> parent dst ∈ w_dirs w ->
  rename src dst w = (world_with_fs w (PyDict.set dst f (PyDict.drop src (w_fs w))), Ret tt).
Proof.
  intros Hf Hd. unfold rename, pbind, pget. cbn -[PyDict.get]. rewrite Hf.
  by rewrite bool_decide_eq_true_2.
Qed.
