(* ===== verification/TokenCounter.v ===== *)
(** * TokenCounter: [_count_tokens] (lines 75-114)

    Returns [(token_count, char_count)] for a file.  When
    [Path(self.token_counter).exists()] is false, prints a warning and
    estimates [len(text) // 4].  Otherwise runs the counter with
    [check=True] inside [try ... except subprocess.CalledProcessError]:
    a non-zero exit prints an error and falls back to the same
    estimate; a zero exit parses the first whitespace-separated word of
    the output with [int()].  An empty output ([raise ValueError]) and a
    first word that is not an integer ([int()]'s [ValueError]) are not
    caught: they leave [_count_tokens] as exceptions.  The character
    count is always [len(text)] of a fresh text-mode read of the file. *)

From S2P Require Import Prelude PyStr Config TextIO World.

Open Scope string_scope.
Open Scope py_scope.

Module TokenCounter.
Section WithExternals.
Context `{Externals}.

(** The fallback of lines 80-84 and 111-114. *)
Definition estimate (file_path : string) : PyM World (Z * Z) :=
  content <- read_text file_path ;;
  let char_count := Z.of_nat (length content) in
  pret (char_count / 4, char_count)%Z.

(** Lines 88-106, the body of the [try]. *)
Definition run_counter (token_counter file_path : string) : PyM World (Z * Z) :=
  w <- pget ;;
  stdout <- run_checked token_counter
              (ext_counter token_counter file_path
                 (option_map f_bytes (PyDict.get file_path (w_fs w)))) ;;
  match PyStr.split_ws (PyStr.strip stdout) with
  | [] => raise (ValueError "Unable to parse token counter output")
  | first :: _ =>
      match PyStr.py_int first with
      | None => raise (ValueError "invalid literal for int() with base 10")
      | Some token_count =>
          content <- read_text file_path ;;
          pret (token_count, Z.of_nat (length content))
      end
  end.

Definition _count_tokens (token_counter file_path : string) : PyM World (Z * Z) :=
  if negb (ext_counter_exists token_counter) then
    emit (MsgCounterMissing token_counter) ;;; estimate file_path
  else
    try_except (run_counter token_counter file_path)
      (fun e => match e with
                | CalledProcessError code _ =>
                    Some (emit (MsgCounterError code) ;;; estimate file_path)
                | _ => None
                end).

(** The token count [_count_tokens] returns for the file at [fp] with
    bytes [bs] and text [cs], when it returns one: the counter's first
    word, or the estimate when the counter is missing or fails. *)
Definition counted_tokens (tc fp : string) (bs cs : list Z) : option Z :=
  if ext_counter_exists tc then
    match ext_counter tc fp (Some bs) with
    | ProcExit 0 out _ =>
        match PyStr.split_ws (PyStr.strip out) with
        | first :: _ => PyStr.py_int first
        | [] => None
        end
    | ProcExit _ _ _ => Some (Z.of_nat (length cs) / 4)%Z
    | ProcNotFound => None
    end
  else Some (Z.of_nat (length cs) / 4)%Z.

(** ** Properties *)

Lemma estimate_ok fp w f cs :
  PyDict.get fp (w_fs w) = Some f -> TextIO.read_text (f_bytes f) = Some cs ->
  estimate fp w = (w, Ret (Z.of_nat (length cs) / 4, Z.of_nat (length cs)))%Z.
Proof. intros Hf Hc. unfold estimate. by erewrite pbind_Ret by (eapply read_text_ok; eauto). Qed.

Lemma run_counter_exit0 tc fp w f out err :
  PyDict.get fp (w_fs w) = Some f ->
  ext_counter tc fp (Some (f_bytes f)) = ProcExit 0 out err ->
  run_counter tc fp w =
    match PyStr.split_ws (PyStr.strip out) with
    | [] => (w, Exc (ValueError "Unable to parse token counter output"))
    | first :: _ =>
        match PyStr.py_int first with
        | None => (w, Exc (ValueError "invalid literal for int() with base 10"))
        | Some t => pbind (read_text fp) (fun c => pret (t, Z.of_nat (length c))) w
        end
    end.
Proof.
  intros Hf Hr. unfold run_counter, pbind, pget. rewrite Hf. cbn. rewrite Hr. cbn.
  destruct (PyStr.split_ws (PyStr.strip out)) as [|first ?]; [done|].
  by destruct (PyStr.py_int first).
Qed.

Lemma estimate_Ret fp w w' t c :
  estimate fp w = (w', Ret (t, c)) ->
  w' = w /\ exists f cs, PyDict.get fp (w_fs w) = Some f /\
                       TextIO.read_text (f_bytes f) = Some cs /\ c = Z.of_nat (length cs).
Proof.
  unfold estimate. intros (w1 & cs & Hr & Hp)%pbind_Ret_inv.
  apply read_text_Ret in Hr as [-> (f & Hf & Hc)]. injection Hp as <- _ <-. eauto 6.
Qed.

Lemma run_counter_Ret tc fp w w' t c :
  run_counter tc fp w = (w', Ret (t, c)) ->
  w' = w /\ exists f cs, PyDict.get fp (w_fs w) = Some f /\
                       TextIO.read_text (f_bytes f) = Some cs /\ c = Z.of_nat (length cs).
Proof.
  unfold run_counter. intros (w1 & w0 & Hg & Hr)%pbind_Ret_inv. injection Hg as <- <-.
  apply pbind_Ret_inv in Hr as (w2 & out & Hc & Hr). apply run_checked_Ret in Hc as [-> _].
  destruct (PyStr.split_ws _) as [|first rest]; [discriminate|].
  destruct (PyStr.py_int first) as [tok|]; [|discriminate].
  apply pbind_Ret_inv in Hr as (w3 & cs & Ht & Hp). apply read_text_Ret in Ht as [-> (f & Hf & Hc)].
  injection Hp as <- _ <-. eauto 6.
Qed.

Lemma run_counter_prints_only tc fp : prints_only (run_counter tc fp).
Proof.
  unfold run_counter. apply pget_bind_prints_only. intros w.
  apply pbind_prints_only; [auto with pydb|intros out].
  destruct (PyStr.split_ws _) as [|first ?]; [auto with pydb|].
  destruct (PyStr.py_int first); auto with pydb.
Qed.

(** Whichever branch returned, [_count_tokens] only printed, and the
    character count is the length of the file's text. *)
Lemma count_tokens_Ret tc fp w w' t c :
  _count_tokens tc fp w = (w', Ret (t, c)) ->
  same_but_out w w' /\ exists f cs, PyDict.get fp (w_fs w) = Some f /\
     TextIO.read_text (f_bytes f) = Some cs /\ c = Z.of_nat (length cs).
Proof.
  unfold _count_tokens. destruct (negb _).
  - intros (w1 & [] & He & Hr)%pbind_Ret_inv. apply emit_Ret in He as ->.
    apply estimate_Ret in Hr as [-> Hc]. split; [apply emit_prints_only|exact Hc].
  - intros [Hr|(w1 & e & k & Hr & Hk & Hrun)]%try_except_Ret_inv.
    + apply run_counter_Ret in Hr as [-> Hc]. done.
    + destruct e; try discriminate. injection Hk as <-.
      pose proof (run_counter_prints_only tc fp w) as Hs. rewrite Hr in Hs. cbn in Hs.
      apply pbind_Ret_inv in Hrun as (w2 & [] & He & Hest). apply emit_Ret in He as ->.
      apply estimate_Ret in Hest as [-> (f & cs & Hf & Hcs & Hc)].
      split; [eapply same_but_out_trans; [exact Hs|apply emit_prints_only]|].
      destruct Hs as (_ & _ & Hfs & _). exists f, cs. by rewrite <- Hfs.
Qed.

Lemma estimate_prints_only fp : prints_only (estimate fp).
Proof. unfold estimate. apply pbind_prints_only; auto with pydb. Qed.

(** [_count_tokens] changes nothing but the output, whatever it returns. *)
Lemma count_tokens_prints_only tc fp : prints_only (_count_tokens tc fp).
Proof.
  unfold _count_tokens. destruct (negb _).
  - apply pbind_prints_only; auto using estimate_prints_only with pydb.
  - apply try_except_prints_only; [apply run_counter_prints_only|].
    intros [] k Hk; try discriminate. injection Hk as <-.
    apply pbind_prints_only; auto using estimate_prints_only with pydb.
Qed.

Lemma run_counter_fail tc fp w f code out err :
  PyDict.get fp (w_fs w) = Some f ->
  ext_counter tc fp (Some (f_bytes f)) = ProcExit code out err -> code <> 0%Z ->
  run_counter tc fp w = (w, Exc (CalledProcessError code err)).
Proof.
  intros Hf Hr Hc. unfold run_counter, pbind, pget. rewrite Hf. cbn. rewrite Hr.
  destruct code; [congruence|done|done].
Qed.

(** When [counted_tokens] gives a count, [_count_tokens] returns it with
    the length of the text, and only prints. *)
Lemma count_tokens_total tc fp w f cs t :
  PyDict.get fp (w_fs w) = Some f -> TextIO.read_text (f_bytes f) = Some cs ->
  counted_tokens tc fp (f_bytes f) cs = Some t ->
  exists w', _count_tokens tc fp w = (w', Ret (t, Z.of_nat (length cs))) /\ same_but_out w w'.
Proof.
  intros Hf Hcs Ht.
  enough (Hc : exists w', _count_tokens tc fp w = (w', Ret (t, Z.of_nat (length cs)))).
  { destruct Hc as [w' Hc]. exists w'. split; [done|].
    pose proof (count_tokens_prints_only tc fp w) as Hs. by rewrite Hc in Hs. }
  unfold counted_tokens in Ht. unfold _count_tokens.
  destruct (ext_counter_exists tc) eqn:He; cbn -[estimate run_counter].
  - unfold try_except.
    destruct (ext_counter tc fp (Some (f_bytes f))) as [[|c|c] out err|] eqn:Hr; try discriminate.
    + rewrite (run_counter_exit0 _ _ _ f out err) by done.
      destruct (PyStr.split_ws _) as [|first ?]; [discriminate|]. rewrite Ht.
      erewrite pbind_Ret by (eapply read_text_ok; eauto). eauto.
    + rewrite (run_counter_fail _ _ _ f (Zpos c) out err) by done.
      cbn -[estimate]. erewrite estimate_ok by eauto. injection Ht as <-. eauto.
    + rewrite (run_counter_fail _ _ _ f (Zneg c) out err) by done.
      cbn -[estimate]. erewrite estimate_ok by eauto. injection Ht as <-. eauto.
  - erewrite estimate_ok by eauto. injection Ht as <-. eauto.
Qed.

Section File.
Context (tc fp : string) (w : World) (f : FileObj) (cs : list Z).
Hypothesis Hf : PyDict.get fp (w_fs w) = Some f.
Hypothesis Hcs : TextIO.read_text (f_bytes f) = Some cs.
Let n : Z := Z.of_nat (length cs).

(** C10: Counter absent: [_count_tokens] prints the warning and returns
    [(n // 4, n)] where [n] is the length of the decoded text. *)
Theorem count_tokens_missing_fallback :
  ext_counter_exists tc = false ->
  _count_tokens tc fp w = (fst (emit (MsgCounterMissing tc) w), Ret (n / 4, n))%Z.
Proof.
  intros He. unfold _count_tokens. rewrite He. cbn -[estimate].
  by erewrite estimate_ok by (cbn; eauto).
Qed.

(** C27: Counter exits with a non-zero status: the [CalledProcessError]
    is caught, an error is printed and the same estimate is returned. *)
Theorem count_tokens_failure_fallback code out err :
  ext_counter_exists tc = true ->
  ext_counter tc fp (Some (f_bytes f)) = ProcExit code out err -> code <> 0%Z ->
  _count_tokens tc fp w = (fst (emit (MsgCounterError code) w), Ret (n / 4, n))%Z.
Proof.
  intros He Hr Hc. unfold _count_tokens. rewrite He. cbn -[estimate run_counter].
  unfold try_except. rewrite (run_counter_fail _ _ _ f code out err) by done.
  cbn -[estimate]. by erewrite estimate_ok by (cbn; eauto).
Qed.

(** C9: Counter succeeds: the token count is [int()] of the first word of
    its output and the character count the length of the decoded text. *)
Theorem count_tokens_success out err first rest t :
  ext_counter_exists tc = true ->
  ext_counter tc fp (Some (f_bytes f)) = ProcExit 0 out err ->
  PyStr.split_ws (PyStr.strip out) = first :: rest -> PyStr.py_int first = Some t ->
  _count_tokens tc fp w = (w, Ret (t, n)).
Proof.
  intros He Hr Hw Ht. unfold _count_tokens. rewrite He. cbn -[run_counter].
  unfold try_except. rewrite (run_counter_exit0 _ _ _ f out err) by done.
  rewrite Hw, Ht. by erewrite pbind_Ret by (eapply read_text_ok; eauto).
Qed.

(** C31: Counter succeeds with an output that has no word, or whose first
    word is not an integer: [_count_tokens] raises [ValueError] and does
    not fall back to the estimate. *)
Theorem count_tokens_unparsable_raises out err :
  ext_counter_exists tc = true ->
  ext_counter tc fp (Some (f_bytes f)) = ProcExit 0 out err ->
  (PyStr.split_ws (PyStr.strip out) = [] \/
   exists first rest, PyStr.split_ws (PyStr.strip out) = first :: rest /\
                      PyStr.py_int first = None) ->
  exists msg, _count_tokens tc fp w = (w, Exc (ValueError msg)).
Proof.
  intros He Hr Hout. unfold _count_tokens. rewrite He. cbn -[run_counter].
  unfold try_except. rewrite (run_counter_exit0 _ _ _ f out err) by done.
  destruct Hout as [-> | (first & rest & -> & ->)]; eauto.
Qed.
End File.

End WithExternals.

(** ** Witnesses: the file [out/f.md] holds "hi" and a CRLF line end,
    three characters once read in text mode. *)

Definition sample_file : FileObj := {| f_bytes := [104; 105; 13; 10]%Z; f_mtime := 0%Z |}.
Definition sample_world : World := initial_world empty_config [("out/f.md", sample_file)] ["."; "out"].
Definition counter_says (r : ProcResult) (present : bool) : Externals :=
  stub_externals (ProcExit 0 "" "", None) present r ProcNotFound HttpRaises.

Lemma count_tokens_missing_fallback_witness :
  @_count_tokens (counter_says ProcNotFound false) "tc" "out/f.md" sample_world =
    (fst (emit (MsgCounterMissing "tc") sample_world),
     Ret (0, 3))%Z.
Proof. apply (count_tokens_missing_fallback _ _ _ sample_file [104; 105; 10]%Z); reflexivity. Defined.

Lemma count_tokens_failure_fallback_witness :
  @_count_tokens (counter_says (ProcExit 2 "" "boom") true) "tc" "out/f.md" sample_world =
    (fst (emit (MsgCounterError 2) sample_world),
     Ret (0, 3))%Z.
Proof.
  apply (count_tokens_failure_fallback "tc" "out/f.md" sample_world sample_file
           [104; 105; 10]%Z eq_refl eq_refl 2 "" "boom"); [reflexivity | reflexivity | lia].
Defined.

Lemma count_tokens_success_witness :
  @_count_tokens (counter_says (ProcExit 0 "  1000 out/f.md  " "") true) "tc" "out/f.md"
    sample_world = (sample_world, Ret (1000, 3))%Z.
Proof.
  apply (count_tokens_success "tc" "out/f.md" sample_world sample_file
           [104; 105; 10]%Z eq_refl eq_refl
           "  1000 out/f.md  " "" "1000" ["out/f.md"]); reflexivity.
Defined.

Lemma count_tokens_unparsable_raises_witness :
  exists msg, @_count_tokens (counter_says (ProcExit 0 "n/a out/f.md" "") true) "tc" "out/f.md"
    sample_world = (sample_world, Exc (ValueError msg)).
Proof.
  apply (count_tokens_unparsable_raises "tc" "out/f.md" sample_world sample_file eq_refl
           "n/a out/f.md" ""); [reflexivity | reflexivity |].
  right. exists "n/a", ["out/f.md"]. split; reflexivity.
Defined.

End TokenCounter.
