(* ===== verification/Version.v ===== *)
(** * Version: [_get_github_version] (lines 130-166)

    Reads [remote.origin.url] with [git -C <path> config --get ...]
    inside a [try] that catches only [CalledProcessError] (no remote:
    [None]).  When the URL contains [github.com], a trailing [.git] is
    cut, the last two [/]-separated parts are taken as owner and
    repository, and the GitHub API is asked for the latest release
    inside a [try] that catches every [Exception] (a warning is printed
    and [None] returned).  On status 200 the [tag_name] of the JSON
    object ([''] when absent) is returned with one leading [v] removed.

    Two paths escape the function: [parts[1]] raises [IndexError] when
    the URL has no [/] (it is outside the inner [try] and not a
    [CalledProcessError]), and a missing [git] executable raises
    [FileNotFoundError]. *)

From S2P Require Import Prelude PyStr Config World.
From Stdlib Require Import Ascii.

Open Scope string_scope.
Open Scope py_scope.

Module Version.

(** [data.get('tag_name', '')] on a JSON object: [json] keeps the last
    binding of a repeated key. *)
Definition json_get (k : string) (fields : list (string * Json)) : option Json :=
  PyDict.get k (rev fields).

(** Lines 154-159 from [response.json()] on: the tag, or the exception
    the inner [try] catches. *)
Definition tag_of_body (body : option Json) : option string :=
  match body with
  | Some (JObj fields) =>
      match json_get "tag_name" fields with
      | None => Some ""
      | Some (JStr t) =>
          Some (if PyStr.startswith t "v" then PyStr.slice_from 1 t else t)
      | Some _ => None
      end
  | _ => None
  end.

Definition api_url (owner repo : string) : string :=
  "https://api.github.com/repos/" +:+ owner +:+ "/" +:+ repo +:+ "/releases/latest".

(** Lines 144-147: the owner and repository parts of the URL, [None]
    for the [IndexError] of [parts[1]]. *)
Definition owner_repo (remote_url : string) : option (string * string) :=
  let url := if PyStr.endswith remote_url ".git" then PyStr.drop_last 4 remote_url
             else remote_url in
  match PyStr.last_n 2 (PyStr.split "/" url) with
  | owner :: repo :: _ => Some (owner, repo)
  | _ => None
  end.

Section WithExternals.
Context `{Externals}.

(** Lines 151-161: the inner [try]. *)
Definition fetch_release (owner repo : string) : PyM World (option string) :=
  match ext_http_get (api_url owner repo) with
  | HttpRaises => emit MsgReleaseWarning ;;; pret None
  | HttpResponse status body =>
      if Z.eqb status 200 then
        match tag_of_body body with
        | Some t => pret (Some t)
        | None => emit MsgReleaseWarning ;;; pret None
        end
      else pret None
  end.

Definition _get_github_version (repo_path : string) : PyM World (option string) :=
  try_except
    (out <- run_checked "git" (ext_git_remote repo_path) ;;
     let remote_url := PyStr.strip out in
     if PyStr.contains "github.com" remote_url then
       match owner_repo remote_url with
       | None => raise IndexError
       | Some (owner, repo) => fetch_release owner repo
       end
     else pret None)
    (fun e => match e with
              | CalledProcessError _ _ => Some (pret None)
              | _ => None
              end).

(** ** Properties *)

Lemma fetch_release_returns owner repo w :
  exists w' v, fetch_release owner repo w = (w', Ret v).
Proof.
  unfold fetch_release. destruct (ext_http_get (api_url owner repo)) as [|st body]; [eauto|].
  destruct (Z.eqb st 200); [|eauto]. destruct (tag_of_body body); eauto.
Qed.

(** C19: The release path: when the remote URL names GitHub, its owner and
    repository parts are found, and the API answers 200 with a string
    [tag_name], the version is that tag without one leading [v], and
    nothing is printed. *)
Theorem github_version_release repo_path w out err owner repo fields t :
  ext_git_remote repo_path = ProcExit 0 out err ->
  PyStr.contains "github.com" (PyStr.strip out) = true ->
  owner_repo (PyStr.strip out) = Some (owner, repo) ->
  ext_http_get (api_url owner repo) = HttpResponse 200 (Some (JObj fields)) ->
  json_get "tag_name" fields = Some (JStr t) ->
  _get_github_version repo_path w =
    (w, Ret (Some (if PyStr.startswith t "v" then PyStr.slice_from 1 t else t))).
Proof.
  intros Hg Hc Ho Hh Ht. unfold _get_github_version, try_except, pbind.
  rewrite Hg. cbn -[PyStr.strip PyStr.contains owner_repo]. rewrite Hc, Ho.
  unfold fetch_release. rewrite Hh. cbn -[json_get]. by rewrite Ht.
Qed.

(** C28: [_get_github_version] degrades to [None] on every failure of git
    (non-zero exit), of the host test, of the request and of the JSON,
    with two exceptions that escape: [IndexError] when the GitHub URL
    has fewer than two [/]-separated parts, and [FileNotFoundError]
    when [git] cannot be run. *)
Theorem github_version_outcomes repo_path w :
  match snd (_get_github_version repo_path w) with
  | Ret _ => True
  | Exc e =>
      (e = IndexError /\ exists out err,
         ext_git_remote repo_path = ProcExit 0 out err /\
         PyStr.contains "github.com" (PyStr.strip out) = true /\
         owner_repo (PyStr.strip out) = None) \/
      (e = FileNotFoundError "git" /\ ext_git_remote repo_path = ProcNotFound)
  end.
Proof.
  unfold _get_github_version, try_except, pbind.
  destruct (ext_git_remote repo_path) as [code out err|] eqn:Hg; cbn; [|by right].
  destruct code as [|c|c]; cbn; [|done|done].
  destruct (PyStr.contains "github.com" (PyStr.strip out)) eqn:Hc; cbn; [|done].
  destruct (owner_repo (PyStr.strip out)) as [[owner repo]|] eqn:Ho; cbn.
  - destruct (fetch_release_returns owner repo w) as (w' & v & ->). done.
  - left. split; [done|]. eauto.
Qed.

Lemma fetch_release_prints_only owner repo : prints_only (fetch_release owner repo).
Proof.
  unfold fetch_release. destruct (ext_http_get _) as [|st body]; [auto with pydb|].
  destruct (Z.eqb st 200); [destruct (tag_of_body body)|]; auto with pydb.
Qed.

(** The version lookup changes nothing but the output. *)
Lemma github_version_prints_only repo_path : prints_only (_get_github_version repo_path).
Proof.
  unfold _get_github_version. apply try_except_prints_only.
  - apply pbind_prints_only; [auto with pydb|intros out].
    destruct (PyStr.contains _ _); [|auto with pydb].
    destruct (owner_repo _) as [[owner repo]|]; auto using fetch_release_prints_only with pydb.
  - intros [] k Hk; try discriminate. injection Hk as <-. auto with pydb.
Qed.

End WithExternals.

(** ** Which URL parts become the owner *)

Definition no_slash (s : string) : bool := PyStr.all_chars (fun c => negb (Ascii.eqb c "/")) s.

Lemma split_slash_app a b : PyStr.split "/" (a +:+ "/" +:+ b) = (PyStr.split "/" a ++ PyStr.split "/" b)%list.
Proof. apply PyStr.split_pred_app_sep. reflexivity. Qed.

Lemma split_slash_single a : no_slash a = true -> PyStr.split "/" a = [a].
Proof. apply PyStr.split_pred_no_sep. Qed.

Lemma owner_repo_of_split base ws owner repo :
  PyStr.split "/" base = (ws ++ [owner; repo])%list ->
  owner_repo (base +:+ ".git") = Some (owner, repo).
Proof.
  intros Hs. unfold owner_repo.
  rewrite PyStr.endswith_append. change 4%nat with (String.length ".git").
  rewrite PyStr.drop_last_append, Hs. unfold PyStr.last_n.
  rewrite length_app. simpl. replace (length ws + 2 - 2)%nat with (length ws) by lia.
  by rewrite drop_app_length.
Qed.

(** C33: The owner is the second-to-last [/]-separated part: an HTTPS
    remote [.../owner/repo.git] gives [(owner, repo)], but an SSH remote
    [git@github.com:owner/repo.git] gives the owner
    [git@github.com:owner], so the API request names a repository that
    does not exist and the version degrades to [latest]. *)
Theorem owner_repo_https_ssh prefix host owner repo :
  no_slash owner = true -> no_slash repo = true -> no_slash host = true ->
  owner_repo (prefix +:+ "/" +:+ owner +:+ "/" +:+ repo +:+ ".git") = Some (owner, repo) /\
  owner_repo (host +:+ ":" +:+ owner +:+ "/" +:+ repo +:+ ".git") =
    Some (host +:+ ":" +:+ owner, repo).
Proof.
  intros Ho Hr Hh. split.
  - replace (prefix +:+ "/" +:+ owner +:+ "/" +:+ repo +:+ ".git")
      with ((prefix +:+ "/" +:+ owner +:+ "/" +:+ repo) +:+ ".git")
      by (rewrite <- !PyStr.append_assoc; reflexivity).
    apply (owner_repo_of_split _ (PyStr.split "/" prefix)).
    by rewrite !split_slash_app, (split_slash_single owner), (split_slash_single repo).
  - replace (host +:+ ":" +:+ owner +:+ "/" +:+ repo +:+ ".git")
      with (((host +:+ ":" +:+ owner) +:+ "/" +:+ repo) +:+ ".git")
      by (rewrite <- !PyStr.append_assoc; reflexivity).
    apply (owner_repo_of_split _ []).
    rewrite split_slash_app, (split_slash_single repo), split_slash_single; try done.
    unfold no_slash in *. by rewrite !PyStr.all_chars_append, Hh, Ho.
Qed.

(** ** Witnesses *)

Definition release_ext (remote : string) : Externals :=
  stub_externals (ProcExit 0 "" "", None) false ProcNotFound
    (ProcExit 0 remote "") (HttpResponse 200 (Some (JObj [("tag_name", JStr "v2.31.0")]))).

Lemma github_version_release_witness :
  @_get_github_version (release_ext "https://github.com/psf/requests.git ") "/src/requests"
    (initial_world empty_config [] ["."]) =
  (initial_world empty_config [] ["."], Ret (Some "2.31.0")).
Proof.
  apply (@github_version_release (release_ext "https://github.com/psf/requests.git ")
           _ _ "https://github.com/psf/requests.git " "" "psf" "requests"
           [("tag_name", JStr "v2.31.0")] "v2.31.0"); reflexivity.
Defined.

Lemma owner_repo_https_ssh_witness :
  owner_repo ("https://github.com" +:+ "/" +:+ "psf" +:+ "/" +:+ "requests" +:+ ".git")
    = Some ("psf", "requests") /\
  owner_repo ("git@github.com" +:+ ":" +:+ "psf" +:+ "/" +:+ "requests" +:+ ".git")
    = Some ("git@github.com" +:+ ":" +:+ "psf", "requests").
Proof. apply owner_repo_https_ssh; reflexivity. Defined.

End Version.
