(* ===== verification/Ingest.v ===== *)
(** * Ingest: [ingest] and the helpers it calls (lines 116-119, 168-266)

    The pipeline, in the order of its effects: print a header; name the
    temporary file [{repo}_temp_{YYYYmmdd_HHMMSS}.md] in the output
    directory; build the command (outside the [try]: [KeyError] escapes);
    then, inside [try ... except subprocess.CalledProcessError]: run
    gitingest, count tokens, read the text and count the occurrences of
    "\n```", resolve the version, format the count, rename the temporary
    file to [{repo}_{version}_{tokens}.md], hash it, replace the
    repository's metadata in [self.config], save the configuration and
    append to the log.  Only a [CalledProcessError] is handled (it can
    come only from gitingest: the counter and git calls catch their
    own): the temporary file is removed if present and [sys.exit(1)]
    raises [SystemExit 1].  Every other exception leaves [ingest] with
    the effects done so far in place. *)

From S2P Require Import Prelude PyStr Config Exclusions TokenFormat TextIO World TokenCounter Version.
From Stdlib Require Import Ascii.

Open Scope string_scope.
Open Scope py_scope.

Module Ingest.

(** [self.output_dir] and [self.token_counter], fixed by [__init__]. *)
Record Manager := { m_output_dir : string; m_token_counter : string }.

(** [%m], [%d], [%H], [%M], [%S]: two digits, zero padded. *)
Definition pad2 (z : Z) : string :=
  if Z.ltb z 10 then "0" +:+ PyStr.str_of_Z z else PyStr.str_of_Z z.

(** [datetime.now().strftime("%Y%m%d_%H%M%S")] *)
Definition timestamp (dt : DateTime) : string :=
  PyStr.str_of_Z (dt_year dt) +:+ pad2 (dt_month dt) +:+ pad2 (dt_day dt) +:+ "_" +:+
  pad2 (dt_hour dt) +:+ pad2 (dt_minute dt) +:+ pad2 (dt_second dt).

(** The integer the digits at positions [i] to [i + n] of [s] read as. *)
Definition field_at (s : string) (i n : nat) : option Z :=
  option_map Z.of_N (PyStr.parse_N (String.substring i n s)).

(** [s] is [n] decimal digits. *)
Definition digits_of_len (n : nat) (s : string) : bool :=
  Nat.eqb (String.length s) n && PyStr.all_digits s.

Definition temp_filename (repo_name stamp : string) : string :=
  repo_name +:+ "_temp_" +:+ stamp +:+ ".md".

Definition final_filename (repo_name version human : string) : string :=
  repo_name +:+ "_" +:+ version +:+ "_" +:+ human +:+ ".md".

(** "\n```", the code-block marker counted as files. *)
Definition fence : list Z := [10; 96; 96; 96]%Z.

Definition lift {A} (o : outcome A) : PyM World A := fun w => (w, o).

Definition log_entry (repo_name profile file : string) (md : IngestMetadata) : LogEntry :=
  {| le_timestamp := last_updated md; le_repository := repo_name; le_profile := profile;
     le_file := file; le_tokens := token_count md; le_characters := character_count md;
     le_files := file_count md; le_hash := md_hash md |}.

Section WithExternals.
Context `{Externals}.

Definition set_world_config (cfg : Config) : PyM World unit :=
  pmodify (fun w => {| w_config := cfg; w_config_file := w_config_file w; w_fs := w_fs w;
                       w_dirs := w_dirs w; w_log := w_log w; w_out := w_out w |}).

(** [_save_config] (lines 36-39): the whole document is rewritten. *)
Definition _save_config : PyM World unit :=
  pmodify (fun w => {| w_config := w_config w; w_config_file := w_config w; w_fs := w_fs w;
                       w_dirs := w_dirs w; w_log := w_log w; w_out := w_out w |}).

(** [_get_file_hash] (lines 116-119): the first 8 hex digits of MD5. *)
Definition _get_file_hash (path : string) : PyM World string :=
  bs <- read_bytes path ;; pret (String.substring 0 8 (ext_md5_hex bs)).

(** [_save_ingestion_log] (lines 241-266): read, append, rewrite. *)
Definition _save_ingestion_log (repo_name profile file : string) (md : IngestMetadata)
  : PyM World unit :=
  w <- pget ;;
  log <- match w_log w with
         | LogAbsent => pret []
         | LogList l => pret l
         | LogNotList => raise AttributeError
         | LogInvalid => raise (ValueError "Expecting value")
         end ;;
  pmodify (fun w => {| w_config := w_config w; w_config_file := w_config_file w;
                       w_fs := w_fs w; w_dirs := w_dirs w;
                       w_log := LogList (log ++ [log_entry repo_name profile file md]);
                       w_out := w_out w |}).

(** [subprocess.run(cmd, ..., check=True)] for gitingest: the process
    may leave its output file whatever its exit status. *)
Definition run_gitingest (cmd : list string) (out_path : string) : PyM World string :=
  let '(r, written) := ext_gitingest cmd in
  match r, written with
  | ProcExit _ _ _, Some bs =>
      w <- pget ;;
      set_fs (PyDict.set out_path {| f_bytes := bs; f_mtime := ext_clock |} (w_fs w))
  | _, _ => pret tt
  end ;;;
  run_checked "gitingest" r.

(** [self.config['repositories'][repo_name]] (lines 196 and 212). *)
Definition repo_config_of (repo_name : string) : PyM World RepoConfig :=
  w <- pget ;;
  match PyDict.get repo_name (repositories (w_config w)) with
  | None => raise (KeyError repo_name)
  | Some rc => pret rc
  end.

(** Lines 196-200: the configured [source], its GitHub release, and
    [latest] for [None] or [''].  *)
Definition lookup_version (repo_name : string) : PyM World string :=
  rc <- repo_config_of repo_name ;;
      match rc_source rc with
      | None => raise (KeyError "source")
      | Some source_path =>
          v <- Version._get_github_version source_path ;;
          match v with
          | Some s => if String.eqb s "" then pret "latest" else pret s
          | None => pret "latest"
          end
      end.

(** Line 195: [if not version] (an explicit empty version is false). *)
Definition resolve_version (repo_name : string) (version : option string)
  : PyM World string :=
  match version with
  | Some v => if String.eqb v "" then lookup_version repo_name else pret v
  | None => lookup_version repo_name
  end.

(** Line 213: [repo_config['metadata'] = {...}], on the dictionary
    stored in [self.config]. *)
Definition store_metadata (repo_name : string) (md : IngestMetadata) : PyM World unit :=
  w <- pget ;; set_world_config (update_repo_metadata repo_name md (w_config w)).

(** Lines 185-231, the body of the [try]. *)
Definition ingest_body (mgr : Manager) (repo_name profile : string) (version : option string)
    (stamp temp_path : string) (cmd : list string) : PyM World unit :=
  out <- run_gitingest cmd temp_path ;;
  emit (MsgProcessOutput out) ;;;
  emit MsgCounting ;;;
  counts <- TokenCounter._count_tokens (m_token_counter mgr) temp_path ;;
  let '(tokens, chars) := counts in
  content <- read_text temp_path ;;
  let files := Z.of_nat (count fence content) in
  v <- resolve_version repo_name version ;;
  human <- lift (TokenFormat._format_token_count tokens) ;;
  let final := final_filename repo_name v human in
  let final_path := join_path (m_output_dir mgr) final in
  rename temp_path final_path ;;;
  _ <- repo_config_of repo_name ;;
  hash <- _get_file_hash final_path ;;
  let md := {| last_updated := stamp; token_count := tokens; character_count := chars;
               file_count := files; last_file := final; md_profile := profile;
               md_hash := hash |} in
  store_metadata repo_name md ;;;
  _save_config ;;;
  _save_ingestion_log repo_name profile final md ;;;
  emit (MsgIngested repo_name final_path tokens chars files).

(** Lines 233-239, the [except subprocess.CalledProcessError] clause. *)
Definition on_gitingest_error (temp_path : string) (e : PyExc) : option (PyM World unit) :=
  match e with
  | CalledProcessError code err =>
      Some (emit (MsgGitingestError code err) ;;;
            present <- file_exists temp_path ;;
            (if present then unlink temp_path else pret tt) ;;;
            raise (SystemExit 1))
  | _ => None
  end.

Definition ingest (mgr : Manager) (repo_name profile : string) (version : option string)
  : PyM World unit :=
  emit (MsgIngesting repo_name profile) ;;;
  let stamp := timestamp ext_now in
  let temp_path := join_path (m_output_dir mgr) (temp_filename repo_name stamp) in
  w <- pget ;;
  cmd <- lift (Exclusions._build_gitingest_command (w_config w) repo_name temp_path profile) ;;
  emit (MsgRunning (PyStr.join " " cmd)) ;;;
  try_except (ingest_body mgr repo_name profile version stamp temp_path cmd)
    (on_gitingest_error temp_path).

(** What a run of [ingest_body] that returned has done, from the state
    [w] it started in: gitingest, run with [cmd], exited 0 after writing
    [bs]; the artifact holds these bytes under its final name, whose
    version and token part are those of the code; the temporary file is
    gone (unless the final name is the temporary name itself); no other
    file changed; the metadata block of [repo_name] was replaced and the
    whole configuration saved; one entry was appended to the log. *)
Definition success_post (mgr : Manager) (repo_name profile stamp temp : string)
    (cmd : list string) (w w' : World) : Prop :=
  exists out err bs cs v human md,
    let final := final_filename repo_name v human in
    let final_path := join_path (m_output_dir mgr) final in
    ext_gitingest cmd = (ProcExit 0 out err, Some bs) /\
    TextIO.read_text bs = Some cs /\
    TokenFormat._format_token_count (token_count md) = Ret human /\
    PyDict.get final_path (w_fs w') = Some {| f_bytes := bs; f_mtime := ext_clock |} /\
    (PyDict.mem temp (w_fs w') = true -> temp = final_path) /\
    (forall p, p <> temp -> p <> final_path -> PyDict.get p (w_fs w') = PyDict.get p (w_fs w)) /\
    w_config w' = update_repo_metadata repo_name md (w_config w) /\
    w_config_file w' = w_config w' /\ w_dirs w' = w_dirs w /\
    md = {| last_updated := stamp; token_count := token_count md;
            character_count := Z.of_nat (length cs); file_count := Z.of_nat (count fence cs);
            last_file := final; md_profile := profile;
            md_hash := String.substring 0 8 (ext_md5_hex bs) |} /\
    exists old, (w_log w = LogAbsent /\ old = [] \/ w_log w = LogList old) /\
                w_log w' = LogList (old ++ [log_entry repo_name profile final md]).

End WithExternals.

(** ** The spec's scenarios, run on the model

    Repository [repo1] of [Exclusions.scenario_cfg] (two patterns, profile
    [standard] adding one); gitingest writes 4000 ASCII characters with
    two code fences; the counter prints [1000 <file>]; the clock reads
    2026-11-09 08:05:03. *)

Definition scenario_content : list Z := app (repeat 97%Z 3992) [10; 96; 96; 96; 10; 96; 96; 96]%Z.

Definition scenario_ext (git : ProcResult) (http : HttpResult) : Externals :=
  stub_externals (ProcExit 0 "ok" "", Some scenario_content) true
    (ProcExit 0 "1000 f" "") git http.

Definition scenario_mgr : Manager := {| m_output_dir := "out"; m_token_counter := "tc" |}.

Definition scenario_world (log : LogFile) : World :=
  {| w_config := Exclusions.scenario_cfg; w_config_file := Exclusions.scenario_cfg;
     w_fs := []; w_dirs := ["."; "out"]; w_log := log; w_out := [] |}.

Definition scenario_run (git : ProcResult) (http : HttpResult) (log : LogFile)
    (version : option string) : World * outcome unit :=
  @ingest (scenario_ext git http) scenario_mgr "repo1" "standard" version (scenario_world log).

Definition scenario_temp : string := "out/repo1_temp_20261109_080503.md".

(** gitingest exits with status 2 after writing one byte. *)
Definition failure_ext : Externals :=
  stub_externals (ProcExit 2 "" "boom", Some [97%Z]) true
    (ProcExit 0 "1000 f" "") (ProcExit 1 "" "") HttpRaises.

Definition failure_argv : list string :=
  ["gitingest"; "/src/repo1"; "-o"; scenario_temp; "-e"; "*.lock"; "-e"; "node_modules";
   "-e"; "tests"].

(** ** Properties *)

(** *** The shape of the timestamp *)

Lemma pad2_digits z : (0 <= z <= 99)%Z -> digits_of_len 2 (pad2 z) = true.
Proof.
  intros Hz. apply (forallb_Z_range (fun z => digits_of_len 2 (pad2 z)) 0 100); [|lia].
  vm_compute. reflexivity.
Qed.

Lemma year_digits y : (1000 <= y <= 9999)%Z -> digits_of_len 4 (PyStr.str_of_Z y) = true.
Proof.
  intros Hy. apply (forallb_Z_range (fun y => digits_of_len 4 (PyStr.str_of_Z y)) 1000 (Z.to_nat 9000));
    [|rewrite Z2Nat.id; lia].
  vm_compute. reflexivity.
Qed.

Lemma pad2_field z : (0 <= z <= 99)%Z -> option_map Z.of_N (PyStr.parse_N (pad2 z)) = Some z.
Proof.
  intros Hz.
  pose (P := fun z => match option_map Z.of_N (PyStr.parse_N (pad2 z)) with
                      | Some x => Z.eqb x z | None => false end).
  assert (Hb : P z = true) by (apply (forallb_Z_range P 0 100); [vm_compute; reflexivity|lia]).
  unfold P in Hb. destruct (option_map _ _); [|done]. by apply Z.eqb_eq in Hb as ->.
Qed.

Lemma year_field y : (0 <= y)%Z -> option_map Z.of_N (PyStr.parse_N (PyStr.str_of_Z y)) = Some y.
Proof.
  intros Hy. assert (E : PyStr.str_of_Z y = PyStr.str_of_N (Z.to_N y)) by (destruct y; [done|done|lia]).
  rewrite E, PyStr.parse_N_str_of_N. cbn. by rewrite Z2N.id.
Qed.

Lemma digits_of_len_length n s : digits_of_len n s = true -> String.length s = n.
Proof. by intros [?%Nat.eqb_eq _]%andb_prop. Qed.

Lemma digits_of_len_append m n a b :
  digits_of_len m a = true -> digits_of_len n b = true -> digits_of_len (m + n) (a +:+ b) = true.
Proof.
  unfold digits_of_len. rewrite PyStr.length_append, PyStr.all_digits_append.
  intros [Ha Hda]%andb_prop [Hb Hdb]%andb_prop. apply Nat.eqb_eq in Ha, Hb.
  rewrite Hda, Hdb, Ha, Hb, Nat.eqb_refl. done.
Qed.

(** C37: Type and round trip: for a date-time with a four-digit year and
    every other field in [0 .. 99] (every [datetime] of the years 1000
    to 9999), [timestamp] is eight digits, an underscore and six digits,
    the shape [YYYYmmdd_HHMMSS] of [strftime("%Y%m%d_%H%M%S")], and each
    field reads back from its own positions: the year from 0-3, the
    month from 4-5, the day from 6-7, the hour from 9-10, the minute
    from 11-12 and the second from 13-14. *)
Theorem timestamp_shape dt :
  (1000 <= dt_year dt <= 9999)%Z -> (0 <= dt_month dt <= 99)%Z -> (0 <= dt_day dt <= 99)%Z ->
  (0 <= dt_hour dt <= 99)%Z -> (0 <= dt_minute dt <= 99)%Z -> (0 <= dt_second dt <= 99)%Z ->
  (exists date time, timestamp dt = date +:+ "_" +:+ time /\
     digits_of_len 8 date = true /\ digits_of_len 6 time = true) /\
  field_at (timestamp dt) 0 4 = Some (dt_year dt) /\ field_at (timestamp dt) 4 2 = Some (dt_month dt) /\
  field_at (timestamp dt) 6 2 = Some (dt_day dt) /\ field_at (timestamp dt) 9 2 = Some (dt_hour dt) /\
  field_at (timestamp dt) 11 2 = Some (dt_minute dt) /\
  field_at (timestamp dt) 13 2 = Some (dt_second dt).
Proof.
  intros Hy Hmo Hd Hh Hmi Hs.
  pose proof (digits_of_len_length _ _ (year_digits _ Hy)) as LY.
  pose proof (digits_of_len_length _ _ (pad2_digits _ Hmo)) as LMo.
  pose proof (digits_of_len_length _ _ (pad2_digits _ Hd)) as LD.
  pose proof (digits_of_len_length _ _ (pad2_digits _ Hh)) as LH.
  pose proof (digits_of_len_length _ _ (pad2_digits _ Hmi)) as LMi.
  pose proof (digits_of_len_length _ _ (pad2_digits _ Hs)) as LS.
  split.
  - exists (PyStr.str_of_Z (dt_year dt) +:+ pad2 (dt_month dt) +:+ pad2 (dt_day dt)),
      (pad2 (dt_hour dt) +:+ pad2 (dt_minute dt) +:+ pad2 (dt_second dt)).
    split_and!; [unfold timestamp; by rewrite <- !PyStr.append_assoc| |];
      [change 8%nat with (4 + (2 + 2))%nat|change 6%nat with (2 + (2 + 2))%nat];
      repeat apply digits_of_len_append; auto using pad2_digits, year_digits.
  - unfold field_at, timestamp.
    split_and!; repeat rewrite PyStr.substring_app_ge by (cbn [String.length]; lia);
      rewrite ?LY, ?LMo, ?LD, ?LH, ?LMi; cbn [Nat.sub String.length];
      rewrite ?PyStr.substring_app_len by (cbn [String.length]; lia);
      rewrite ?year_field, ?pad2_field by lia; try done.
    rewrite <- LS, PyStr.substring_all. by apply pad2_field.
Qed.

Section Failure.
Context `{Externals}.

Lemma run_checked_fail exe code out err :
  code <> 0%Z ->
  forall s, run_checked exe (ProcExit code out err) s = (s, Exc (CalledProcessError code err)).
Proof. intros Hc s. destruct code; [congruence|done|done]. Qed.

(** The [try] body stops at gitingest's [CalledProcessError], after the
    process has possibly left its output file. *)
Lemma ingest_body_gitingest_fails mgr repo_name profile version stamp temp cmd
    code out err written s :
  ext_gitingest cmd = (ProcExit code out err, written) -> code <> 0%Z ->
  ingest_body mgr repo_name profile version stamp temp cmd s =
    (match written with
     | Some bs => world_with_fs s (PyDict.set temp {| f_bytes := bs; f_mtime := ext_clock |} (w_fs s))
     | None => s
     end, Exc (CalledProcessError code err)).
Proof.
  intros Hgi Hc. unfold ingest_body, run_gitingest. rewrite Hgi.
  destruct written; unfold pbind, pget, set_fs, pmodify, pret;
    cbn -[run_checked]; rewrite run_checked_fail by exact Hc; reflexivity.
Qed.

(** The [except] clause removes the temporary file if it exists and
    raises [SystemExit 1]. *)
Lemma gitingest_handler_effect temp code err s :
  match on_gitingest_error temp (CalledProcessError code err) with
  | Some k => k s
  | None => (s, Exc (CalledProcessError code err))
  end =
  (world_with_fs (world_emit s (MsgGitingestError code err)) (PyDict.drop temp (w_fs s)),
   Exc (SystemExit 1)).
Proof.
  unfold on_gitingest_error, pbind, emit, pmodify, file_exists, pget, unlink, set_fs, pret, raise.
  cbn -[PyDict.mem PyDict.drop].
  destruct (PyDict.mem temp (w_fs s)) eqn:Hm; cbn -[PyDict.drop].
  - by rewrite Hm.
  - rewrite PyDict.drop_not_mem by done. by destruct s.
Qed.

(** C2: When gitingest exits with a non-zero status, [ingest] ends with
    [SystemExit 1], removes the temporary file whether or not gitingest
    created it (so no artifact is left in the directory from this run),
    and leaves the configuration in memory and on disk and the log
    untouched. *)
Theorem ingest_gitingest_failure mgr repo_name profile version w argv code out err written :
  let temp := join_path (m_output_dir mgr) (temp_filename repo_name (timestamp ext_now)) in
  Exclusions._build_gitingest_command (w_config w) repo_name temp profile = Ret argv ->
  ext_gitingest argv = (ProcExit code out err, written) -> code <> 0%Z ->
  let '(w', r) := ingest mgr repo_name profile version w in
  r = Exc (SystemExit 1) /\ w_fs w' = PyDict.drop temp (w_fs w) /\
  w_config w' = w_config w /\ w_config_file w' = w_config_file w /\ w_log w' = w_log w.
Proof.
  intros temp Hcmd Hgi Hcode.
  unfold ingest, pbind, emit, pmodify, pget. cbn -[Exclusions._build_gitingest_command ingest_body on_gitingest_error].
  fold temp. rewrite Hcmd. cbn -[ingest_body on_gitingest_error]. unfold try_except.
  erewrite ingest_body_gitingest_fails by eassumption.
  cbn -[on_gitingest_error PyDict.drop PyDict.set].
  rewrite gitingest_handler_effect. cbn -[PyDict.drop PyDict.set].
  destruct written; [|done]. cbn -[PyDict.drop PyDict.set]. by rewrite PyDict.drop_set.
Qed.

(** ** What each step of a successful run did *)

Lemma run_gitingest_Ret cmd p w w' out :
  run_gitingest cmd p w = (w', Ret out) ->
  exists err written, ext_gitingest cmd = (ProcExit 0 out err, written) /\
    w' = match written with
         | Some bs => world_with_fs w (PyDict.set p {| f_bytes := bs; f_mtime := ext_clock |} (w_fs w))
         | None => w
         end.
Proof.
  unfold run_gitingest. destruct (ext_gitingest cmd) as [r written].
  intros (w1 & [] & Hw & Hc)%pbind_Ret_inv. apply run_checked_Ret in Hc as [-> (err & ->)].
  exists err, written. split; [done|]. destruct written; cbn in Hw; by injection Hw as <-.
Qed.

Lemma repo_config_of_Ret r w w' rc :
  repo_config_of r w = (w', Ret rc) ->
  w' = w /\ PyDict.get r (repositories (w_config w)) = Some rc.
Proof.
  unfold repo_config_of, pbind, pget, pret, raise.
  destruct (PyDict.get _ _); intros [= <- <-]; auto.
Qed.

Lemma file_hash_Ret p w w' h :
  _get_file_hash p w = (w', Ret h) ->
  w' = w /\ exists f, PyDict.get p (w_fs w) = Some f /\
                      h = String.substring 0 8 (ext_md5_hex (f_bytes f)).
Proof.
  unfold _get_file_hash. intros (w1 & bs & Hb & Hp)%pbind_Ret_inv.
  apply read_bytes_Ret in Hb as [-> (f & Hf & <-)]. injection Hp as <- <-. eauto.
Qed.

Lemma lookup_version_prints_only r : prints_only (lookup_version r).
Proof.
  unfold lookup_version, repo_config_of. apply pbind_prints_only.
  { apply pget_bind_prints_only. intros w. destruct (PyDict.get _ _); auto with pydb. }
  intros rc. destruct (rc_source rc); [|auto with pydb].
  apply pbind_prints_only; [apply Version.github_version_prints_only|].
  intros [v|]; [destruct (String.eqb _ _)|]; auto with pydb.
Qed.

Lemma resolve_version_prints_only r v : prints_only (resolve_version r v).
Proof.
  unfold resolve_version. destruct v as [v|]; [destruct (String.eqb v "")|];
    auto using lookup_version_prints_only with pydb.
Qed.

(** The last four steps: store, save, log, print. *)
Lemma ingest_tail_Ret repo profile final md msg w w' :
  (store_metadata repo md ;;; _save_config ;;; _save_ingestion_log repo profile final md ;;;
   emit msg) w = (w', Ret tt) ->
  w_config w' = update_repo_metadata repo md (w_config w) /\ w_config_file w' = w_config w' /\
  w_fs w' = w_fs w /\ w_dirs w' = w_dirs w /\
  exists old, (w_log w = LogAbsent /\ old = [] \/ w_log w = LogList old) /\
              w_log w' = LogList (old ++ [log_entry repo profile final md]).
Proof.
  unfold store_metadata, set_world_config, _save_config, _save_ingestion_log, emit,
    pbind, pget, pmodify, pret, raise. cbn.
  destruct (w_log w) as [|l| |]; cbn; intros [= <-]; cbn; split_and!; eauto.
Qed.

(** The files after the artifact is written at [temp] and renamed to
    [final]. *)
Lemma write_then_rename (temp final : string) (F : FileObj) (fs : pydict string FileObj) :
  let fs' := PyDict.set final F (PyDict.drop temp (PyDict.set temp F fs)) in
  PyDict.get final fs' = Some F /\ (PyDict.mem temp fs' = true -> temp = final) /\
  (forall p, p <> temp -> p <> final -> PyDict.get p fs' = PyDict.get p fs).
Proof.
  intros fs'. subst fs'. split_and!; [by rewrite PyDict.get_set_eq| |].
  - unfold PyDict.mem. destruct (decide (final = temp)) as [->|Hne]; [done|].
    by rewrite PyDict.get_set_ne, PyDict.get_drop_eq.
  - intros p Hp1 Hp2. by rewrite PyDict.get_set_ne, PyDict.get_drop_ne, PyDict.get_set_ne.
Qed.

Lemma ingest_body_Ret mgr repo profile version stamp temp cmd w w' :
  PyDict.mem temp (w_fs w) = false ->
  ingest_body mgr repo profile version stamp temp cmd w = (w', Ret tt) ->
  success_post mgr repo profile stamp temp cmd w w'.
Proof.
  intros Hmem Hrun. unfold ingest_body in Hrun.
  apply pbind_Ret_inv in Hrun as (w1 & out & Hg & Hrun).
  apply run_gitingest_Ret in Hg as (err & written & Hcmd & Hw1).
  apply pbind_Ret_inv in Hrun as (w2 & [] & He2 & Hrun). apply emit_Ret in He2 as ->.
  apply pbind_Ret_inv in Hrun as (w3 & [] & He3 & Hrun). apply emit_Ret in He3 as ->.
  apply pbind_Ret_inv in Hrun as (w4 & [tokens chars] & Hc & Hrun).
  apply TokenCounter.count_tokens_Ret in Hc as [Hs4 (f & cs & Hf & Hcs & Hchars)].
  apply pbind_Ret_inv in Hrun as (w5 & content & Hr & Hrun).
  apply read_text_Ret in Hr as [-> (f' & Hf' & Hcont)].
  apply pbind_Ret_inv in Hrun as (w6 & v & Hv & Hrun).
  pose proof (resolve_version_prints_only repo version w4) as Hs6. rewrite Hv in Hs6. cbn in Hs6.
  apply pbind_Ret_inv in Hrun as (w7 & human & Hh & Hrun). injection Hh as <- Hhuman.
  apply pbind_Ret_inv in Hrun as (w8 & [] & Hrn & Hrun). apply rename_Ret in Hrn as (F & HF & Hdir & ->).
  apply pbind_Ret_inv in Hrun as (w9 & rc & Hrc & Hrun). apply repo_config_of_Ret in Hrc as [-> Hrc].
  apply pbind_Ret_inv in Hrun as (w10 & hash & Hhash & Hrun).
  apply file_hash_Ret in Hhash as [-> (F' & HF' & ->)].
  apply ingest_tail_Ret in Hrun as (Hcfg & Hcf & Hfs & Hdirs & Hlog).
  destruct Hs4 as (Hc4 & Hcf4 & Hfs4 & Hd4 & Hl4). destruct Hs6 as (Hc6 & Hcf6 & Hfs6 & Hd6 & Hl6).
  cbn in Hc4, Hcf4, Hfs4, Hd4, Hl4, Hf, Hrc, HF', Hcfg, Hfs, Hdirs, Hlog.
  rewrite PyDict.get_set_eq in HF'. injection HF' as <-.
  destruct written as [bs|]; subst w1; cbn in *.
  2: { unfold PyDict.mem in Hmem. by rewrite Hf in Hmem. }
  rewrite PyDict.get_set_eq in Hf. injection Hf as <-. cbn in Hcs.
  rewrite Hfs6, Hfs4, PyDict.get_set_eq in HF. injection HF as <-.
  rewrite Hfs4, PyDict.get_set_eq in Hf'. injection Hf' as <-. cbn in Hcont.
  rewrite Hcs in Hcont. injection Hcont as <-. subst chars.
  exists out, err, bs, cs, v, human,
    {| last_updated := stamp; token_count := tokens; character_count := Z.of_nat (length cs);
       file_count := Z.of_nat (count fence cs); last_file := final_filename repo v human;
       md_profile := profile; md_hash := String.substring 0 8 (ext_md5_hex bs) |}.
  cbn zeta. rewrite Hc6, Hc4 in Hcfg. rewrite Hd6, Hd4 in Hdirs. rewrite Hl6, Hl4 in Hlog.
  rewrite Hfs6, Hfs4 in Hfs.
  destruct (write_then_rename temp (join_path (m_output_dir mgr) (final_filename repo v human))
              {| f_bytes := bs; f_mtime := ext_clock |} (w_fs w)) as (Hnew & Htemp & Hother).
  rewrite <- Hfs in Hnew, Htemp, Hother. by split_and!.
Qed.


(** ** Every step of [ingest] keeps the configuration's skeleton *)

Lemma lift_prints_only {A} (o : outcome A) : prints_only (lift o).
Proof. intros w. done. Qed.

Lemma repo_config_of_prints_only r : prints_only (repo_config_of r).
Proof. unfold repo_config_of. apply pget_bind_prints_only. intros w. destruct (PyDict.get _ _); auto with pydb. Qed.

Lemma file_hash_prints_only p : prints_only (_get_file_hash p).
Proof. unfold _get_file_hash. apply pbind_prints_only; auto with pydb. Qed.

Lemma run_gitingest_keeps_skel cmd p : keeps_skel (run_gitingest cmd p).
Proof.
  unfold run_gitingest. destruct (ext_gitingest cmd) as [r written].
  apply pbind_keeps_skel; [|auto with pydb]. destruct r, written; auto with pydb.
Qed.

(** The one step that changes the document: the skeleton stays. *)
Lemma store_metadata_keeps_skel r md : keeps_skel (store_metadata r md).
Proof.
  unfold store_metadata. intros S w [Hc Hcf]. split; cbn; [|done].
  by rewrite update_repo_metadata_skel.
Qed.

Lemma save_config_keeps_skel : keeps_skel _save_config.
Proof. intros S w [Hc Hcf]. by split. Qed.

Lemma save_log_keeps_skel r p f md : keeps_skel (_save_ingestion_log r p f md).
Proof.
  unfold _save_ingestion_log. apply pget_bind_keeps_skel. intros w0 S w Hw.
  unfold pbind, pmodify, pret, raise. by destruct (w_log w0).
Qed.

Lemma on_gitingest_error_keeps_skel temp e k : on_gitingest_error temp e = Some k -> keeps_skel k.
Proof. destruct e; try discriminate. intros [= <-]. solve_keeps. Qed.

#[local] Hint Resolve lift_prints_only repo_config_of_prints_only file_hash_prints_only
  resolve_version_prints_only TokenCounter.count_tokens_prints_only run_gitingest_keeps_skel
  store_metadata_keeps_skel save_config_keeps_skel save_log_keeps_skel
  on_gitingest_error_keeps_skel : pydb.

(** [ingest] keeps the configuration's skeleton, whether it returns or
    raises. *)
Lemma ingest_keeps_skel mgr repo_name profile version : keeps_skel (ingest mgr repo_name profile version).
Proof. unfold ingest, ingest_body. solve_keeps. Qed.

(** ** A run in which every step succeeds returns *)

Lemma run_gitingest_ok cmd p w out err bs :
  ext_gitingest cmd = (ProcExit 0 out err, Some bs) ->
  run_gitingest cmd p w =
    (world_with_fs w (PyDict.set p {| f_bytes := bs; f_mtime := ext_clock |} (w_fs w)), Ret out).
Proof. intros Hg. unfold run_gitingest. by rewrite Hg. Qed.

Lemma repo_config_of_ok r w rc :
  PyDict.get r (repositories (w_config w)) = Some rc -> repo_config_of r w = (w, Ret rc).
Proof. intros Hr. unfold repo_config_of, pbind, pget. cbn. by rewrite Hr. Qed.

Lemma resolve_version_given r v w : v <> "" -> resolve_version r (Some v) w = (w, Ret v).
Proof. intros Hv. unfold resolve_version. by rewrite (proj2 (String.eqb_neq v "") Hv). Qed.

Lemma ingest_tail_ok repo profile final md msg w :
  (w_log w = LogAbsent \/ exists l, w_log w = LogList l) ->
  exists w', (store_metadata repo md ;;; _save_config ;;; _save_ingestion_log repo profile final md ;;;
              emit msg) w = (w', Ret tt).
Proof.
  unfold store_metadata, set_world_config, _save_config, _save_ingestion_log, emit,
    pbind, pget, pmodify, pret, raise. cbn.
  intros [->|[l ->]]; eauto.
Qed.

(** Runs [ingest_body] through gitingest (exit 0 after writing [bs]),
    the two messages, the count and the read of the text; [Hs] is the
    frame of the state reached, from the state after the write. *)
Local Ltac run_to_version Hgi Hcs Ht Hs :=
  unfold ingest_body; erewrite pbind_Ret by (eapply run_gitingest_ok; exact Hgi);
  do 2 (erewrite pbind_Ret by reflexivity); cbv beta;
  lazymatch goal with
  | |- context [pbind (TokenCounter._count_tokens ?tc ?fp) _ ?w3] =>
      lazymatch type of Hgi with
      | _ = (_, Some ?bs) =>
          let Hc := fresh "Hc" in
          destruct (TokenCounter.count_tokens_total tc fp w3 {| f_bytes := bs; f_mtime := ext_clock |}
                      _ _ ltac:(cbn; apply PyDict.get_set_eq) Hcs Ht) as (? & Hc & Hs);
          erewrite pbind_Ret by exact Hc; cbv beta iota; clear Hc
      end
  end;
  erewrite pbind_Ret
    by (eapply read_text_ok; [destruct Hs as (_ & _ & -> & _); cbn; apply PyDict.get_set_eq
                             |exact Hcs]).

(** Once gitingest has exited 0 after writing its file, the text
    decodes, the count is known, the version is given, the token count
    formats and the final name's directory exists, the [try] body
    reaches its last four steps (store, save, log, print) on a state
    where the artifact has been moved to its final name and nothing
    else changed. *)
Lemma ingest_body_to_tail mgr repo profile v stamp temp cmd w rc out err bs cs t human :
  let final := final_filename repo v human in
  let F := {| f_bytes := bs; f_mtime := ext_clock |} in
  v <> "" -> PyDict.get repo (repositories (w_config w)) = Some rc ->
  ext_gitingest cmd = (ProcExit 0 out err, Some bs) -> TextIO.read_text bs = Some cs ->
  TokenCounter.counted_tokens (m_token_counter mgr) temp bs cs = Some t ->
  TokenFormat._format_token_count t = Ret human ->
  parent (join_path (m_output_dir mgr) final) ∈ w_dirs w ->
  exists w9 md msg,
    ingest_body mgr repo profile (Some v) stamp temp cmd w =
      (store_metadata repo md ;;; _save_config ;;; _save_ingestion_log repo profile final md ;;;
       emit msg) w9 /\
    last_file md = final /\ w_config w9 = w_config w /\ w_config_file w9 = w_config_file w /\
    w_log w9 = w_log w /\ w_dirs w9 = w_dirs w /\
    w_fs w9 = PyDict.set (join_path (m_output_dir mgr) final) F
                (PyDict.drop temp (PyDict.set temp F (w_fs w))).
Proof.
  intros final F Hv Hrc Hgi Hcs Ht Hh Hdir.
  run_to_version Hgi Hcs Ht Hs. destruct Hs as (Hc4 & Hcf4 & Hfs4 & Hd4 & Hl4).
  cbn in Hc4, Hcf4, Hfs4, Hd4, Hl4.
  erewrite pbind_Ret by (apply resolve_version_given, Hv).
  erewrite pbind_Ret by (unfold lift; rewrite Hh; reflexivity).
  erewrite pbind_Ret by (apply rename_ok; [rewrite Hfs4; apply PyDict.get_set_eq|by rewrite Hd4]).
  erewrite pbind_Ret by (apply repo_config_of_ok; cbn; by rewrite Hc4).
  erewrite pbind_Ret.
  2: { unfold _get_file_hash. erewrite pbind_Ret by (apply read_bytes_ok; apply PyDict.get_set_eq).
       reflexivity. }
  do 3 eexists. split; [reflexivity|]. cbn -[PyDict.set PyDict.drop].
  by rewrite Hc4, Hcf4, Hl4, Hd4, Hfs4.
Qed.

(** The [try] body returns when, besides, the log file is absent or a
    JSON list. *)
Lemma ingest_body_ok mgr repo profile v stamp temp cmd w rc out err bs cs t human :
  v <> "" -> PyDict.get repo (repositories (w_config w)) = Some rc ->
  ext_gitingest cmd = (ProcExit 0 out err, Some bs) -> TextIO.read_text bs = Some cs ->
  TokenCounter.counted_tokens (m_token_counter mgr) temp bs cs = Some t ->
  TokenFormat._format_token_count t = Ret human ->
  parent (join_path (m_output_dir mgr) (final_filename repo v human)) ∈ w_dirs w ->
  (w_log w = LogAbsent \/ exists l, w_log w = LogList l) ->
  exists w', ingest_body mgr repo profile (Some v) stamp temp cmd w = (w', Ret tt).
Proof.
  intros Hv Hrc Hgi Hcs Ht Hh Hdir Hlog.
  destruct (ingest_body_to_tail mgr repo profile v stamp temp cmd w rc out err bs cs t human)
    as (w9 & md & msg & -> & _ & _ & _ & Hl & _); try done.
  apply ingest_tail_ok. by rewrite Hl.
Qed.

(** A log file that is not a JSON list stops the last four steps at
    [json.load] or [append], after the metadata was stored and saved. *)
Lemma ingest_tail_bad_log repo profile final md msg w :
  w_log w = LogInvalid \/ w_log w = LogNotList ->
  (store_metadata repo md ;;; _save_config ;;; _save_ingestion_log repo profile final md ;;;
   emit msg) w =
  ({| w_config := update_repo_metadata repo md (w_config w);
      w_config_file := update_repo_metadata repo md (w_config w);
      w_fs := w_fs w; w_dirs := w_dirs w; w_log := w_log w; w_out := w_out w |},
   Exc (match w_log w with LogInvalid => ValueError "Expecting value" | _ => AttributeError end)).
Proof.
  unfold store_metadata, set_world_config, _save_config, _save_ingestion_log, emit,
    pbind, pget, pmodify, pret, raise. cbn.
  by intros [->| ->].
Qed.

(** [ingest] after its command line is built: the [try] body, then the
    handler for the exception it raises. *)
Lemma ingest_runs_body mgr repo profile version w argv w' r :
  let temp := join_path (m_output_dir mgr) (temp_filename repo (timestamp ext_now)) in
  Exclusions._build_gitingest_command (w_config w) repo temp profile = Ret argv ->
  ingest_body mgr repo profile version (timestamp ext_now) temp argv
    (world_emit (world_emit w (MsgIngesting repo profile)) (MsgRunning (PyStr.join " " argv))) =
    (w', r) ->
  ingest mgr repo profile version w =
    match r with
    | Exc e => match on_gitingest_error temp e with Some k => k w' | None => (w', Exc e) end
    | _ => (w', r)
    end.
Proof.
  intros temp Hcmd Hb. unfold ingest. erewrite pbind_Ret by reflexivity.
  erewrite pbind_Ret by reflexivity.
  erewrite pbind_Ret by (unfold lift; cbn [w_config world_emit]; fold temp; by rewrite Hcmd).
  erewrite pbind_Ret by reflexivity. unfold try_except. fold temp. rewrite Hb.
  by destruct r.
Qed.

(** An SSH-style GitHub remote without [/] makes the version lookup
    raise [IndexError], before anything is printed. *)
Lemma lookup_version_index_error r w rc src out err :
  PyDict.get r (repositories (w_config w)) = Some rc -> rc_source rc = Some src ->
  ext_git_remote src = ProcExit 0 out err ->
  PyStr.contains "github.com" (PyStr.strip out) = true ->
  Version.owner_repo (PyStr.strip out) = None ->
  lookup_version r w = (w, Exc IndexError).
Proof.
  intros Hrc Hs Hg Hc Ho. unfold lookup_version.
  erewrite pbind_Ret by (by apply repo_config_of_ok). rewrite Hs.
  unfold Version._get_github_version, try_except, pbind. rewrite Hg.
  cbn -[PyStr.strip PyStr.contains Version.owner_repo]. by rewrite Hc, Ho.
Qed.

(** The [try] body raises [IndexError] at the version lookup, once
    gitingest's output is in place and counted. *)
Lemma ingest_body_index_error mgr repo profile version stamp temp cmd w out err bs cs t
    rc src gout gerr :
  ext_gitingest cmd = (ProcExit 0 out err, Some bs) -> TextIO.read_text bs = Some cs ->
  TokenCounter.counted_tokens (m_token_counter mgr) temp bs cs = Some t ->
  version = None \/ version = Some "" ->
  PyDict.get repo (repositories (w_config w)) = Some rc -> rc_source rc = Some src ->
  ext_git_remote src = ProcExit 0 gout gerr ->
  PyStr.contains "github.com" (PyStr.strip gout) = true ->
  Version.owner_repo (PyStr.strip gout) = None ->
  exists w', same_but_out (world_with_fs w (PyDict.set temp {| f_bytes := bs; f_mtime := ext_clock |}
                                                 (w_fs w))) w' /\
    ingest_body mgr repo profile version stamp temp cmd w = (w', Exc IndexError).
Proof.
  intros Hgi Hcs Ht Hv Hrc Hsrc Hg Hc Ho.
  run_to_version Hgi Hcs Ht Hs. eexists. split; [exact Hs|].
  erewrite pbind_Exc; [done|]. unfold resolve_version.
  destruct Hs as (Hc4 & _). cbn in Hc4.
  destruct Hv as [-> | ->]; cbn -[lookup_version];
    (eapply lookup_version_index_error; [rewrite Hc4; exact Hrc|done..]).
Qed.

(** The [try] body raises [FileNotFoundError] at the rename when the
    version resolves to [v] and the final name's directory does not
    exist. *)
Lemma ingest_body_rename_error mgr repo profile version v stamp temp cmd w out err bs cs t human :
  let final_path := join_path (m_output_dir mgr) (final_filename repo v human) in
  ext_gitingest cmd = (ProcExit 0 out err, Some bs) -> TextIO.read_text bs = Some cs ->
  TokenCounter.counted_tokens (m_token_counter mgr) temp bs cs = Some t ->
  (forall w0, w_config w0 = w_config w -> resolve_version repo version w0 = (w0, Ret v)) ->
  TokenFormat._format_token_count t = Ret human -> parent final_path ∉ w_dirs w ->
  exists w', same_but_out (world_with_fs w (PyDict.set temp {| f_bytes := bs; f_mtime := ext_clock |}
                                                 (w_fs w))) w' /\
    ingest_body mgr repo profile version stamp temp cmd w = (w', Exc (FileNotFoundError final_path)).
Proof.
  intros final_path Hgi Hcs Ht Hv Hh Hdir.
  run_to_version Hgi Hcs Ht Hs. eexists. split; [exact Hs|].
  destruct Hs as (Hc4 & _ & Hfs4 & Hd4 & _). cbn in Hc4, Hfs4, Hd4.
  erewrite pbind_Ret by (apply Hv, Hc4).
  erewrite pbind_Ret by (unfold lift; rewrite Hh; reflexivity).
  erewrite pbind_Exc; [done|].
  apply rename_missing_dir with (f := {| f_bytes := bs; f_mtime := ext_clock |});
    [rewrite Hfs4; apply PyDict.get_set_eq|by rewrite Hd4].
Qed.

(** C3: Liveness: [ingest] with an explicit non-empty version returns
    normally whenever the outside world cooperates: the repository's
    command line can be built, gitingest exits 0 after writing its
    file, the file decodes as UTF-8, the counter (or the estimate) gives
    a count that [_format_token_count] formats, the final name's
    directory exists and the log file is absent or a JSON list. *)
Theorem ingest_returns mgr repo_name profile v w argv out err bs cs t human :
  let temp := join_path (m_output_dir mgr) (temp_filename repo_name (timestamp ext_now)) in
  v <> "" ->
  Exclusions._build_gitingest_command (w_config w) repo_name temp profile = Ret argv ->
  ext_gitingest argv = (ProcExit 0 out err, Some bs) -> TextIO.read_text bs = Some cs ->
  TokenCounter.counted_tokens (m_token_counter mgr) temp bs cs = Some t ->
  TokenFormat._format_token_count t = Ret human ->
  parent (join_path (m_output_dir mgr) (final_filename repo_name v human)) ∈ w_dirs w ->
  (w_log w = LogAbsent \/ exists l, w_log w = LogList l) ->
  exists w', ingest mgr repo_name profile (Some v) w = (w', Ret tt).
Proof.
  intros temp Hv Hcmd Hgi Hcs Ht Hh Hdir Hlog.
  destruct (Exclusions.build_command_repo _ _ _ _ _ Hcmd) as [rc Hrc].
  destruct (ingest_body_ok mgr repo_name profile v (timestamp ext_now) temp argv
              (world_emit (world_emit w (MsgIngesting repo_name profile))
                          (MsgRunning (PyStr.join " " argv))) rc out err bs cs t human)
    as [w' Hb]; try done.
  exists w'. by rewrite (ingest_runs_body _ _ _ _ _ _ _ _ Hcmd Hb).
Qed.

(** C14: Error: exceptions other than gitingest's [CalledProcessError]
    escape [ingest] without cleanup.  Once gitingest has exited 0 after
    writing its output and the text has been counted, a GitHub remote
    without [/] (an SSH remote [git@github.com:repo.git]) makes the
    version lookup raise [IndexError], and a final name whose directory
    does not exist (a release tag such as [release/1.0]) makes the rename
    raise [FileNotFoundError], whether the version was given or read
    from the release.  In both cases, for every outside world,
    the temporary file stays with gitingest's bytes, no other file
    changes, and neither the configuration nor the log is written. *)
Theorem ingest_escaping_exceptions_leave_temp mgr repo_name profile version w argv out err bs cs t :
  let temp := join_path (m_output_dir mgr) (temp_filename repo_name (timestamp ext_now)) in
  let left_temp e :=
    let '(w', r) := ingest mgr repo_name profile version w in
    r = Exc e /\ w_fs w' = PyDict.set temp {| f_bytes := bs; f_mtime := ext_clock |} (w_fs w) /\
    w_config w' = w_config w /\ w_config_file w' = w_config_file w /\ w_log w' = w_log w in
  Exclusions._build_gitingest_command (w_config w) repo_name temp profile = Ret argv ->
  ext_gitingest argv = (ProcExit 0 out err, Some bs) -> TextIO.read_text bs = Some cs ->
  TokenCounter.counted_tokens (m_token_counter mgr) temp bs cs = Some t ->
  (forall rc src gout gerr, version = None \/ version = Some "" ->
     PyDict.get repo_name (repositories (w_config w)) = Some rc -> rc_source rc = Some src ->
     ext_git_remote src = ProcExit 0 gout gerr ->
     PyStr.contains "github.com" (PyStr.strip gout) = true ->
     Version.owner_repo (PyStr.strip gout) = None -> left_temp IndexError) /\
  (forall v human,
     (forall w0, w_config w0 = w_config w -> resolve_version repo_name version w0 = (w0, Ret v)) ->
     TokenFormat._format_token_count t = Ret human ->
     parent (join_path (m_output_dir mgr) (final_filename repo_name v human)) ∉ w_dirs w ->
     left_temp (FileNotFoundError (join_path (m_output_dir mgr) (final_filename repo_name v human)))).
Proof.
  intros temp left_temp Hcmd Hgi Hcs Ht. subst left_temp. split.
  - intros rc src gout gerr Hv Hrc Hsrc Hg Hc Ho.
    edestruct (ingest_body_index_error mgr repo_name profile version (timestamp ext_now) temp argv
                 (world_emit (world_emit w (MsgIngesting repo_name profile))
                             (MsgRunning (PyStr.join " " argv))))
      as (w' & (Hc' & Hcf' & Hfs' & _ & Hl') & Hb); [exact Hgi|exact Hcs|exact Ht|exact Hv|
                                                     exact Hrc|exact Hsrc|exact Hg|exact Hc|exact Ho|].
    rewrite (ingest_runs_body _ _ _ _ _ _ _ _ Hcmd Hb). by split_and!.
  - intros v human Hv Hh Hdir.
    edestruct (ingest_body_rename_error mgr repo_name profile version v (timestamp ext_now) temp argv
                 (world_emit (world_emit w (MsgIngesting repo_name profile))
                             (MsgRunning (PyStr.join " " argv))))
      as (w' & (Hc' & Hcf' & Hfs' & _ & Hl') & Hb); [exact Hgi|exact Hcs|exact Ht|exact Hv|
                                                     exact Hh|exact Hdir|].
    rewrite (ingest_runs_body _ _ _ _ _ _ _ _ Hcmd Hb). by split_and!.
Qed.

(** C15: Error: a log file that is not a JSON list is not treated as
    empty.  In a run that would otherwise return (the outside world
    cooperates as in [ingest_returns]), an unparsable log makes
    [json.load] raise [ValueError] and a JSON value that is not a list
    makes [append] raise [AttributeError], both after the artifact was
    moved to its final name and the configuration saved with the new
    metadata: the run fails half-done, the new file and metadata stay,
    the temporary file is gone and the log is left as it was. *)
Theorem ingest_invalid_log_after_save mgr repo_name profile v w argv out err bs cs t human :
  let temp := join_path (m_output_dir mgr) (temp_filename repo_name (timestamp ext_now)) in
  let final := final_filename repo_name v human in
  let final_path := join_path (m_output_dir mgr) final in
  v <> "" ->
  Exclusions._build_gitingest_command (w_config w) repo_name temp profile = Ret argv ->
  ext_gitingest argv = (ProcExit 0 out err, Some bs) -> TextIO.read_text bs = Some cs ->
  TokenCounter.counted_tokens (m_token_counter mgr) temp bs cs = Some t ->
  TokenFormat._format_token_count t = Ret human -> parent final_path ∈ w_dirs w ->
  w_log w = LogInvalid \/ w_log w = LogNotList ->
  let '(w', r) := ingest mgr repo_name profile (Some v) w in
  r = Exc (match w_log w with LogInvalid => ValueError "Expecting value" | _ => AttributeError end) /\
  w_log w' = w_log w /\
  PyDict.get final_path (w_fs w') = Some {| f_bytes := bs; f_mtime := ext_clock |} /\
  (PyDict.mem temp (w_fs w') = true -> temp = final_path) /\
  exists md, last_file md = final /\ w_config_file w' = update_repo_metadata repo_name md (w_config w).
Proof.
  intros temp final final_path Hv Hcmd Hgi Hcs Ht Hh Hdir Hlog.
  destruct (Exclusions.build_command_repo _ _ _ _ _ Hcmd) as [rc Hrc].
  destruct (ingest_body_to_tail mgr repo_name profile v (timestamp ext_now) temp argv
              (world_emit (world_emit w (MsgIngesting repo_name profile))
                          (MsgRunning (PyStr.join " " argv))) rc out err bs cs t human)
    as (w9 & md & msg & Hb & Hmd & Hc9 & _ & Hl9 & _ & Hfs9); try done.
  cbn [w_log w_config w_fs world_emit] in Hc9, Hl9, Hfs9.
  rewrite ingest_tail_bad_log in Hb by (rewrite Hl9; exact Hlog).
  rewrite (ingest_runs_body _ _ _ _ _ _ _ _ Hcmd Hb), Hl9.
  destruct (write_then_rename temp final_path {| f_bytes := bs; f_mtime := ext_clock |} (w_fs w))
    as (Hnew & Htemp & _).
  destruct Hlog as [Hl|Hl]; rewrite Hl; cbn [on_gitingest_error w_log w_fs w_config_file];
    rewrite Hfs9, Hc9; (split_and!; [done|done|exact Hnew|exact Htemp|by exists md]).
Qed.

End Failure.

Lemma ingest_gitingest_failure_witness :
  let '(w', r) := @ingest failure_ext scenario_mgr "repo1" "standard" None
                    (scenario_world LogAbsent) in
  r = Exc (SystemExit 1) /\ w_fs w' = PyDict.drop scenario_temp (w_fs (scenario_world LogAbsent)) /\
  w_config w' = w_config (scenario_world LogAbsent) /\
  w_config_file w' = w_config_file (scenario_world LogAbsent) /\
  w_log w' = w_log (scenario_world LogAbsent).
Proof.
  refine (@ingest_gitingest_failure failure_ext scenario_mgr "repo1" "standard" None
            (scenario_world LogAbsent) failure_argv 2 "" "boom" (Some [97%Z]) _ _ _);
    [vm_compute; reflexivity|reflexivity|lia].
Defined.


Lemma timestamp_shape_witness :
  let dt := {| dt_year := 2026; dt_month := 11; dt_day := 9; dt_hour := 8; dt_minute := 5;
               dt_second := 3 |} in
  (exists date time, timestamp dt = date +:+ "_" +:+ time /\
     digits_of_len 8 date = true /\ digits_of_len 6 time = true) /\
  field_at (timestamp dt) 0 4 = Some 2026%Z /\ field_at (timestamp dt) 4 2 = Some 11%Z /\
  field_at (timestamp dt) 6 2 = Some 9%Z /\ field_at (timestamp dt) 9 2 = Some 8%Z /\
  field_at (timestamp dt) 11 2 = Some 5%Z /\ field_at (timestamp dt) 13 2 = Some 3%Z.
Proof. intros dt. apply timestamp_shape; cbn; lia. Defined.

Lemma ingest_returns_witness :
  exists w', @ingest (scenario_ext (ProcExit 1 "" "") HttpRaises) scenario_mgr "repo1" "standard"
               (Some "v2") (scenario_world LogAbsent) = (w', Ret tt).
Proof.
  apply (@ingest_returns (scenario_ext (ProcExit 1 "" "") HttpRaises) scenario_mgr "repo1" "standard"
           "v2" (scenario_world LogAbsent) failure_argv "ok" "" scenario_content scenario_content
           1000 "1k");
    [discriminate|vm_compute; reflexivity|reflexivity|vm_compute; reflexivity
    |vm_compute; reflexivity|vm_compute; reflexivity|decide_it|left; reflexivity].
Defined.

(** The two escaping exceptions of the spec's repository: an SSH remote
    without [/], and a release tag [release/1.0]. *)
Lemma ingest_escaping_exceptions_leave_temp_witness :
  let X1 := scenario_ext (ProcExit 0 "git@github.com:requests.git" "") HttpRaises in
  let X2 := scenario_ext (ProcExit 0 "https://github.com/o/repo1.git" "")
              (HttpResponse 200 (Some (JObj [("tag_name", JStr "release/1.0")]))) in
  let w := scenario_world LogAbsent in
  let F := {| f_bytes := scenario_content; f_mtime := 1762675503 |} in
  (let '(w', r) := @ingest X1 scenario_mgr "repo1" "standard" None w in
   r = Exc IndexError /\ w_fs w' = PyDict.set scenario_temp F (w_fs w) /\
   w_config w' = w_config w /\ w_config_file w' = w_config_file w /\ w_log w' = w_log w) /\
  (let '(w', r) := @ingest X2 scenario_mgr "repo1" "standard" None w in
   r = Exc (FileNotFoundError "out/repo1_release/1.0_1k.md") /\
   w_fs w' = PyDict.set scenario_temp F (w_fs w) /\
   w_config w' = w_config w /\ w_config_file w' = w_config_file w /\ w_log w' = w_log w).
Proof.
  intros X1 X2 w F. split.
  - refine (proj1 (@ingest_escaping_exceptions_leave_temp X1 scenario_mgr "repo1" "standard" None w
              failure_argv "ok" "" scenario_content scenario_content 1000 _ _ _ _)
              Exclusions.scenario_repo1 "/src/repo1" "git@github.com:requests.git" "" _ _ _ _ _ _);
      first [left; reflexivity|vm_compute; reflexivity].
  - refine (proj2 (@ingest_escaping_exceptions_leave_temp X2 scenario_mgr "repo1" "standard" None w
              failure_argv "ok" "" scenario_content scenario_content 1000 _ _ _ _)
              "release/1.0" "1k" _ _ _); try (vm_compute; reflexivity).
    + intros w0 Hw0. unfold resolve_version, lookup_version.
      erewrite pbind_Ret by (apply repo_config_of_ok; rewrite Hw0; reflexivity).
      vm_compute. reflexivity.
    + decide_it.
Defined.

(** The spec's repository with an unparsable log file. *)
Lemma ingest_invalid_log_after_save_witness :
  let X := scenario_ext (ProcExit 1 "" "") HttpRaises in
  let w := scenario_world LogInvalid in
  let '(w', r) := @ingest X scenario_mgr "repo1" "standard" (Some "v2") w in
  r = Exc (ValueError "Expecting value") /\ w_log w' = LogInvalid /\
  PyDict.get "out/repo1_v2_1k.md" (w_fs w') = Some {| f_bytes := scenario_content; f_mtime := 1762675503 |} /\
  (PyDict.mem scenario_temp (w_fs w') = true -> scenario_temp = "out/repo1_v2_1k.md") /\
  exists md, last_file md = "repo1_v2_1k.md" /\
    w_config_file w' = update_repo_metadata "repo1" md (w_config w).
Proof.
  intros X w.
  refine (@ingest_invalid_log_after_save X scenario_mgr "repo1" "standard" "v2" w failure_argv
            "ok" "" scenario_content scenario_content 1000 "1k" _ _ _ _ _ _ _ _);
    first [discriminate|decide_it|left; reflexivity|vm_compute; reflexivity].
Defined.

End Ingest.
