(* ===== verification/Clean.v ===== *)
(** * Clean: [clean_old] (lines 308-339)

    Lists [output_dir.glob("*.md")] in directory order, keys each file
    by [file.stem.split('_')[0]], groups them in a dictionary in order of
    first appearance, sorts each group by modification time, newest
    first ([sort(..., reverse=True)] is stable: files with equal times
    keep their listing order), and unlinks [files[keep_latest:]],
    counting files and bytes.  [keep_latest] is a Python [int]: a
    negative value slices from the end. *)

From S2P Require Import Prelude PyStr Config World.
From Stdlib Require Import Ascii Sorted.

Open Scope string_scope.
Open Scope py_scope.

Module Clean.

Definition entry := (string * FileObj)%type.

(** [Path(p).name] *)
Definition basename (p : string) : string := List.last (PyStr.split "/" p) "".

(** [p] is listed by [Path(dir).glob("*.md")]. *)
Definition is_md_in (dir p : string) : bool :=
  String.eqb (parent p) dir && PyStr.endswith (basename p) ".md".

Definition glob_md (dir : string) (fs : pydict string FileObj) : list entry :=
  List.filter (fun e => is_md_in dir e.1) fs.

(** [Path.stem] of a name ending in [.md]: [.md] alone has no suffix. *)
Definition stem (name : string) : string :=
  if Nat.eqb (String.length name) 3 then name else PyStr.drop_last 3 name.

(** [file.stem.split('_')[0]] *)
Definition repo_key (p : string) : string :=
  hd "" (PyStr.split "_" (stem (basename p))).

(** Lines 313-321. *)
Definition group_files (es : list entry) : pydict string (list entry) :=
  fold_left (fun groups e =>
               let k := repo_key e.1 in
               PyDict.set k (PyDict.get_default k [] groups ++ [e])%list groups)
            es [].

(** [files.sort(key=mtime, reverse=True)]: stable, newest first. *)
Fixpoint insert_desc (e : entry) (l : list entry) : list entry :=
  match l with
  | [] => [e]
  | e' :: l' => if Z.leb (f_mtime e.2) (f_mtime e'.2) then e' :: insert_desc e l'
                else e :: l
  end.

Definition sort_desc (l : list entry) : list entry :=
  fold_left (fun acc e => insert_desc e acc) l [].

(** [l[k:]] for a Python [int] [k]. *)
Definition py_slice_from {A} (k : Z) (l : list A) : list A :=
  if Z.leb 0 k then drop (Z.to_nat k) l
  else drop (length l - Z.to_nat (- k)) l.

(** The files [clean_old] removes, in the order it removes them. *)
Definition to_delete (keep : Z) (dir : string) (fs : pydict string FileObj) : list entry :=
  concat (map (fun g => py_slice_from keep (sort_desc g.2)) (group_files (glob_md dir fs))).

(** [file.stat().st_size] *)
Definition file_size (f : FileObj) : Z := Z.of_nat (length (f_bytes f)).

(** The files of one group, in listing order. *)
Definition group_of (r : string) (es : list entry) : list entry :=
  List.filter (fun e => String.eqb (repo_key e.1) r) es.

(** The world after the files [es] are unlinked in order, one
    [Removing] line printed per file. *)
Definition removed_world (w : World) (es : list entry) : World :=
  {| w_config := w_config w; w_config_file := w_config_file w;
     w_fs := List.filter (fun e => negb (bool_decide (e.1 ∈ map fst es))) (w_fs w);
     w_dirs := w_dirs w; w_log := w_log w;
     w_out := w_out w ++ map (fun e => MsgRemoving (basename e.1) (file_size e.2)) es |}.

(** The world after [Removing] is printed and [p] unlinked. *)
Definition after_unlink (w : World) (p : string) (f : FileObj) : World :=
  world_with_fs (world_emit w (MsgRemoving (basename p) (file_size f))) (PyDict.drop p (w_fs w)).

Definition total_size (es : list entry) : Z :=
  fold_right (fun e acc => file_size e.2 + acc)%Z 0%Z es.


(** Lines 332-337. *)
Fixpoint remove_all (es : list entry) (count bytes : Z) : PyM World (Z * Z) :=
  match es with
  | [] => pret (count, bytes)
  | (p, f) :: es' =>
      emit (MsgRemoving (basename p) (file_size f)) ;;;
      unlink p ;;;
      remove_all es' (count + 1) (bytes + file_size f)
  end%Z.

(** Lines 327-337. *)
Fixpoint clean_groups (keep : Z) (groups : pydict string (list entry)) (count bytes : Z)
  : PyM World (Z * Z) :=
  match groups with
  | [] => pret (count, bytes)
  | (_, files) :: gs =>
      totals <- remove_all (py_slice_from keep (sort_desc files)) count bytes ;;
      clean_groups keep gs totals.1 totals.2
  end.

Definition clean_old (output_dir : string) (keep : Z) : PyM World unit :=
  emit (MsgCleaning keep) ;;;
  w <- pget ;;
  totals <- clean_groups keep (group_files (glob_md output_dir (w_fs w))) 0 0 ;;
  emit (MsgRemoved totals.1 totals.2).


(** ** Runs on a concrete directory *)

Definition mkfile (n : nat) (t : Z) : FileObj := {| f_bytes := repeat 0%Z n; f_mtime := t |}.

Definition clean_fs : pydict string FileObj :=
  [("out/repo1_latest_1k.md", mkfile 3 100); ("out/repo1_v2_1k.md", mkfile 5 200);
   ("out/repo1_v1_1k.md", mkfile 7 50); ("out/other_latest_2k.md", mkfile 2 10);
   ("out/notes.txt", mkfile 1 0); ("config.yaml", mkfile 4 0);
   ("out/my_repo_latest_1k.md", mkfile 1 300); ("out/my_latest_1k.md", mkfile 2 400)].

Definition clean_world : World := initial_world empty_config clean_fs ["."; "out"].

(** ** The sort *)

Definition newer_eq (a b : entry) : Prop := (f_mtime b.2 <= f_mtime a.2)%Z.

(** Where [l[k:]] starts in a list of length [n]. *)
Definition slice_start (k : Z) (n : nat) : nat :=
  if Z.leb 0 k then Z.to_nat k else n - Z.to_nat (- k).

Lemma insert_desc_perm e l : insert_desc e l ≡ₚ e :: l.
Proof.
  induction l as [|e' l IH]; simpl; [done|].
  destruct (Z.leb _ _); [|done]. rewrite IH. apply Permutation_swap.
Qed.

Lemma sort_desc_perm l : sort_desc l ≡ₚ l.
Proof.
  unfold sort_desc. rewrite <- (app_nil_r l) at 2.
  generalize (@nil entry) as acc. induction l as [|e l IH]; intros acc; simpl; [done|].
  rewrite IH, insert_desc_perm. symmetry. apply Permutation_middle.
Qed.

Lemma insert_desc_sorted e l :
  StronglySorted newer_eq l -> StronglySorted newer_eq (insert_desc e l).
Proof.
  unfold newer_eq. induction 1 as [|e' l Hs IH Hall]; simpl; [repeat constructor|].
  destruct (Z.leb_spec (f_mtime e.2) (f_mtime e'.2)).
  - constructor; [done|]. apply Forall_forall. intros x Hx.
    rewrite insert_desc_perm in Hx. apply elem_of_cons in Hx as [->|Hx]; [done|].
    by apply (proj1 (Forall_forall _ _) Hall).
  - constructor; [by constructor|]. constructor; [lia|].
    apply Forall_forall. intros x Hx.
    pose proof (proj1 (Forall_forall _ _) Hall x Hx) as Hle. cbv beta in Hle. lia.
Qed.

(** The sort puts every file before the older ones. *)
Lemma sort_desc_sorted l : StronglySorted newer_eq (sort_desc l).
Proof.
  unfold sort_desc. assert (Hnil : StronglySorted newer_eq []) by constructor.
  revert Hnil. generalize (@nil entry) as acc.
  induction l as [|e l IH]; intros acc Hacc; simpl; [done|].
  apply IH, insert_desc_sorted, Hacc.
Qed.

(** ** The groups *)

Lemma group_files_get r es : PyDict.get_default r [] (group_files es) = group_of r es.
Proof.
  unfold group_files, group_of.
  assert (Hgen : forall acc,
    PyDict.get_default r [] (fold_left (fun groups e =>
       PyDict.set (repo_key e.1) (PyDict.get_default (repo_key e.1) [] groups ++ [e])%list groups)
       es acc) =
    (PyDict.get_default r [] acc ++ List.filter (fun e => String.eqb (repo_key e.1) r) es)%list).
  { induction es as [|e es IH]; intros acc; cbn [fold_left List.filter].
    - by rewrite app_nil_r.
    - rewrite IH. destruct (String.eqb_spec (repo_key e.1) r) as [<-|Hne].
      + unfold PyDict.get_default at 1. rewrite PyDict.get_set_eq. by rewrite <- app_assoc.
      + unfold PyDict.get_default at 1. rewrite PyDict.get_set_ne by done. reflexivity. }
  apply Hgen.
Qed.

Lemma group_files_wf es : PyDict.wf (group_files es).
Proof.
  unfold group_files.
  assert (Hgen : forall acc : pydict string (list entry), PyDict.wf acc ->
    PyDict.wf (fold_left (fun groups e =>
       PyDict.set (repo_key e.1) (PyDict.get_default (repo_key e.1) [] groups ++ [e])%list groups)
       es acc)).
  { induction es as [|e es IH]; intros acc Hacc; simpl; [exact Hacc|].
    apply IH, PyDict.set_wf, Hacc. }
  apply Hgen. constructor.
Qed.

Lemma group_files_in r g es : (r, g) ∈ group_files es -> g = group_of r es.
Proof.
  intros Hin. rewrite <- group_files_get. unfold PyDict.get_default.
  by rewrite (PyDict.wf_get_in _ _ _ (group_files_wf es) Hin).
Qed.

Lemma group_of_key r es e : e ∈ group_of r es -> repo_key e.1 = r /\ e ∈ es.
Proof.
  unfold group_of. rewrite !list_elem_of_In, filter_In.
  intros [Hin ?%String.eqb_eq]. done.
Qed.

Lemma py_slice_from_sub {A} k (l : list A) x : x ∈ py_slice_from k l -> x ∈ l.
Proof. unfold py_slice_from. intros Hx. destruct (Z.leb 0 k); eapply elem_of_sublist; eauto using sublist_drop. Qed.

(** A file is deleted exactly when it is in the deleted slice of its
    own group. *)
Lemma to_delete_mem keep dir fs e :
  e ∈ to_delete keep dir fs <->
  e ∈ py_slice_from keep (sort_desc (group_of (repo_key e.1) (glob_md dir fs))).
Proof.
  unfold to_delete. rewrite list_elem_of_In, in_concat. split.
  - intros (l & (g & <- & Hg)%in_map_iff & He). apply list_elem_of_In in He, Hg.
    destruct g as [r g]. apply group_files_in in Hg as ->. simpl in He.
    pose proof He as He'. apply py_slice_from_sub in He'. rewrite sort_desc_perm in He'.
    by apply group_of_key in He' as [-> _].
  - intros He. eexists. split; [|apply list_elem_of_In, He].
    apply in_map_iff. exists (repo_key e.1, group_of (repo_key e.1) (glob_md dir fs)).
    split; [done|]. apply list_elem_of_In, PyDict.get_Some_elem.
    pose proof (group_files_get (repo_key e.1) (glob_md dir fs)) as Hg.
    unfold PyDict.get_default in Hg.
    destruct (PyDict.get _ (group_files _)) as [g|] eqn:E; [by rewrite <- Hg|].
    apply py_slice_from_sub in He. rewrite sort_desc_perm, <- Hg in He.
    by apply elem_of_nil in He.
Qed.

Lemma glob_md_NoDup dir fs : PyDict.wf fs -> NoDup (glob_md dir fs).
Proof. intros Hwf. unfold glob_md. by apply NoDup_ListNoDup, List.NoDup_filter, NoDup_ListNoDup, PyDict.wf_NoDup. Qed.

Lemma py_slice_nonneg {A} k (l : list A) : (0 <= k)%Z -> py_slice_from k l = drop (Z.to_nat k) l.
Proof. intros Hk. unfold py_slice_from. by rewrite (proj2 (Z.leb_le 0 k) Hk). Qed.

Lemma py_slice_submseteq {A} k (l : list A) : py_slice_from k l ⊆+ l.
Proof. unfold py_slice_from. destruct (Z.leb 0 k); apply submseteq_drop. Qed.

Lemma concat_set_append k e (d : pydict string (list entry)) :
  concat (map snd (PyDict.set k (PyDict.get_default k [] d ++ [e])%list d)) ≡ₚ
  (concat (map snd d) ++ [e])%list.
Proof.
  unfold PyDict.get_default. induction d as [|[k' v'] d IH]; simpl; [done|].
  destruct (decide (k = k')); simpl.
  - rewrite <- !app_assoc. apply Permutation_app_head, Permutation_app_comm.
  - by rewrite IH, app_assoc.
Qed.

(** [group_files] partitions the listing. *)
Lemma group_files_perm es : concat (map snd (group_files es)) ≡ₚ es.
Proof.
  unfold group_files.
  assert (Hgen : forall acc, concat (map snd (fold_left (fun groups e =>
       PyDict.set (repo_key e.1) (PyDict.get_default (repo_key e.1) [] groups ++ [e])%list groups)
       es acc)) ≡ₚ (concat (map snd acc) ++ es)%list).
  { induction es as [|e es IH]; intros acc; simpl; [by rewrite app_nil_r|].
    rewrite IH, concat_set_append. by rewrite <- app_assoc. }
  apply Hgen.
Qed.

Lemma to_delete_submseteq keep dir fs : to_delete keep dir fs ⊆+ glob_md dir fs.
Proof.
  unfold to_delete. rewrite <- (group_files_perm (glob_md dir fs)) at 2.
  apply concat_map_submseteq. intros [r g] _. simpl.
  etransitivity; [apply py_slice_submseteq|]. by rewrite sort_desc_perm.
Qed.

Lemma to_delete_in_fs keep dir fs e : e ∈ to_delete keep dir fs -> e ∈ fs.
Proof.
  intros He. eapply elem_of_submseteq in He; [|apply to_delete_submseteq].
  unfold glob_md in He. by apply elem_of_filter_bool in He as [? _].
Qed.

Lemma to_delete_paths_NoDup keep dir fs : PyDict.wf fs -> NoDup (map fst (to_delete keep dir fs)).
Proof.
  intros Hwf. apply (NoDup_submseteq_inv _ (map fst fs)); [|apply Hwf].
  apply map_submseteq. etransitivity; [apply to_delete_submseteq|].
  apply sublist_submseteq, filter_sublist_bool.
Qed.

(** For files of a well-formed directory, deletion by path and by entry agree. *)
Lemma path_mem_iff (fs : pydict string FileObj) (D : list entry) e :
  PyDict.wf fs -> (forall x, x ∈ D -> x ∈ fs) -> e ∈ fs -> e.1 ∈ map fst D <-> e ∈ D.
Proof.
  intros Hwf HD He. split.
  - rewrite list_elem_of_In, in_map_iff. intros (x & Hx & HxD). apply list_elem_of_In in HxD.
    by rewrite <- (PyDict.wf_key_unique fs x e Hwf (HD x HxD) He Hx).
  - intros HeD. apply list_elem_of_In, in_map, list_elem_of_In, HeD.
Qed.

Lemma filter_paths_drop p ks (d : pydict string FileObj) :
  List.filter (fun e => negb (bool_decide (e.1 ∈ ks))) (PyDict.drop p d) =
  List.filter (fun e => negb (bool_decide (e.1 ∈ p :: ks))) d.
Proof.
  unfold PyDict.drop. induction d as [|[k v] d IH]; simpl; [done|].
  destruct (decide (k = p)) as [->|Hne].
  - rewrite bool_decide_eq_true_2 by done. rewrite (bool_decide_eq_true_2 (p ∈ p :: ks)) by left.
    simpl. exact IH.
  - rewrite (bool_decide_eq_false_2 (k = p)) by done. simpl.
    rewrite (bool_decide_ext (k ∈ p :: ks) (k ∈ ks)) by (rewrite elem_of_cons; naive_solver).
    destruct (bool_decide (k ∈ ks)); simpl; by rewrite IH.
Qed.


Lemma removed_world_nil w : removed_world w [] = w.
Proof. destruct w. unfold removed_world. simpl. by rewrite filter_all, app_nil_r. Qed.

Lemma elem_of_group_glob r dir fs e :
  e ∈ group_of r (glob_md dir fs) <-> e ∈ fs /\ is_md_in dir e.1 = true /\ repo_key e.1 = r.
Proof.
  unfold group_of, glob_md. rewrite !elem_of_filter_bool, String.eqb_eq. naive_solver.
Qed.

Lemma group_of_removed r dir fs (ks : list string) :
  group_of r (glob_md dir (List.filter (fun e => negb (bool_decide (e.1 ∈ ks))) fs)) =
  List.filter (fun e => negb (bool_decide (e.1 ∈ ks))) (group_of r (glob_md dir fs)).
Proof.
  unfold group_of, glob_md.
  by rewrite (filter_comm (fun e => is_md_in dir e.1)), (filter_comm (fun e => String.eqb _ r)).
Qed.

Lemma sorted_group_NoDup r dir fs : PyDict.wf fs -> NoDup (sort_desc (group_of r (glob_md dir fs))).
Proof.
  intros Hwf. rewrite sort_desc_perm. unfold group_of.
  apply NoDup_ListNoDup, List.NoDup_filter, NoDup_ListNoDup, glob_md_NoDup, Hwf.
Qed.

Lemma py_slice_from_drop {A} k (l : list A) : py_slice_from k l = drop (slice_start k (length l)) l.
Proof. unfold py_slice_from, slice_start. by destruct (Z.leb 0 k). Qed.

(** A file of group [r] is deleted exactly when it is in the slice
    [files[keep:]] of the sorted group. *)
Lemma deleted_iff_sliced keep dir fs e :
  PyDict.wf fs -> e ∈ fs ->
  e.1 ∈ map fst (to_delete keep dir fs) <->
  e ∈ drop (slice_start keep (length (group_of (repo_key e.1) (glob_md dir fs))))
           (sort_desc (group_of (repo_key e.1) (glob_md dir fs))).
Proof.
  intros Hwf He. rewrite (path_mem_iff fs); [|done|intros x; apply to_delete_in_fs|done].
  by rewrite to_delete_mem, py_slice_from_drop, (Permutation_length (sort_desc_perm _)).
Qed.

Lemma deleted_iff_dropped keep dir fs e :
  (0 <= keep)%Z -> PyDict.wf fs -> e ∈ fs ->
  e.1 ∈ map fst (to_delete keep dir fs) <->
  e ∈ drop (Z.to_nat keep) (sort_desc (group_of (repo_key e.1) (glob_md dir fs))).
Proof.
  intros Hk Hwf He. rewrite deleted_iff_sliced by done.
  unfold slice_start. by rewrite (proj2 (Z.leb_le 0 keep) Hk).
Qed.

(** The survivors of a group, newest first, are the files before the
    slice [files[keep:]]. *)
Lemma survivors_take keep dir fs r :
  PyDict.wf fs ->
  List.filter (fun e => negb (bool_decide (e.1 ∈ map fst (to_delete keep dir fs))))
     (sort_desc (group_of r (glob_md dir fs)))
  = take (slice_start keep (length (group_of r (glob_md dir fs)))) (sort_desc (group_of r (glob_md dir fs))).
Proof.
  intros Hwf. rewrite <- filter_not_in_drop by (by apply sorted_group_NoDup).
  apply filter_ext_elem. intros e He. f_equal. apply bool_decide_ext.
  pose proof He as He'. rewrite sort_desc_perm, elem_of_group_glob in He'.
  destruct He' as (Hfs & _ & <-). by apply deleted_iff_sliced.
Qed.

Lemma remove_all_cons p f es c b w :
  (p, f) ∈ w_fs w ->
  remove_all ((p, f) :: es) c b w = remove_all es (c + 1) (b + file_size f) (after_unlink w p f).
Proof.
  intros Hpf. cbn [remove_all]. unfold pbind, emit, unlink, set_fs, pmodify, pget.
  cbn -[PyDict.mem PyDict.drop]. by rewrite (PyDict.mem_of_elem _ _ _ Hpf).
Qed.

(** The same step, forgetting what is added to the totals. *)
Lemma remove_all_step p f es c b w :
  (p, f) ∈ w_fs w ->
  exists c' b', remove_all ((p, f) :: es) c b w = remove_all es c' b' (after_unlink w p f).
Proof.
  intros Hpf. cbn [remove_all]. unfold pbind, emit, unlink, set_fs, pmodify, pget.
  cbn -[PyDict.mem PyDict.drop]. rewrite (PyDict.mem_of_elem _ _ _ Hpf). eauto.
Qed.

Lemma unlink_keeps_rest p f es w :
  p ∉ map fst es -> (forall e, e ∈ (p, f) :: es -> e ∈ w_fs w) ->
  forall e, e ∈ es -> e ∈ w_fs (after_unlink w p f).
Proof.
  intros Hp Hin e He. cbn. unfold PyDict.drop. apply elem_of_filter_bool.
  split; [apply Hin; by right|]. apply negb_true_iff, bool_decide_eq_false_2. intros Heq.
  apply Hp. rewrite <- Heq. apply list_elem_of_In, (in_map fst), list_elem_of_In, He.
Qed.

Lemma removed_world_after_unlink w p f es :
  removed_world (after_unlink w p f) es = removed_world w ((p, f) :: es).
Proof.
  unfold removed_world, after_unlink, world_with_fs, world_emit. cbn.
  by rewrite filter_paths_drop, <- app_assoc.
Qed.

(** Unlinking distinct files of the directory, one by one, never raises,
    and leaves the directory without them. *)
Lemma remove_all_state es c b w :
  NoDup (map fst es) -> (forall e, e ∈ es -> e ∈ w_fs w) ->
  exists t, remove_all es c b w = (removed_world w es, Ret t).
Proof.
  revert c b w. induction es as [|[p f] es IH]; intros c b w Hnd Hin.
  - rewrite removed_world_nil. by eexists.
  - apply NoDup_cons in Hnd as [Hp Hnd]. change (p ∉ map fst es) in Hp.
    destruct (remove_all_step p f es c b w) as (c' & b' & ->); [apply Hin; left|].
    rewrite <- removed_world_after_unlink. apply IH; [done|]. by apply unlink_keeps_rest.
Qed.

(** The totals count the files and add up their sizes. *)
Lemma remove_all_totals es c b w :
  NoDup (map fst es) -> (forall e, e ∈ es -> e ∈ w_fs w) ->
  snd (remove_all es c b w) = Ret (c + Z.of_nat (length es), b + total_size es)%Z.
Proof.
  revert c b w. induction es as [|[p f] es IH]; intros c b w Hnd Hin.
  - by rewrite !Z.add_0_r.
  - apply NoDup_cons in Hnd as [Hp Hnd]. change (p ∉ map fst es) in Hp.
    rewrite remove_all_cons by (apply Hin; left).
    rewrite IH; [|done|by apply unlink_keeps_rest].
    unfold total_size. cbn [length fold_right snd]. do 2 f_equal; lia.
Qed.

Lemma remove_all_effect es c b w :
  NoDup (map fst es) -> (forall e, e ∈ es -> e ∈ w_fs w) ->
  remove_all es c b w =
  (removed_world w es, Ret (c + Z.of_nat (length es), b + total_size es)%Z).
Proof.
  intros Hnd Hin. pose proof (remove_all_totals es c b w Hnd Hin) as Ht.
  destruct (remove_all_state es c b w Hnd Hin) as [t Hs]. rewrite Hs in Ht |- *.
  cbn in Ht. congruence.
Qed.

Lemma remove_all_app es1 es2 c b :
  forall w, remove_all (es1 ++ es2) c b w =
  pbind (remove_all es1 c b) (fun t => remove_all es2 t.1 t.2) w.
Proof.
  revert c b. induction es1 as [|[p f] es1 IH]; intros c b w; [done|].
  cbn [remove_all app]. unfold pbind.
  destruct (emit _ w) as [w1 [[]|e]]; [|done].
  destruct (unlink p w1) as [w2 [[]|e]]; [|done]. apply IH.
Qed.

(** The groups are cleaned one after another: [clean_groups] unlinks
    [to_delete] in order. *)
Lemma clean_groups_remove_all keep gs c b w :
  clean_groups keep gs c b w =
  remove_all (concat (map (fun g => py_slice_from keep (sort_desc g.2)) gs)) c b w.
Proof.
  revert c b w. induction gs as [|[r g] gs IH]; intros c b w; [done|].
  simpl. rewrite remove_all_app. unfold pbind.
  destruct (remove_all _ c b w) as [w1 [[c' b']|e]]; [apply IH|done].
Qed.

Lemma remove_all_keeps_skel es c b : keeps_skel (remove_all es c b).
Proof. revert c b. induction es as [|[p f] es IH]; intros c b; simpl; solve_keeps. Qed.

Lemma clean_groups_keeps_skel keep gs c b : keeps_skel (clean_groups keep gs c b).
Proof.
  revert c b. induction gs as [|[r g] gs IH]; intros c b; simpl;
    solve_keeps; auto using remove_all_keeps_skel.
Qed.

(** [clean_old] keeps the invariant, whether it returns or raises. *)
Lemma clean_old_keeps_skel dir keep : keeps_skel (clean_old dir keep).
Proof. unfold clean_old. solve_keeps; auto using clean_groups_keeps_skel. Qed.

(** The result of [clean_old] as one world. *)
Lemma clean_old_run dir keep w :
  PyDict.wf (w_fs w) ->
  clean_old dir keep w =
  (world_emit (removed_world (world_emit w (MsgCleaning keep)) (to_delete keep dir (w_fs w)))
     (MsgRemoved (Z.of_nat (length (to_delete keep dir (w_fs w))))
                 (total_size (to_delete keep dir (w_fs w)))),
   Ret tt).
Proof.
  intros Hwf. unfold clean_old, pbind, emit, pmodify, pget. cbn -[clean_groups].
  rewrite clean_groups_remove_all. fold (to_delete keep dir (w_fs w)).
  rewrite remove_all_effect; [done| |].
  - by apply to_delete_paths_NoDup.
  - intros e He. cbn. by eapply to_delete_in_fs.
Qed.

(** C7: [clean_old] on a directory listing without duplicate paths
    never raises: it prints the header, one [Removing] line per file of
    [to_delete] in that order and the totals (the number of those files
    and the sum of their sizes); it unlinks exactly those files; the
    configuration in memory and on disk, the log and the directories
    are unchanged. *)
Theorem clean_old_effect dir keep w :
  PyDict.wf (w_fs w) ->
  let D := to_delete keep dir (w_fs w) in
  let '(w', r) := clean_old dir keep w in
  r = Ret tt /\
  w_fs w' = List.filter (fun e => negb (bool_decide (e.1 ∈ map fst D))) (w_fs w) /\
  w_out w' = (w_out w ++ [MsgCleaning keep] ++
             map (fun e => MsgRemoving (basename e.1) (file_size e.2)) D ++
             [MsgRemoved (Z.of_nat (length D)) (total_size D)])%list /\
  w_config w' = w_config w /\ w_config_file w' = w_config_file w /\
  w_log w' = w_log w /\ w_dirs w' = w_dirs w.
Proof.
  intros Hwf D. rewrite clean_old_run by done. cbn. split_and!; try done.
  by rewrite <- !app_assoc.
Qed.

(** The state [clean_old] leaves, whatever totals it prints. *)
Lemma clean_old_state dir keep w :
  PyDict.wf (w_fs w) ->
  exists n b, clean_old dir keep w =
  (world_emit (removed_world (world_emit w (MsgCleaning keep)) (to_delete keep dir (w_fs w)))
     (MsgRemoved n b), Ret tt).
Proof.
  intros Hwf. unfold clean_old, pbind, emit, pmodify, pget. cbn -[clean_groups world_emit].
  rewrite clean_groups_remove_all.
  change (w_fs (world_emit w (MsgCleaning keep))) with (w_fs w).
  fold (to_delete keep dir (w_fs w)).
  destruct (remove_all_state (to_delete keep dir (w_fs w)) 0 0 (world_emit w (MsgCleaning keep)))
    as [[n b] ->]; [by apply to_delete_paths_NoDup|intros e He; by eapply to_delete_in_fs|].
  by exists n, b.
Qed.

Lemma clean_old_fs dir keep w :
  PyDict.wf (w_fs w) ->
  w_fs (fst (clean_old dir keep w)) =
  List.filter (fun e => negb (bool_decide (e.1 ∈ map fst (to_delete keep dir (w_fs w))))) (w_fs w)
  /\ snd (clean_old dir keep w) = Ret tt.
Proof. intros Hwf. by destruct (clean_old_state dir keep w Hwf) as (n & b & ->). Qed.

Lemma clean_old_wf dir keep w :
  PyDict.wf (w_fs w) -> PyDict.wf (w_fs (fst (clean_old dir keep w))).
Proof. intros Hwf. destruct (clean_old_fs dir keep w Hwf) as [-> _]. by apply PyDict.wf_filter. Qed.

(** After [clean_old], each group is the part of its sorted files
    before the slice [files[keep:]]. *)
Lemma clean_old_groups dir keep w r :
  PyDict.wf (w_fs w) ->
  group_of r (glob_md dir (w_fs (fst (clean_old dir keep w)))) ≡ₚ
  take (slice_start keep (length (group_of r (glob_md dir (w_fs w)))))
       (sort_desc (group_of r (glob_md dir (w_fs w)))).
Proof.
  intros Hwf. destruct (clean_old_fs dir keep w Hwf) as [-> _].
  rewrite group_of_removed, <- survivors_take by done.
  apply Permutation_filter_bool. symmetry. apply sort_desc_perm.
Qed.

(** C6: With [keep >= 0], [clean_old] returns normally and afterwards the
    [.md] files of each repository key in the directory are exactly the
    first [keep] of that group sorted newest first; every file it keeps
    is at least as new as every file of the same group it removes; and
    every file outside the glob is kept. *)
Theorem clean_old_keeps_newest dir keep w :
  (0 <= keep)%Z -> PyDict.wf (w_fs w) ->
  let w' := fst (clean_old dir keep w) in
  snd (clean_old dir keep w) = Ret tt /\
  (forall r, group_of r (glob_md dir (w_fs w')) ≡ₚ
             take (Z.to_nat keep) (sort_desc (group_of r (glob_md dir (w_fs w))))) /\
  (forall a b, a ∈ w_fs w' -> b ∈ w_fs w -> b ∉ w_fs w' ->
     is_md_in dir a.1 = true -> repo_key a.1 = repo_key b.1 ->
     (f_mtime b.2 <= f_mtime a.2)%Z) /\
  (forall e, is_md_in dir e.1 = false -> e ∈ w_fs w' <-> e ∈ w_fs w).
Proof.
  intros Hk Hwf w'. destruct (clean_old_fs dir keep w Hwf) as [Hfs Hret].
  split_and!; [done| | |].
  - intros r. etransitivity; [apply clean_old_groups, Hwf|]. unfold slice_start.
    by rewrite (proj2 (Z.leb_le 0 keep) Hk).
  - intros a b Ha Hb Hb' Hmd Hr. subst w'. rewrite Hfs in Ha, Hb'.
    apply elem_of_filter_bool in Ha as [Ha Ha'].
    assert (HbD : b.1 ∈ map fst (to_delete keep dir (w_fs w))).
    { destruct (decide (b.1 ∈ map fst (to_delete keep dir (w_fs w)))) as [|Hn]; [done|].
      destruct Hb'. apply elem_of_filter_bool. by rewrite bool_decide_eq_false_2. }
    apply deleted_iff_dropped in HbD; [|done..]. rewrite <- Hr in HbD.
    set (s := sort_desc _) in HbD.
    assert (Has : a ∈ take (Z.to_nat keep) s).
    { assert (Hin : a ∈ s) by (unfold s; rewrite sort_desc_perm, elem_of_group_glob; done).
      rewrite <- (take_drop (Z.to_nat keep) s), elem_of_app in Hin.
      destruct Hin as [|Hin]; [done|]. apply negb_true_iff, bool_decide_eq_false_1 in Ha'.
      destruct Ha'. by apply deleted_iff_dropped. }
    apply (StronglySorted_app_elem newer_eq (take (Z.to_nat keep) s) (drop (Z.to_nat keep) s));
      [|done..]. rewrite take_drop. apply sort_desc_sorted.
  - intros e He. subst w'. rewrite Hfs, elem_of_filter_bool. split; [by intros []|].
    intros Hin. split; [done|]. apply negb_true_iff, bool_decide_eq_false_2.
    rewrite list_elem_of_In, in_map_iff. intros (x & Hx & HxD). apply list_elem_of_In in HxD.
    eapply elem_of_submseteq in HxD; [|apply to_delete_submseteq].
    unfold glob_md in HxD. apply elem_of_filter_bool in HxD as [_ Hmd]. congruence.
Qed.

(** C20: With [keep >= 0] a second [clean_old] removes nothing: it prints
    the header and [Removed 0 files (0 bytes)] and leaves everything
    else as the first run left it. *)
Theorem clean_old_idempotent dir keep w :
  (0 <= keep)%Z -> PyDict.wf (w_fs w) ->
  let w1 := fst (clean_old dir keep w) in
  clean_old dir keep w1 = (world_emit (world_emit w1 (MsgCleaning keep)) (MsgRemoved 0 0), Ret tt).
Proof.
  intros Hk Hwf w1. rewrite clean_old_run by (by apply clean_old_wf).
  assert (Hnil : to_delete keep dir (w_fs w1) = []).
  { unfold to_delete. apply concat_map_nil. intros [r g] Hg. apply group_files_in in Hg as ->.
    simpl. rewrite py_slice_nonneg by done. apply drop_ge.
    unfold w1. rewrite sort_desc_perm, (clean_old_groups dir keep w r Hwf), length_take.
    unfold slice_start. rewrite (proj2 (Z.leb_le 0 keep) Hk). lia. }
  by rewrite Hnil, removed_world_nil.
Qed.




Lemma clean_fs_wf : PyDict.wf (w_fs clean_world).
Proof. apply (bool_decide_unpack _). vm_compute. exact I. Qed.

(** C32: [keep_latest] is not checked: with a negative [keep] the slice
    [files[keep:]] selects the [-keep] OLDEST files of each group, so
    [clean_old] returns and afterwards every group keeps only its
    [len - (-keep)] newest files; a group with no more than [-keep]
    files, the only file of a group included, is removed entirely. *)
Theorem clean_old_negative_keep dir keep w :
  (keep < 0)%Z -> PyDict.wf (w_fs w) ->
  let w' := fst (clean_old dir keep w) in
  snd (clean_old dir keep w) = Ret tt /\
  forall r, let g := sort_desc (group_of r (glob_md dir (w_fs w))) in
    group_of r (glob_md dir (w_fs w')) ≡ₚ take (length g - Z.to_nat (- keep)) g.
Proof.
  intros Hk Hwf w'. split; [apply (clean_old_fs dir keep w Hwf)|].
  intros r g. etransitivity; [apply clean_old_groups, Hwf|].
  subst g. rewrite (Permutation_length (sort_desc_perm _)).
  unfold slice_start. by rewrite (proj2 (Z.leb_gt 0 keep) Hk).
Qed.

Lemma clean_old_negative_keep_witness :
  let w' := fst (clean_old "out" (-1) clean_world) in
  snd (clean_old "out" (-1) clean_world) = Ret tt /\
  forall r, let g := sort_desc (group_of r (glob_md "out" (w_fs clean_world))) in
    group_of r (glob_md "out" (w_fs w')) ≡ₚ take (length g - Z.to_nat (- -1)) g.
Proof. apply clean_old_negative_keep; [lia|apply clean_fs_wf]. Defined.

Lemma clean_old_effect_witness :
  let D := to_delete 1 "out" (w_fs clean_world) in
  let '(w', r) := clean_old "out" 1 clean_world in
  r = Ret tt /\
  w_fs w' = List.filter (fun e => negb (bool_decide (e.1 ∈ map fst D))) (w_fs clean_world) /\
  w_out w' = (w_out clean_world ++ [MsgCleaning 1] ++
             map (fun e => MsgRemoving (basename e.1) (file_size e.2)) D ++
             [MsgRemoved (Z.of_nat (length D)) (total_size D)])%list /\
  w_config w' = w_config clean_world /\ w_config_file w' = w_config_file clean_world /\
  w_log w' = w_log clean_world /\ w_dirs w' = w_dirs clean_world.
Proof. apply clean_old_effect. apply clean_fs_wf. Defined.

Lemma clean_old_keeps_newest_witness :
  let w' := fst (clean_old "out" 1 clean_world) in
  snd (clean_old "out" 1 clean_world) = Ret tt /\
  (forall r, group_of r (glob_md "out" (w_fs w')) ≡ₚ
             take (Z.to_nat 1) (sort_desc (group_of r (glob_md "out" (w_fs clean_world))))) /\
  (forall a b, a ∈ w_fs w' -> b ∈ w_fs clean_world -> b ∉ w_fs w' ->
     is_md_in "out" a.1 = true -> repo_key a.1 = repo_key b.1 ->
     (f_mtime b.2 <= f_mtime a.2)%Z) /\
  (forall e, is_md_in "out" e.1 = false -> e ∈ w_fs w' <-> e ∈ w_fs clean_world).
Proof. apply clean_old_keeps_newest; [lia|apply clean_fs_wf]. Defined.

Lemma clean_old_idempotent_witness :
  let w1 := fst (clean_old "out" 1 clean_world) in
  clean_old "out" 1 w1 = (world_emit (world_emit w1 (MsgCleaning 1)) (MsgRemoved 0 0), Ret tt).
Proof. apply clean_old_idempotent; [lia|apply clean_fs_wf]. Defined.

End Clean.
