(* ===== verification/Cli.v ===== *)
(** * Cli: [main] (lines 342-374), [__init__] and [_load_config]
    (lines 19-34), and the reports [list_repos], [list_profiles] and
    [list_ingested] (lines 268-306)

    [main] starts before any configuration is loaded, so its state is a
    [Disk]: the parsed YAML documents by path, the files, the
    directories, the log and the printed messages.  [__init__] loads the
    document named by [--config] ([FileNotFoundError] when absent),
    reads [settings['output_dir']] and [settings['token_counter']]
    ([KeyError] when absent), and creates the output directory with
    [mkdir(exist_ok=True)], which creates no parents.  A command then
    runs in [PyM World] on the loaded document; [with_world] runs it and
    writes the document it leaves on disk back to its path.  [main]
    takes the parsed [Args]; [ArgParse] models the parser that produces
    them.  The reports' output is described as lists of messages
    ([repo_lines], [ingested_line]) printed by a loop ([pfor_lines],
    [pfor_lines_exc]); [sorted()] is an insertion sort ([sort_paths])
    shown to return a sorted permutation of its input. *)

From S2P Require Import Prelude PyStr Config Exclusions World Ingest Clean.

Open Scope string_scope.
Open Scope py_scope.

Module Cli.

Inductive Command := CmdIngest | CmdListRepos | CmdListProfiles | CmdListIngested | CmdClean.

#[export] Instance Command_eq_dec : EqDecision Command.
Proof. solve_decision. Defined.

(** The namespace [parse_args] returns (lines 343-352). *)
Record Args := {
  a_command : Command; a_repo : option string; a_profile : string;
  a_version : option string; a_config : string; a_keep : Z
}.

Record Disk := {
  d_yaml : pydict string Config;
  d_fs : pydict string FileObj;
  d_dirs : list string;
  d_log : LogFile;
  d_out : list Msg
}.

Definition disk_emit (d : Disk) (m : Msg) : Disk :=
  {| d_yaml := d_yaml d; d_fs := d_fs d; d_dirs := d_dirs d; d_log := d_log d;
     d_out := d_out d ++ [m] |}.

Definition disk_add_dir (d : Disk) (p : string) : Disk :=
  {| d_yaml := d_yaml d; d_fs := d_fs d; d_dirs := d_dirs d ++ [p]; d_log := d_log d;
     d_out := d_out d |}.

Definition to_world (cfg : Config) (d : Disk) : World :=
  {| w_config := cfg; w_config_file := cfg; w_fs := d_fs d; w_dirs := d_dirs d;
     w_log := d_log d; w_out := d_out d |}.

Definition of_world (path : string) (d : Disk) (w : World) : Disk :=
  {| d_yaml := PyDict.set path (w_config_file w) (d_yaml d); d_fs := w_fs w;
     d_dirs := w_dirs w; d_log := w_log w; d_out := w_out w |}.

(** A method of the manager, run on the document loaded from [path]. *)
Definition with_world {A} (path : string) (cfg : Config) (m : PyM World A) : PyM Disk A :=
  fun d => let '(w', r) := m (to_world cfg d) in (of_world path d w', r).

(** Lines 28-34. *)
Definition _load_config (config_file : string) : PyM Disk Config :=
  d <- pget ;;
  match PyDict.get config_file (d_yaml d) with
  | Some cfg => pret cfg
  | None => raise (FileNotFoundError config_file)
  end.

(** [Path(p).mkdir(exist_ok=True)] (line 23). *)
Definition mkdir_exist_ok (p : string) : PyM Disk unit :=
  d <- pget ;;
  if bool_decide (p ∈ d_dirs d) then pret tt
  else if PyDict.mem p (d_fs d) then raise (FileExistsError p)
  else if bool_decide (parent p ∈ d_dirs d) then pmodify (fun d => disk_add_dir d p)
  else raise (FileNotFoundError p).

(** [repo_config.get('description', 'N/A')] and the like: a key the
    document does not have reads as the default. *)
Definition get_or {A} (dflt : A) (o : option A) : A :=
  match o with Some a => a | None => dflt end.

(** Lines 272-282, one repository of [list_repos]. *)
Definition list_repo (name : string) (rc : RepoConfig) : PyM World unit :=
  emit (MsgRepo name (get_or "N/A" (rc_description rc))) ;;;
  match rc_source rc with
  | None => raise (KeyError "source")
  | Some src =>
      emit (MsgRepoSource src (Z.of_nat (length (get_or [] (rc_exclusions rc))))) ;;;
      match rc_metadata rc with
      | Some md =>
          if String.eqb (last_updated md) "" then pret tt
          else emit (MsgRepoMeta (last_updated md) (md_profile md) (token_count md)
                                 (character_count md))
      | None => pret tt
      end
  end.

(** Lines 268-282. *)
Definition list_repos : PyM World unit :=
  emit MsgReposHeader ;;;
  w <- pget ;;
  pfor (repositories (w_config w)) (fun '(name, rc) => list_repo name rc).

(** Lines 287-290, one profile of [list_profiles]. *)
Definition list_profile (name : string) (pc : ProfileConfig) : PyM World unit :=
  emit (MsgProfile name) ;;;
  match pc_description pc with
  | None => raise (KeyError "description")
  | Some desc =>
      emit (MsgProfileInfo desc (Z.of_nat (length (get_or [] (pc_additional_exclusions pc)))))
  end.

(** Lines 284-290. *)
Definition list_profiles : PyM World unit :=
  emit MsgProfilesHeader ;;;
  w <- pget ;;
  pfor (profiles (w_config w)) (fun '(name, pc) => list_profile name pc).

(** [sorted()] on the paths of one directory: by name, as strings. *)
Definition path_leb (a b : Clean.entry) : bool :=
  match String.compare a.1 b.1 with Gt => false | _ => true end.

Fixpoint insert_asc (e : Clean.entry) (l : list Clean.entry) : list Clean.entry :=
  match l with
  | [] => [e]
  | e' :: l' => if path_leb e e' then e :: l else e' :: insert_asc e l'
  end.

Definition sort_paths (l : list Clean.entry) : list Clean.entry :=
  fold_right insert_asc [] l.

(** Lines 302-306, one file of [list_ingested]: the size and the
    modification time are printed formatted ([.2f] MB, thousands
    separators, local time); the model keeps the values. *)
Definition ingested_line (e : Clean.entry) : Msg :=
  MsgIngestedFile (Clean.basename e.1) (Clean.file_size e.2) (f_mtime e.2).

(** Lines 292-306. *)
Definition list_ingested (output_dir : string) : PyM World unit :=
  emit (MsgIngestedHeader output_dir) ;;;
  w <- pget ;;
  match sort_paths (Clean.glob_md output_dir (w_fs w)) with
  | [] => emit MsgNoIngested
  | files => pfor files (fun e => emit (ingested_line e))
  end.

(** The world after the messages [ms] are printed in order. *)
Definition world_emits (w : World) (ms : list Msg) : World := fold_left world_emit ms w.

(** What [list_repos] prints for one repository: its name and
    description, then, when it has a [source], the source, the number of
    exclusions and the metadata of its last ingestion. *)
Definition repo_lines (name : string) (rc : RepoConfig) : list Msg :=
  MsgRepo name (get_or "N/A" (rc_description rc)) ::
  match rc_source rc with
  | None => []
  | Some src =>
      MsgRepoSource src (Z.of_nat (length (get_or [] (rc_exclusions rc)))) ::
      match rc_metadata rc with
      | Some md =>
          if String.eqb (last_updated md) "" then []
          else [MsgRepoMeta (last_updated md) (md_profile md) (token_count md) (character_count md)]
      | None => []
      end
  end.

Definition sourced (r : string * RepoConfig) : Prop := is_Some (rc_source r.2).

(** What [list_profiles] prints for one profile: its name, then, when it
    has a [description], the description and the number of additional
    exclusions. *)
Definition profile_lines (name : string) (pc : ProfileConfig) : list Msg :=
  MsgProfile name ::
  match pc_description pc with
  | None => []
  | Some desc =>
      [MsgProfileInfo desc (Z.of_nat (length (get_or [] (pc_additional_exclusions pc))))]
  end.

Definition described (p : string * ProfileConfig) : Prop := is_Some (pc_description p.2).

(** Paths in lexicographic order, the order of [sorted()] on the paths
    of one directory. *)
Definition name_le (a b : Clean.entry) : Prop := String.compare a.1 b.1 <> Gt.

(** [if not args.repo]: absent or empty. *)
Definition repo_given (r : option string) : option string :=
  match r with
  | Some s => if String.eqb s "" then None else Some s
  | None => None
  end.

(** The disk after [mkdir(exist_ok=True)] succeeded. *)
Definition ensure_dir (d : Disk) (p : string) : Disk :=
  if bool_decide (p ∈ d_dirs d) then d else disk_add_dir d p.



(** [mkdir(exist_ok=True)] succeeds: the directory is there, or its
    parent is and no file has its name. *)
Definition can_mkdir (d : Disk) (p : string) : Prop :=
  p ∈ d_dirs d \/ (PyDict.mem p (d_fs d) = false /\ parent p ∈ d_dirs d).

(** A disk holding the spec's configuration at [gitingest.yaml], the
    directory of [Clean.clean_fs], and no log. *)
Definition cli_disk : Disk :=
  {| d_yaml := [("gitingest.yaml", Exclusions.scenario_cfg)];
     d_fs := Clean.clean_fs; d_dirs := ["."; "out"]; d_log := LogAbsent; d_out := [] |}.

Definition cli_ext : Externals :=
  stub_externals (ProcNotFound, None) false ProcNotFound ProcNotFound HttpRaises.

Definition cli_args (cmd : Command) (repo : option string) : Args :=
  {| a_command := cmd; a_repo := repo; a_profile := "standard"; a_version := None;
     a_config := "gitingest.yaml"; a_keep := 1 |}.

(** A configuration whose second repository has no [source]. *)
Definition listing_cfg : Config :=
  {| settings := settings Exclusions.scenario_cfg;
     repositories :=
       [("repo1", {| rc_source := Some "/src/repo1"; rc_description := Some "main";
                     rc_exclusions := Some ["*.lock"];
                     rc_metadata := Some {| last_updated := "20261109_080503";
                                            token_count := 1000; character_count := 4000;
                                            file_count := 2; last_file := "repo1_latest_1k.md";
                                            md_profile := "standard"; md_hash := "9e107d9d" |};
                     rc_extra := [] |});
        ("broken", {| rc_source := None; rc_description := None; rc_exclusions := None;
                      rc_metadata := None; rc_extra := ["url"] |});
        ("never", Exclusions.scenario_repo1)];
     profiles := profiles Exclusions.scenario_cfg |}.

(** A configuration whose second profile has no [description]. *)
Definition profiles_cfg : Config :=
  {| settings := settings Exclusions.scenario_cfg;
     repositories := repositories Exclusions.scenario_cfg;
     profiles := [("standard", {| pc_description := Some "std";
                                  pc_additional_exclusions := Some ["tests"; "docs"] |});
                  ("bare", {| pc_description := None; pc_additional_exclusions := None |});
                  ("full", {| pc_description := Some "all"; pc_additional_exclusions := None |})] |}.

Section WithExternals.
Context `{Externals}.

(** Lines 19-26. *)
Definition __init__ (config_file : string) : PyM Disk (Ingest.Manager * Config) :=
  cfg <- _load_config config_file ;;
  match st_output_dir (settings cfg) with
  | None => raise (KeyError "output_dir")
  | Some od =>
      mkdir_exist_ok od ;;;
      match st_token_counter (settings cfg) with
      | None => raise (KeyError "token_counter")
      | Some tc =>
          pret ({| Ingest.m_output_dir := od; Ingest.m_token_counter := ext_expandvars tc |},
                cfg)
      end
  end.

(** Lines 352-374, after [parse_args]. *)
Definition main (args : Args) : PyM Disk unit :=
  init <- __init__ (a_config args) ;;
  let '(mgr, cfg) := init in
  match a_command args with
  | CmdIngest =>
      match repo_given (a_repo args) with
      | None => pmodify (fun d => disk_emit d MsgRepoRequired) ;;; raise (SystemExit 1)
      | Some r =>
          with_world (a_config args) cfg (Ingest.ingest mgr r (a_profile args) (a_version args))
      end
  | CmdListRepos => with_world (a_config args) cfg list_repos
  | CmdListProfiles => with_world (a_config args) cfg list_profiles
  | CmdListIngested => with_world (a_config args) cfg (list_ingested (Ingest.m_output_dir mgr))
  | CmdClean => with_world (a_config args) cfg (Clean.clean_old (Ingest.m_output_dir mgr) (a_keep args))
  end.

End WithExternals.

(** ** Reports change nothing but the output *)

Lemma list_repos_prints_only : prints_only list_repos.
Proof.
  unfold list_repos. apply pbind_prints_only; [auto with pydb|intros _].
  apply pget_bind_prints_only. intros w. apply pfor_prints_only. intros [name rc]. unfold list_repo.
  apply pbind_prints_only; auto with pydb. intros _.
  destruct (rc_source rc); auto with pydb. apply pbind_prints_only; auto with pydb. intros _.
  destruct (rc_metadata rc); [destruct (String.eqb _ _)|]; auto with pydb.
Qed.

Lemma list_profiles_prints_only : prints_only list_profiles.
Proof.
  unfold list_profiles. apply pbind_prints_only; [auto with pydb|intros _].
  apply pget_bind_prints_only. intros w. apply pfor_prints_only. intros [name pc]. unfold list_profile.
  apply pbind_prints_only; auto with pydb. intros _. destruct (pc_description pc); auto with pydb.
Qed.

Lemma list_ingested_prints_only dir : prints_only (list_ingested dir).
Proof.
  unfold list_ingested. apply pbind_prints_only; [auto with pydb|intros _].
  apply pget_bind_prints_only. intros w. destruct (sort_paths _); auto with pydb.
Qed.

(** ** What the reports print *)

Lemma world_emits_app w ms1 ms2 :
  world_emits w (ms1 ++ ms2) = world_emits (world_emits w ms1) ms2.
Proof. apply fold_left_app. Qed.

(** A loop whose every pass prints its lines and returns prints the
    lines of all passes. *)
Lemma pfor_lines {A} (xs : list A) body (lines : A -> list Msg) w :
  (forall x w, x ∈ xs -> body x w = (world_emits w (lines x), Ret tt)) ->
  pfor xs body w = (world_emits w (flat_map lines xs), Ret tt).
Proof.
  revert w. induction xs as [|x xs IH]; intros w Hb; [done|]. cbn [pfor flat_map].
  erewrite pbind_Ret by (apply Hb; by left).
  rewrite IH, world_emits_app; [done|]. intros y w' Hy. apply Hb. by right.
Qed.

(** A pass that raises ends the loop, after the passes before it. *)
Lemma pfor_lines_exc {A} (xs1 : list A) x xs2 body lines e w :
  (forall y w, y ∈ xs1 -> body y w = (world_emits w (lines y), Ret tt)) ->
  (forall w, body x w = (world_emits w (lines x), Exc e)) ->
  pfor (xs1 ++ x :: xs2) body w = (world_emits w (flat_map lines xs1 ++ lines x), Exc e).
Proof.
  revert w. induction xs1 as [|y xs1 IH]; intros w Hb Hx; cbn [app pfor flat_map].
  - by erewrite pbind_Exc by apply Hx.
  - erewrite pbind_Ret by (apply Hb; by left).
    rewrite IH; [by rewrite <- app_assoc, (world_emits_app w (lines y))| |done].
    intros z w' Hz. apply Hb. by right.
Qed.

Lemma emit_lines m w : emit m w = (world_emits w [m], Ret tt).
Proof. reflexivity. Qed.

(** One repository of [list_repos] prints [repo_lines]; it returns when
    the repository has a [source] and raises [KeyError 'source']
    otherwise. *)
Lemma list_repo_lines name rc w :
  list_repo name rc w =
    (world_emits w (repo_lines name rc),
     match rc_source rc with Some _ => Ret tt | None => Exc (KeyError "source") end).
Proof.
  unfold list_repo, repo_lines. rewrite (pbind_Ret _ _ _ _ _ (emit_lines _ w)).
  destruct (rc_source rc) as [src|]; [|done].
  rewrite (pbind_Ret _ _ _ _ _ (emit_lines _ _)), <- world_emits_app.
  destruct (rc_metadata rc) as [md|]; [destruct (String.eqb _ _)|]; cbn; by rewrite ?app_nil_r.
Qed.

(** One profile of [list_profiles] prints [profile_lines]; it returns
    when the profile has a [description] and raises [KeyError
    'description'] otherwise. *)
Lemma list_profile_lines name pc w :
  list_profile name pc w =
    (world_emits w (profile_lines name pc),
     match pc_description pc with Some _ => Ret tt | None => Exc (KeyError "description") end).
Proof.
  unfold list_profile, profile_lines. rewrite (pbind_Ret _ _ _ _ _ (emit_lines _ w)).
  by destruct (pc_description pc).
Qed.

Lemma path_leb_spec a b : path_leb a b = true <-> name_le a b.
Proof. unfold path_leb, name_le. destruct (String.compare a.1 b.1); intuition congruence. Qed.

Lemma path_leb_total a b : path_leb a b = false -> name_le b a.
Proof.
  unfold path_leb, name_le. rewrite String.compare_antisym.
  destruct (String.compare b.1 a.1); cbn; congruence.
Qed.

Lemma insert_asc_perm e l : insert_asc e l ≡ₚ e :: l.
Proof.
  induction l as [|e' l IH]; [done|]. cbn. destruct (path_leb _ _); [done|].
  by rewrite IH, Permutation_swap.
Qed.

Lemma sort_paths_perm l : sort_paths l ≡ₚ l.
Proof. induction l as [|e l IH]; [done|]. cbn. by rewrite insert_asc_perm, IH. Qed.

Lemma insert_asc_hd a e l :
  HdRel name_le a l -> name_le a e -> HdRel name_le a (insert_asc e l).
Proof.
  intros Hl Ha. destruct l as [|e' l]; cbn; [by constructor|].
  destruct (path_leb _ _); constructor; [done|]. by inversion Hl.
Qed.

Lemma insert_asc_sorted e l : Sorted name_le l -> Sorted name_le (insert_asc e l).
Proof.
  induction 1 as [|e' l Hs IH Hhd]; cbn; [by repeat constructor|].
  destruct (path_leb e e') eqn:E.
  - constructor; [by constructor|]. constructor. by apply path_leb_spec.
  - constructor; [done|]. by apply insert_asc_hd, path_leb_total.
Qed.

Lemma sort_paths_sorted l : Sorted name_le (sort_paths l).
Proof. induction l as [|e l IH]; [constructor|]. by apply insert_asc_sorted. Qed.

(** ** Start-up and dispatch *)

Lemma ensure_dir_fields d p :
  d_yaml (ensure_dir d p) = d_yaml d /\ d_fs (ensure_dir d p) = d_fs d /\
  d_log (ensure_dir d p) = d_log d /\ d_out (ensure_dir d p) = d_out d /\
  p ∈ d_dirs (ensure_dir d p).
Proof.
  unfold ensure_dir. case_bool_decide; [done|]. cbn. split_and!; try done.
  apply elem_of_app. right. by left.
Qed.

(** A report run on the loaded document leaves the disk as it was,
    messages apart. *)
Lemma with_world_prints_only {A} path cfg (m : PyM World A) d :
  PyDict.get path (d_yaml d) = Some cfg -> prints_only m ->
  let d' := fst (with_world path cfg m d) in
  d_yaml d' = d_yaml d /\ d_fs d' = d_fs d /\ d_log d' = d_log d /\ d_dirs d' = d_dirs d.
Proof.
  intros Hg Hm. unfold with_world. specialize (Hm (to_world cfg d)).
  destruct (m (to_world cfg d)) as [w' r]. destruct Hm as (_ & Hcf & Hfs & Hd & Hl).
  cbn in *. rewrite Hcf, Hfs, Hd, Hl. split_and!; try done. by apply PyDict.set_get_same.
Qed.

Section Main.
Context `{Externals}.

Lemma load_config_ok path d cfg :
  PyDict.get path (d_yaml d) = Some cfg -> _load_config path d = (d, Ret cfg).
Proof. intros Hg. unfold _load_config, pbind, pget. cbn. by rewrite Hg. Qed.

Lemma mkdir_ok d p : can_mkdir d p -> mkdir_exist_ok p d = (ensure_dir d p, Ret tt).
Proof.
  unfold mkdir_exist_ok, ensure_dir, pbind, pget. cbn. intros [Hin|[Hm Hp]].
  - by rewrite bool_decide_eq_true_2.
  - case_bool_decide; [done|]. rewrite Hm. by rewrite bool_decide_eq_true_2.
Qed.

Lemma init_ok path d cfg od tc :
  PyDict.get path (d_yaml d) = Some cfg -> st_output_dir (settings cfg) = Some od ->
  st_token_counter (settings cfg) = Some tc -> can_mkdir d od ->
  __init__ path d =
  (ensure_dir d od,
   Ret ({| Ingest.m_output_dir := od; Ingest.m_token_counter := ext_expandvars tc |}, cfg)).
Proof.
  intros Hg Ho Ht Hm. unfold __init__.
  erewrite pbind_Ret by (by apply load_config_ok). rewrite Ho.
  erewrite pbind_Ret by (by apply mkdir_ok). by rewrite Ht.
Qed.

(** C34: Start-up failures of [GitIngestManager(...)]: a configuration
    path with no document raises [FileNotFoundError] before anything is
    created; an absent [output_dir] setting raises [KeyError]; an output
    directory whose parent does not exist raises [FileNotFoundError]
    ([mkdir] creates no parents); a file in its place raises
    [FileExistsError]; an absent [token_counter] setting raises
    [KeyError] only after the output directory was created. *)
Theorem init_errors path d :
  (PyDict.get path (d_yaml d) = None -> __init__ path d = (d, Exc (FileNotFoundError path))) /\
  forall cfg, PyDict.get path (d_yaml d) = Some cfg ->
  (st_output_dir (settings cfg) = None -> __init__ path d = (d, Exc (KeyError "output_dir"))) /\
  (forall od, st_output_dir (settings cfg) = Some od -> od ∉ d_dirs d ->
     PyDict.mem od (d_fs d) = false -> parent od ∉ d_dirs d ->
     __init__ path d = (d, Exc (FileNotFoundError od))) /\
  (forall od, st_output_dir (settings cfg) = Some od -> od ∉ d_dirs d ->
     PyDict.mem od (d_fs d) = true -> __init__ path d = (d, Exc (FileExistsError od))) /\
  (forall od, st_output_dir (settings cfg) = Some od -> can_mkdir d od ->
     st_token_counter (settings cfg) = None ->
     __init__ path d = (ensure_dir d od, Exc (KeyError "token_counter"))).
Proof.
  split; [intros Hg; unfold __init__, _load_config, pbind, pget; cbn; by rewrite Hg|].
  intros cfg Hg. unfold __init__. erewrite pbind_Ret by (by apply load_config_ok).
  split_and!.
  - by intros ->.
  - intros od -> Hd Hm Hp. unfold mkdir_exist_ok, pbind, pget. cbn.
    by rewrite bool_decide_eq_false_2, Hm, bool_decide_eq_false_2.
  - intros od -> Hd Hm. unfold mkdir_exist_ok, pbind, pget. cbn.
    by rewrite bool_decide_eq_false_2, Hm.
  - intros od -> Hm Ht. erewrite pbind_Ret by (by apply mkdir_ok). by rewrite Ht.
Qed.

(** C22: [ingest] without a repository (absent or empty [--repo]) prints
    the error and exits with status 1; the output directory has been
    created by then, and nothing else changes. *)
Theorem main_ingest_requires_repo args d cfg od tc :
  PyDict.get (a_config args) (d_yaml d) = Some cfg ->
  st_output_dir (settings cfg) = Some od -> st_token_counter (settings cfg) = Some tc ->
  can_mkdir d od -> a_command args = CmdIngest -> a_repo args = None \/ a_repo args = Some "" ->
  main args d = (disk_emit (ensure_dir d od) MsgRepoRequired, Exc (SystemExit 1)).
Proof.
  intros Hg Ho Ht Hm Hc Hr. unfold main.
  erewrite pbind_Ret by (by eapply init_ok). rewrite Hc. by destruct Hr as [-> | ->].
Qed.

(** C21: [main clean] on a directory without duplicate paths returns
    normally, creates the output directory if needed, removes exactly
    the files [clean_old] selects in it, and leaves the configuration
    file and the log as they were. *)
Theorem main_clean args d cfg od tc :
  PyDict.get (a_config args) (d_yaml d) = Some cfg ->
  st_output_dir (settings cfg) = Some od -> st_token_counter (settings cfg) = Some tc ->
  can_mkdir d od -> a_command args = CmdClean -> PyDict.wf (d_fs d) ->
  let D := Clean.to_delete (a_keep args) od (d_fs d) in
  let '(d', r) := main args d in
  r = Ret tt /\ d_yaml d' = d_yaml d /\ od ∈ d_dirs d' /\
  d_fs d' = List.filter (fun e => negb (bool_decide (e.1 ∈ map fst D))) (d_fs d) /\
  d_log d' = d_log d.
Proof.
  intros Hg Ho Ht Hm Hc Hwf D. unfold main.
  erewrite pbind_Ret by (by eapply init_ok). rewrite Hc. unfold with_world.
  cbn [Ingest.m_output_dir].
  destruct (ensure_dir_fields d od) as (Hy & Hf & Hl & _ & Hin).
  destruct (Clean.clean_old_state od (a_keep args) (to_world cfg (ensure_dir d od))) as (n & b & ->);
    [cbn; by rewrite Hf|].
  cbn. by rewrite Hy, Hf, Hl, PyDict.set_get_same.
Qed.

(** C35: The three reports ([list-repos], [list-profiles],
    [list-ingested]) change neither the configuration file, nor the
    files, nor the log, whether they finish or raise; the only change to
    the directories is the output directory created at start-up. *)
Theorem main_reports_read_only args d cfg od tc :
  PyDict.get (a_config args) (d_yaml d) = Some cfg ->
  st_output_dir (settings cfg) = Some od -> st_token_counter (settings cfg) = Some tc ->
  can_mkdir d od -> a_command args ∈ [CmdListRepos; CmdListProfiles; CmdListIngested] ->
  let d' := fst (main args d) in
  d_yaml d' = d_yaml d /\ d_fs d' = d_fs d /\ d_log d' = d_log d /\
  d_dirs d' = d_dirs (ensure_dir d od).
Proof.
  intros Hg Ho Ht Hm Hc d'. subst d'. unfold main.
  erewrite pbind_Ret by (by eapply init_ok).
  destruct (ensure_dir_fields d od) as (Hy & Hf & Hl & _ & _).
  rewrite <- Hy, <- Hf, <- Hl. rewrite <- Hy in Hg.
  repeat (apply elem_of_cons in Hc as [Hc|Hc]; [rewrite Hc; apply with_world_prints_only;
    [done|auto using list_repos_prints_only, list_profiles_prints_only,
          list_ingested_prints_only]|]).
  by apply elem_of_nil in Hc.
Qed.

End Main.

(** ** The reports *)

(** C24: Error: [list_repos] prints the header, then each repository in
    the order of the document: its name and description, and, when it
    has a [source], the source, the number of exclusions and the
    metadata of its last ingestion.  When every repository has a
    [source] it returns; otherwise it raises [KeyError 'source'] at the
    first one without, after printing that one's name and description,
    and the repositories after it are not printed. *)
Theorem list_repos_output w :
  let lines := flat_map (fun '(n, rc) => repo_lines n rc) in
  (Forall sourced (repositories (w_config w)) ->
   list_repos w = (world_emits w (MsgReposHeader :: lines (repositories (w_config w))), Ret tt)) /\
  (forall pre name rc post,
   repositories (w_config w) = (pre ++ (name, rc) :: post)%list -> Forall sourced pre ->
   rc_source rc = None ->
   list_repos w =
     (world_emits w (MsgReposHeader :: lines pre ++ repo_lines name rc)%list, Exc (KeyError "source"))).
Proof.
  intros lines. unfold list_repos.
  rewrite (pbind_Ret _ _ _ _ _ (emit_lines _ w)), (pbind_Ret pget _ _ _ _ eq_refl).
  cbn [w_config world_emits fold_left world_emit]. split.
  - intros Hs. rewrite (pfor_lines _ _ (fun '(n, rc) => repo_lines n rc)); [done|].
    intros [n rc] w' Hin. rewrite list_repo_lines.
    by destruct (proj1 (Forall_forall _ _) Hs _ Hin) as [src Hsrc]; cbn in Hsrc; rewrite Hsrc.
  - intros pre name rc post -> Hs Hn.
    rewrite (pfor_lines_exc _ _ _ _ (fun '(n, rc) => repo_lines n rc) (KeyError "source")).
    + done.
    + intros [n r] w' Hin. rewrite list_repo_lines.
      by destruct (proj1 (Forall_forall _ _) Hs _ Hin) as [src Hsrc]; cbn in Hsrc; rewrite Hsrc.
    + intros w'. by rewrite list_repo_lines, Hn.
Qed.

(** C25: Error: [list_profiles] prints the header, then each profile in
    the order of the document: its name and, when it has a
    [description], the description and the number of additional
    exclusions.  When every profile has a [description] it returns;
    otherwise it raises [KeyError 'description'] at the first one
    without, after printing that one's name, and the profiles after it
    are not printed. *)
Theorem list_profiles_output w :
  let lines := flat_map (fun '(n, pc) => profile_lines n pc) in
  (Forall described (profiles (w_config w)) ->
   list_profiles w = (world_emits w (MsgProfilesHeader :: lines (profiles (w_config w))), Ret tt)) /\
  (forall pre name pc post,
   profiles (w_config w) = (pre ++ (name, pc) :: post)%list -> Forall described pre ->
   pc_description pc = None ->
   list_profiles w =
     (world_emits w (MsgProfilesHeader :: lines pre ++ profile_lines name pc)%list,
      Exc (KeyError "description"))).
Proof.
  intros lines. unfold list_profiles.
  rewrite (pbind_Ret _ _ _ _ _ (emit_lines _ w)), (pbind_Ret pget _ _ _ _ eq_refl).
  cbn [w_config world_emits fold_left world_emit]. split.
  - intros Hs. rewrite (pfor_lines _ _ (fun '(n, pc) => profile_lines n pc)); [done|].
    intros [n pc] w' Hin. rewrite list_profile_lines.
    by destruct (proj1 (Forall_forall _ _) Hs _ Hin) as [d Hd]; cbn in Hd; rewrite Hd.
  - intros pre name pc post -> Hs Hn.
    rewrite (pfor_lines_exc _ _ _ _ (fun '(n, pc) => profile_lines n pc) (KeyError "description")).
    + done.
    + intros [n p] w' Hin. rewrite list_profile_lines.
      by destruct (proj1 (Forall_forall _ _) Hs _ Hin) as [d Hd]; cbn in Hd; rewrite Hd.
    + intros w'. by rewrite list_profile_lines, Hn.
Qed.

(** C26: Functional: [list_ingested] prints the header, then
    [No ingested files found.] when the output directory has no [.md]
    file, and otherwise one entry per [.md] file of the directory, each
    exactly once, in lexicographic order of the paths; it always
    returns. *)
Theorem list_ingested_output dir w :
  exists files, files ≡ₚ Clean.glob_md dir (w_fs w) /\ Sorted name_le files /\
  list_ingested dir w =
    (world_emits w (MsgIngestedHeader dir ::
       match files with [] => [MsgNoIngested] | _ => map ingested_line files end), Ret tt).
Proof.
  exists (sort_paths (Clean.glob_md dir (w_fs w))).
  split_and!; [apply sort_paths_perm|apply sort_paths_sorted|]. unfold list_ingested.
  rewrite (pbind_Ret _ _ _ _ _ (emit_lines _ w)), (pbind_Ret pget _ _ _ _ eq_refl).
  cbn [w_fs world_emits fold_left world_emit].
  destruct (sort_paths _) as [|e l]; [done|].
  rewrite (pfor_lines _ _ (fun e => [ingested_line e])); [|done].
  cbn [world_emits fold_left]. do 2 f_equal.
Qed.

Lemma init_errors_witness :
  let d := cli_disk in let path := "gitingest.yaml" in let cfg := Exclusions.scenario_cfg in
  (PyDict.get "other.yaml" (d_yaml d) = None /\
   @__init__ cli_ext "other.yaml" d = (d, Exc (FileNotFoundError "other.yaml"))) /\
  (st_output_dir (settings cfg) = None ->
     @__init__ cli_ext path d = (d, Exc (KeyError "output_dir"))) /\
  (forall od, st_output_dir (settings cfg) = Some od -> od ∉ d_dirs d ->
     PyDict.mem od (d_fs d) = false -> parent od ∉ d_dirs d ->
     @__init__ cli_ext path d = (d, Exc (FileNotFoundError od))) /\
  (forall od, st_output_dir (settings cfg) = Some od -> od ∉ d_dirs d ->
     PyDict.mem od (d_fs d) = true -> @__init__ cli_ext path d = (d, Exc (FileExistsError od))) /\
  (forall od, st_output_dir (settings cfg) = Some od -> can_mkdir d od ->
     st_token_counter (settings cfg) = None ->
     @__init__ cli_ext path d = (ensure_dir d od, Exc (KeyError "token_counter"))).
Proof.
  split; [split; [reflexivity|apply (proj1 (init_errors _ _)); reflexivity]|].
  apply (proj2 (init_errors _ _)). reflexivity.
Defined.

(** The configuration of [listing_cfg]: [repo1] is printed with its
    metadata, [broken] stops the report. *)
Lemma list_repos_output_witness :
  let w := initial_world listing_cfg [] ["."; "out"] in
  list_repos w =
    (world_emits w [MsgReposHeader; MsgRepo "repo1" "main"; MsgRepoSource "/src/repo1" 1;
                    MsgRepoMeta "20261109_080503" "standard" 1000 4000; MsgRepo "broken" "N/A"],
     Exc (KeyError "source")).
Proof.
  intros w. rewrite (proj2 (list_repos_output w) (take 1 (repositories listing_cfg)) "broken"
    (nth 1 (repositories listing_cfg) ("", Exclusions.scenario_repo1)).2
    (drop 2 (repositories listing_cfg))); [reflexivity|reflexivity|..].
  - vm_compute. repeat econstructor.
  - reflexivity.
Defined.

Lemma main_ingest_requires_repo_witness :
  @main cli_ext (cli_args CmdIngest (Some "")) cli_disk =
  (disk_emit (ensure_dir cli_disk "out") MsgRepoRequired, Exc (SystemExit 1)).
Proof.
  apply (main_ingest_requires_repo _ _ Exclusions.scenario_cfg "out" "tc");
    try reflexivity; [unfold can_mkdir; decide_it|by right].
Defined.

Lemma main_clean_witness :
  let D := Clean.to_delete 1 "out" (d_fs cli_disk) in
  let '(d', r) := @main cli_ext (cli_args CmdClean None) cli_disk in
  r = Ret tt /\ d_yaml d' = d_yaml cli_disk /\ "out" ∈ d_dirs d' /\
  d_fs d' = List.filter (fun e => negb (bool_decide (e.1 ∈ map fst D))) (d_fs cli_disk) /\
  d_log d' = d_log cli_disk.
Proof.
  apply (main_clean (cli_args CmdClean None) cli_disk Exclusions.scenario_cfg "out" "tc");
    try reflexivity; [unfold can_mkdir|]; decide_it.
Defined.

Lemma main_reports_read_only_witness :
  let d' := fst (@main cli_ext (cli_args CmdListIngested None) cli_disk) in
  d_yaml d' = d_yaml cli_disk /\ d_fs d' = d_fs cli_disk /\ d_log d' = d_log cli_disk /\
  d_dirs d' = d_dirs (ensure_dir cli_disk "out").
Proof.
  apply (main_reports_read_only _ _ Exclusions.scenario_cfg "out" "tc");
    try reflexivity; [unfold can_mkdir|]; decide_it.
Defined.

(** [bare] stops the report after its name. *)
Lemma list_profiles_output_witness :
  let w := initial_world profiles_cfg [] ["."; "out"] in
  list_profiles w =
    (world_emits w [MsgProfilesHeader; MsgProfile "standard"; MsgProfileInfo "std" 2;
                    MsgProfile "bare"], Exc (KeyError "description")).
Proof.
  intros w. rewrite (proj2 (list_profiles_output w) (take 1 (profiles profiles_cfg)) "bare"
    (nth 1 (profiles profiles_cfg) ("", {| pc_description := None; pc_additional_exclusions := None |})).2
    (drop 2 (profiles profiles_cfg))); [reflexivity|reflexivity|..].
  - vm_compute. repeat econstructor.
  - reflexivity.
Defined.

End Cli.
