(* ===== verification/ArgParse.v ===== *)
(** * ArgParse: the command line of [main] (lines 342-352)

    [main] builds an [argparse.ArgumentParser] with one positional
    argument, [command], restricted to five choices (line 344), and five
    options taking one value each (lines 346-350): [--repo/-r],
    [--profile/-p] (default [standard]), [--version/-v], [--config/-c]
    (default [gitingest.yaml]) and [--keep/-k] ([type=int], default 3),
    besides the [-h/--help] the parser adds.  [parse_args] follows
    CPython 3.12's [_parse_known_args] for this parser:

    - every argument is first classified ([_parse_optional]): the first
      [--] and everything after it are positional; a string not starting
      with [-], the string [-] and the empty string are positional; an
      option string, an option string followed by [=value], a unique
      prefix of a long option ([--rep]) and a short option with its value
      attached ([-rfoo]) are options; a negative number ([-1], [-.5])
      and a string containing a space are positional, since no option
      looks like a negative number; anything else is an unknown option;
    - the arguments are then consumed left to right: an option takes its
      attached value or the next argument, which must be positional (the
      pattern of an option admits no [--]); [-h] prints the help and
      exits at once; the first positional is [command] and is checked
      against the choices; every other positional and every unknown
      option is kept as an extra;
    - at the end a missing [command] is an error, then any extra is.

    An error prints the usage and exits with status 2, the help exits
    with status 0.  [run] is the program: parse, then [main]. *)

From S2P Require Import Prelude PyStr Config World Cli.
From Stdlib Require Import Ascii.

Open Scope string_scope.
Open Scope py_scope.

Module ArgParse.

Import Cli.Cli.

(** The attribute an option sets. *)
Inductive Dest := DHelp | DRepo | DProfile | DVersion | DConfig | DKeep.

#[export] Instance Dest_eq_dec : EqDecision Dest.
Proof. solve_decision. Defined.

(** [parser._option_string_actions] in registration order: [-h/--help]
    from [ArgumentParser], then lines 346-350. *)
Definition option_strings : list (string * Dest) :=
  [("-h", DHelp); ("--help", DHelp); ("--repo", DRepo); ("-r", DRepo);
   ("--profile", DProfile); ("-p", DProfile); ("--version", DVersion); ("-v", DVersion);
   ("--config", DConfig); ("-c", DConfig); ("--keep", DKeep); ("-k", DKeep)].

(** The action's name in messages: its option strings joined by [/]. *)
Definition dest_name (d : Dest) : string :=
  match d with
  | DHelp => "-h/--help" | DRepo => "--repo/-r" | DProfile => "--profile/-p"
  | DVersion => "--version/-v" | DConfig => "--config/-c" | DKeep => "--keep/-k"
  end.

Definition lookup_option (o : string) : option Dest := PyDict.get o option_strings.

(** [choices=[...]] of line 344. *)
Definition command_of (s : string) : option Command :=
  if String.eqb s "ingest" then Some CmdIngest
  else if String.eqb s "list-repos" then Some CmdListRepos
  else if String.eqb s "list-profiles" then Some CmdListProfiles
  else if String.eqb s "list-ingested" then Some CmdListIngested
  else if String.eqb s "clean" then Some CmdClean
  else None.

Definition command_name (c : Command) : string :=
  match c with
  | CmdIngest => "ingest" | CmdListRepos => "list-repos" | CmdListProfiles => "list-profiles"
  | CmdListIngested => "list-ingested" | CmdClean => "clean"
  end.

(** [s.split(sep, 1)] when [sep] occurs in [s]. *)
Fixpoint split_once (sep : ascii) (s : string) : option (string * string) :=
  match s with
  | EmptyString => None
  | String c s' =>
      if Ascii.eqb c sep then Some (EmptyString, s')
      else option_map (fun '(a, b) => (String c a, b)) (split_once sep s')
  end.

Definition is_dash (c : ascii) : bool := Ascii.eqb c "-".

(** [_negative_number_matcher]: [^-\d+$|^-\d*\.\d+$], where [$] also
    matches before a final newline. *)
Definition is_negative_number (a : string) : bool :=
  match a with
  | String c s =>
      is_dash c &&
      (let s := if PyStr.endswith s (String "010" EmptyString) then PyStr.drop_last 1 s else s in
       (negb (String.eqb s "") && PyStr.all_digits s) ||
       match split_once "." s with
       | Some (int_part, frac) => PyStr.all_digits int_part && negb (String.eqb frac "") &&
                                  PyStr.all_digits frac
       | None => false
       end)
  | EmptyString => false
  end.

(** An argument as [_parse_optional] classifies it: an option (known or
    not) with its option string and attached value, a positional, or
    the first [--]. *)
Inductive Arg :=
  | AOpt (d : option Dest) (opt : string) (explicit : option string)
  | APos (s : string)
  | ADash.

(** [_get_option_tuples]: the actions a long prefix or a short option
    with an attached value can name. *)
Definition option_tuples (a : string) : list (Dest * string * option string) :=
  match a with
  | String c1 (String c2 rest) =>
      if is_dash c1 && is_dash c2 then
        let '(prefix, explicit) :=
          match split_once "=" a with Some (p, v) => (p, Some v) | None => (a, None) end in
        map (fun '(o, d) => (d, o, explicit))
            (List.filter (fun '(o, _) => PyStr.startswith o prefix) option_strings)
      else if is_dash c1 then
        flat_map (fun '(o, d) =>
                    if String.eqb o (String c1 (String c2 EmptyString)) then [(d, o, Some rest)]
                    else if PyStr.startswith o a then [(d, o, None)] else [])
                 option_strings
      else []
  | _ => []
  end.

(** [_parse_optional] *)
Definition parse_optional (a : string) : ArgError + Arg :=
  match a with
  | EmptyString => inr (APos a)
  | String c _ =>
      if negb (is_dash c) then inr (APos a) else
      match lookup_option a with
      | Some d => inr (AOpt (Some d) a None)
      | None =>
          if Nat.eqb (String.length a) 1 then inr (APos a) else
          match match split_once "=" a with
                | Some (o, v) => option_map (fun d => AOpt (Some d) o (Some v)) (lookup_option o)
                | None => None
                end with
          | Some x => inr x
          | None =>
              match option_tuples a with
              | [(d, o, v)] => inr (AOpt (Some d) o v)
              | _ :: _ :: _ => inl (ErrAmbiguous a)
              | [] =>
                  if is_negative_number a then inr (APos a)
                  else if PyStr.contains " " a then inr (APos a)
                  else inr (AOpt None a None)
              end
          end
      end
  end.

(** The classification loop of [_parse_known_args]: after the first
    [--] every argument is positional. *)
Fixpoint classify (args : list string) : ArgError + list Arg :=
  match args with
  | [] => inr []
  | a :: rest =>
      if String.eqb a "--" then inr (ADash :: map APos rest)
      else match parse_optional a with
           | inl e => inl e
           | inr x => match classify rest with
                      | inl e => inl e
                      | inr xs => inr (x :: xs)
                      end
           end
  end.

(** The namespace [parse_args] fills. *)
Record NS := {
  ns_command : option Command; ns_repo : option string; ns_profile : string;
  ns_version : option string; ns_config : string; ns_keep : Z
}.

(** The defaults of lines 344-350. *)
Definition defaults : NS :=
  {| ns_command := None; ns_repo := None; ns_profile := "standard"; ns_version := None;
     ns_config := "gitingest.yaml"; ns_keep := 3 |}.

Definition set_command (c : Command) (ns : NS) : NS :=
  {| ns_command := Some c; ns_repo := ns_repo ns; ns_profile := ns_profile ns;
     ns_version := ns_version ns; ns_config := ns_config ns; ns_keep := ns_keep ns |}.

(** [take_action] for a [store] option: the value converted by its
    [type] ([int] for [--keep]), the last occurrence winning. *)
Definition store (d : Dest) (v : string) (ns : NS) : ArgError + NS :=
  match d with
  | DRepo => inr {| ns_command := ns_command ns; ns_repo := Some v; ns_profile := ns_profile ns;
                    ns_version := ns_version ns; ns_config := ns_config ns; ns_keep := ns_keep ns |}
  | DProfile => inr {| ns_command := ns_command ns; ns_repo := ns_repo ns; ns_profile := v;
                       ns_version := ns_version ns; ns_config := ns_config ns; ns_keep := ns_keep ns |}
  | DVersion => inr {| ns_command := ns_command ns; ns_repo := ns_repo ns; ns_profile := ns_profile ns;
                       ns_version := Some v; ns_config := ns_config ns; ns_keep := ns_keep ns |}
  | DConfig => inr {| ns_command := ns_command ns; ns_repo := ns_repo ns; ns_profile := ns_profile ns;
                      ns_version := ns_version ns; ns_config := v; ns_keep := ns_keep ns |}
  | DKeep =>
      match PyStr.py_int v with
      | Some k => inr {| ns_command := ns_command ns; ns_repo := ns_repo ns;
                         ns_profile := ns_profile ns; ns_version := ns_version ns;
                         ns_config := ns_config ns; ns_keep := k |}
      | None => inl (ErrInvalidInt (dest_name d) v)
      end
  | DHelp => inr ns
  end.

Inductive Scan := ScanDone (ns : NS) (extras : list string) | ScanHelp | ScanError (e : ArgError).

Definition store_then (d : Dest) (v : string) (ns : NS) (k : NS -> Scan) : Scan :=
  match store d v ns with inl e => ScanError e | inr ns' => k ns' end.

(** [consume_optional] for [-h] given an attached value [v] ([-hX...]):
    the help is queued and [-X] read as the next short option, with the
    rest of [v] attached; the queued help runs first, so the loop ends
    in the help unless it raises an error before. *)
Fixpoint help_chain (v : string) (rest : list Arg) : Scan :=
  match v with
  | EmptyString => ScanError (ErrIgnoredExplicit (dest_name DHelp) v)
  | String c v' =>
      match lookup_option (String "-" (String c EmptyString)) with
      | None => ScanError (ErrIgnoredExplicit (dest_name DHelp) v)
      | Some DHelp => match v' with EmptyString => ScanHelp | _ => help_chain v' rest end
      | Some d =>
          match v', rest with
          | EmptyString, APos _ :: _ => ScanHelp
          | EmptyString, _ => ScanError (ErrExpectedOne (dest_name d))
          | _, _ => ScanHelp
          end
      end
  end.

(** The consumption loop of [_parse_known_args]. *)
Fixpoint scan (xs : list Arg) (ns : NS) (extras : list string) : Scan :=
  match xs with
  | [] => ScanDone ns extras
  | AOpt None a _ :: rest => scan rest ns (extras ++ [a])
  | AOpt (Some DHelp) _ None :: _ => ScanHelp
  | AOpt (Some DHelp) o (Some v) :: rest =>
      match o with
      | String _ (String c _) =>
          if is_dash c then ScanError (ErrIgnoredExplicit (dest_name DHelp) v)
          else help_chain v rest
      | _ => ScanError (ErrIgnoredExplicit (dest_name DHelp) v)
      end
  | AOpt (Some d) _ (Some v) :: rest => store_then d v ns (fun ns' => scan rest ns' extras)
  | AOpt (Some d) _ None :: rest =>
      match rest with
      | APos v :: rest' => store_then d v ns (fun ns' => scan rest' ns' extras)
      | _ => ScanError (ErrExpectedOne (dest_name d))
      end
  | APos v :: rest =>
      match ns_command ns with
      | Some _ => scan rest ns (extras ++ [v])
      | None =>
          match command_of v with
          | None => ScanError (ErrInvalidChoice v)
          | Some c =>
              match rest with
              | ADash :: rest' => scan rest' (set_command c ns) extras
              | _ => scan rest (set_command c ns) extras
              end
          end
      end
  | ADash :: rest =>
      match ns_command ns, rest with
      | None, APos v :: rest' =>
          match command_of v with
          | None => ScanError (ErrInvalidChoice v)
          | Some c => scan rest' (set_command c ns) extras
          end
      | _, _ => scan rest ns (extras ++ ["--"])
      end
  end.

Inductive ParseResult := Parsed (a : Args) | ParseHelp | ParseError (e : ArgError).

(** [parser.parse_args()] (line 352). *)
Definition parse_args (argv : list string) : ParseResult :=
  match classify argv with
  | inl e => ParseError e
  | inr xs =>
      match scan xs defaults [] with
      | ScanHelp => ParseHelp
      | ScanError e => ParseError e
      | ScanDone ns extras =>
          match ns_command ns with
          | None => ParseError (ErrRequired ["command"])
          | Some c =>
              match extras with
              | [] => Parsed {| a_command := c; a_repo := ns_repo ns; a_profile := ns_profile ns;
                                a_version := ns_version ns; a_config := ns_config ns;
                                a_keep := ns_keep ns |}
              | _ => ParseError (ErrUnrecognized extras)
              end
          end
      end
  end.

Section WithExternals.
Context `{Externals}.

(** The program run with the arguments [argv] (lines 342-374): the
    help exits with status 0 and an error with status 2 before any
    configuration is read. *)
Definition run (argv : list string) : PyM Disk unit :=
  match parse_args argv with
  | ParseHelp => pmodify (fun d => disk_emit d MsgHelp) ;;; raise (SystemExit 0)
  | ParseError e => pmodify (fun d => disk_emit d (MsgUsage e)) ;;; raise (SystemExit 2)
  | Parsed a => main a
  end.

End WithExternals.

(** The long and the short option string of a store action (lines
    346-350). *)
Definition long_name (d : Dest) : string :=
  match d with
  | DHelp => "--help" | DRepo => "--repo" | DProfile => "--profile" | DVersion => "--version"
  | DConfig => "--config" | DKeep => "--keep"
  end.

Definition short_name (d : Dest) : string :=
  match d with
  | DHelp => "-h" | DRepo => "-r" | DProfile => "-p" | DVersion => "-v" | DConfig => "-c"
  | DKeep => "-k"
  end.

(** [option=value], the spelling with the value attached. *)
Definition attach (o v : string) : string := o +:+ String "=" v.

(** A command line naming every field of [a], each option with its
    value attached. *)
Definition unparse (a : Args) : list string :=
  [command_name (a_command a)] ++
  match a_repo a with Some r => [attach "--repo" r] | None => [] end ++
  [attach "--profile" (a_profile a)] ++
  match a_version a with Some v => [attach "--version" v] | None => [] end ++
  [attach "--config" (a_config a); attach "--keep" (PyStr.str_of_Z (a_keep a))].

(** The arguments [clean -k <k>] parses to. *)
Definition clean_keep (k : Z) : Args :=
  {| a_command := CmdClean; a_repo := None; a_profile := "standard"; a_version := None;
     a_config := "gitingest.yaml"; a_keep := k |}.

(** ** Properties *)

Lemma lookup_option_cases o d : lookup_option o = Some d -> o ∈ PyDict.keys option_strings.
Proof. apply PyDict.get_Some_in. Qed.

(** An option string with its value attached is that option, whatever
    the value: [=] splits before any other reading. *)
Lemma classify_attached o d v rest :
  lookup_option o = Some d ->
  classify (attach o v :: rest) =
    match classify rest with
    | inl e => inl e
    | inr xs => inr (AOpt (Some d) o (Some v) :: xs)
    end.
Proof.
  intros Hd. pose proof (lookup_option_cases _ _ Hd) as Hin. cbn in Hin.
  rewrite !elem_of_cons, elem_of_nil in Hin.
  destruct_or! Hin; subst; vm_compute in Hd; injection Hd as <-; reflexivity.
Qed.

Lemma classify_command c rest :
  classify (command_name c :: rest) =
    match classify rest with inl e => inl e | inr xs => inr (APos (command_name c) :: xs) end.
Proof. by destruct c. Qed.

Lemma classify_cons a x rest :
  String.eqb a "--" = false -> parse_optional a = inr x ->
  classify (a :: rest) = match classify rest with inl e => inl e | inr xs => inr (x :: xs) end.
Proof. intros Ha Hx. cbn [classify]. by rewrite Ha, Hx. Qed.

(** A positional value is not the [--] marker, which is ambiguous on
    its own reading. *)
Lemma positional_not_dashdash v : parse_optional v = inr (APos v) -> String.eqb v "--" = false.
Proof. intros Hv. destruct (String.eqb_spec v "--") as [->|]; [discriminate Hv|done]. Qed.

(** The separate spellings of a store option: its long string, its
    short string, and every prefix of the long one of at least three
    characters. *)
Lemma parse_optional_separate d k :
  d <> DHelp -> (3 <= k <= String.length (long_name d))%nat ->
  parse_optional (long_name d) = inr (AOpt (Some d) (long_name d) None) /\
  parse_optional (short_name d) = inr (AOpt (Some d) (short_name d) None) /\
  parse_optional (String.substring 0 k (long_name d)) = inr (AOpt (Some d) (long_name d) None).
Proof.
  intros Hd Hk. destruct d; [done|..]; cbn in Hk;
    (assert (k = 3 \/ k = 4 \/ k = 5 \/ k = 6 \/ k = 7 \/ k = 8 \/ k = 9)%nat as Hk' by lia);
    destruct_or! Hk'; subst k; cbn in Hk; try lia; vm_compute; auto.
Qed.

(** ** Reading [str(k)] as a value *)

(** After a dash, a digit names no option and starts no option prefix. *)
Lemma dash_digit_options c s :
  PyStr.is_digit c = true ->
  lookup_option (String "-" (String c s)) = None /\
  option_tuples (String "-" (String c s)) = [] /\ is_dash c = false /\ Ascii.eqb c "=" = false.
Proof.
  intros Hc. destruct c as [[] [] [] [] [] [] [] []]; vm_compute in Hc; try discriminate Hc;
    vm_compute; split_and!; reflexivity.
Qed.

(** [str(k)] is a digit string, with a minus sign when [k < 0]. *)
Lemma str_of_Z_shape k :
  exists c s, PyStr.is_digit c = true /\ PyStr.all_digits s = true /\
    (PyStr.str_of_Z k = String c s \/ PyStr.str_of_Z k = String "-" (String c s)).
Proof.
  destruct k as [|p|p]; unfold PyStr.str_of_Z.
  - exists "0"%char, "". split_and!; [reflexivity..|left; reflexivity].
  - destruct (PyStr.str_of_N_shape (Z.to_N (Zpos p))) as (c & s & E & Hc & Hs). exists c, s. rewrite E. auto.
  - destruct (PyStr.str_of_N_shape (Npos p)) as (c & s & E & Hc & Hs). rewrite E.
    exists c, s. split_and!; [done|done|right; reflexivity].
Qed.

Lemma split_once_cons c s :
  Ascii.eqb c "=" = false ->
  split_once "=" (String c s) = option_map (fun '(a, b) => (String c a, b)) (split_once "=" s).
Proof. intros He. cbn [split_once]. by rewrite He. Qed.

Lemma split_once_digits s : PyStr.all_digits s = true -> split_once "=" s = None.
Proof.
  induction s as [|c s IH]; [done|]. cbn [PyStr.all_digits]. intros [Hc Hs]%andb_prop.
  destruct (dash_digit_options c "" Hc) as (_ & _ & _ & He). cbn [split_once].
  by rewrite He, IH.
Qed.

Lemma split_once_str_of_Z k : split_once "=" (PyStr.str_of_Z k) = None.
Proof.
  destruct (str_of_Z_shape k) as (c & s & Hc & Hs & [E|E]); rewrite E.
  - apply split_once_digits. cbn. by rewrite Hc, Hs.
  - destruct (dash_digit_options c "" Hc) as (_ & _ & _ & He). cbn [split_once].
    by rewrite He, split_once_digits.
Qed.

(** [-] and digits: no option, and the negative-number matcher makes
    it a positional. *)
Lemma parse_optional_negative c s :
  PyStr.is_digit c = true -> PyStr.all_digits s = true ->
  parse_optional (String "-" (String c s)) = inr (APos (String "-" (String c s))).
Proof.
  intros Hc Hs. destruct (dash_digit_options c s Hc) as (Hl & Ht & _ & He).
  assert (Hall : PyStr.all_digits (String c s) = true) by (cbn; by rewrite Hc, Hs).
  assert (Hsp : split_once "=" (String "-" (String c s)) = None).
  { cbn [split_once]. by rewrite He, split_once_digits. }
  unfold parse_optional. rewrite Hl, Hsp, Ht. unfold is_negative_number.
  by rewrite PyStr.all_digits_no_newline, Hall.
Qed.

(** [str(k)] on its own is a positional argument, whatever [k]. *)
Lemma parse_optional_int k :
  parse_optional (PyStr.str_of_Z k) = inr (APos (PyStr.str_of_Z k)) /\
  String.eqb (PyStr.str_of_Z k) "--" = false.
Proof.
  destruct (str_of_Z_shape k) as (c & s & Hc & Hs & [E|E]); rewrite E;
    destruct (dash_digit_options c s Hc) as (_ & _ & Hd & _).
  - unfold parse_optional. rewrite Hd. split; [done|]. cbn [String.eqb].
    unfold is_dash in Hd. by rewrite Hd.
  - rewrite parse_optional_negative by done. split; [done|]. cbn [String.eqb].
    unfold is_dash in Hd. by rewrite Hd.
Qed.

(** [-k] with [str(k)] attached, without [=]: the short option takes
    the rest of the argument as its value. *)
Lemma parse_optional_short_keep k :
  parse_optional ("-k" +:+ PyStr.str_of_Z k) = inr (AOpt (Some DKeep) "-k" (Some (PyStr.str_of_Z k))).
Proof.
  pose proof (split_once_str_of_Z k) as Hsp.
  change ("-k" +:+ PyStr.str_of_Z k) with (String "-" (String "k" (PyStr.str_of_Z k))).
  destruct (str_of_Z_shape k) as (c & s & _ & _ & [E|E]); rewrite E in Hsp |- *;
    unfold parse_optional;
    rewrite (split_once_cons "-"), (split_once_cons "k"), Hsp by reflexivity;
    vm_compute; reflexivity.
Qed.

(** C16: Round trip: every value of the arguments [main] takes is what
    [parse_args] returns for some command line: the command followed by
    each option with its value attached ([--repo=...]), whatever the
    strings (empty, starting with [-], containing [=]) and whatever the
    integer [keep] (negative included). *)
Theorem parse_unparse a : parse_args (unparse a) = Parsed a.
Proof.
  destruct a as [c repo prof ver conf keep]. unfold unparse, parse_args. cbn [a_command a_repo
    a_profile a_version a_config a_keep].
  destruct repo, ver; cbn [app];
    rewrite classify_command; (repeat erewrite classify_attached by (vm_compute; reflexivity));
    cbn [classify]; destruct c; cbn -[PyStr.py_int PyStr.str_of_Z];
    unfold store_then, store; rewrite PyStr.py_int_str_of_Z; reflexivity.
Qed.

(** C23: Equivalence: after the command, a store option can be written
    [--repo v], [--repo=v], [-r v], [-r=v] or with any prefix of three
    characters or more of its long name ([--rep v]): every spelling
    gives the same result of [parse_args], whatever follows, when [v]
    itself reads as a positional argument. *)
Theorem option_spellings c d v k rest :
  d <> DHelp -> parse_optional v = inr (APos v) ->
  (3 <= k <= String.length (long_name d))%nat ->
  let base := parse_args (command_name c :: long_name d :: v :: rest) in
  parse_args (command_name c :: attach (long_name d) v :: rest) = base /\
  parse_args (command_name c :: attach (short_name d) v :: rest) = base /\
  parse_args (command_name c :: short_name d :: v :: rest) = base /\
  parse_args (command_name c :: String.substring 0 k (long_name d) :: v :: rest) = base.
Proof.
  intros Hd Hv Hk base. subst base.
  destruct (parse_optional_separate d k Hd Hk) as (Hl & Hs & Hp).
  assert (Hvd := positional_not_dashdash v Hv).
  assert (Hsep : forall o, parse_optional o = inr (AOpt (Some d) (long_name d) None) \/
                           parse_optional o = inr (AOpt (Some d) (short_name d) None) ->
            String.eqb o "--" = false).
  { intros o [Ho|Ho]; destruct (String.eqb_spec o "--") as [->|]; try done;
      destruct d; discriminate Ho. }
  unfold parse_args. rewrite !classify_command.
  rewrite (classify_attached (long_name d) d), (classify_attached (short_name d) d)
    by (destruct d; done).
  rewrite (classify_cons (long_name d) _ _ (Hsep _ (or_introl Hl)) Hl),
    (classify_cons (short_name d) _ _ (Hsep _ (or_intror Hs)) Hs),
    (classify_cons _ _ _ (Hsep _ (or_introl Hp)) Hp), (classify_cons v _ _ Hvd Hv).
  destruct (classify rest) as [e|xs]; [done|].
  destruct c, d; try done; split_and!; reflexivity.
Qed.

(** C17: Error: how [parse_args] ends a run before [main] starts.  An
    empty command line misses [command] (exit 2); [-h] first prints the
    help (exit 0) whatever follows; a first positional outside the
    choices is an invalid choice; a [--keep] value [int()] rejects is an
    invalid int; an option with nothing after it, or with [--] after
    it, expects one argument; a second positional is unrecognized; and
    [--=x] is ambiguous, since every long option starts with [--]. *)
Theorem parse_args_exits c d rest xs :
  classify rest = inr xs ->
  parse_args [] = ParseError (ErrRequired ["command"]) /\
  parse_args ("-h" :: rest) = ParseHelp /\
  (forall v, command_of v = None -> parse_optional v = inr (APos v) ->
     parse_args (v :: rest) = ParseError (ErrInvalidChoice v)) /\
  (forall x, PyStr.py_int x = None ->
     parse_args (command_name c :: attach "--keep" x :: rest) =
       ParseError (ErrInvalidInt "--keep/-k" x)) /\
  (d <> DHelp -> parse_args [command_name c; long_name d] = ParseError (ErrExpectedOne (dest_name d))) /\
  (forall v, d <> DHelp ->
     parse_args [command_name c; long_name d; "--"; v] = ParseError (ErrExpectedOne (dest_name d))) /\
  (forall x, parse_optional x = inr (APos x) ->
     parse_args [command_name c; x] = ParseError (ErrUnrecognized [x])) /\
  parse_args ["--=x"] = ParseError (ErrAmbiguous "--=x").
Proof.
  intros Hr. split_and!.
  - reflexivity.
  - unfold parse_args. rewrite (classify_cons "-h" (AOpt (Some DHelp) "-h" None)) by reflexivity.
    by rewrite Hr.
  - intros v Hc Hv. unfold parse_args.
    rewrite (classify_cons v _ _ (positional_not_dashdash v Hv) Hv), Hr. cbn. by rewrite Hc.
  - intros x Hx. unfold parse_args. rewrite classify_command, (classify_attached "--keep" DKeep)
      by reflexivity. rewrite Hr.
    destruct c; cbn -[PyStr.py_int]; unfold store_then, store; by rewrite Hx.
  - intros Hd. destruct c, d; done.
  - intros v Hd. destruct c, d; done.
  - intros x Hx. unfold parse_args.
    rewrite classify_command, (classify_cons x _ _ (positional_not_dashdash x Hx) Hx).
    cbn [classify]. destruct c; reflexivity.
  - vm_compute. reflexivity.
Qed.

Lemma option_spellings_witness :
  let base := parse_args [command_name CmdIngest; long_name DRepo; "repo1"] in
  parse_args [command_name CmdIngest; attach (long_name DRepo) "repo1"] = base /\
  parse_args [command_name CmdIngest; attach (short_name DRepo) "repo1"] = base /\
  parse_args [command_name CmdIngest; short_name DRepo; "repo1"] = base /\
  parse_args [command_name CmdIngest; String.substring 0 5 (long_name DRepo); "repo1"] = base.
Proof. apply (option_spellings CmdIngest DRepo "repo1" 5 []); [discriminate|reflexivity|cbn; lia]. Defined.

Lemma parse_args_exits_witness :
  parse_args [] = ParseError (ErrRequired ["command"]) /\
  parse_args ["-h"; "x"] = ParseHelp /\
  (forall v, command_of v = None -> parse_optional v = inr (APos v) ->
     parse_args [v; "x"] = ParseError (ErrInvalidChoice v)) /\
  (forall x, PyStr.py_int x = None ->
     parse_args [command_name CmdClean; attach "--keep" x; "x"] =
       ParseError (ErrInvalidInt "--keep/-k" x)) /\
  (DKeep <> DHelp -> parse_args [command_name CmdClean; long_name DKeep] =
                       ParseError (ErrExpectedOne (dest_name DKeep))) /\
  (forall v, DKeep <> DHelp ->
     parse_args [command_name CmdClean; long_name DKeep; "--"; v] =
       ParseError (ErrExpectedOne (dest_name DKeep))) /\
  (forall x, parse_optional x = inr (APos x) ->
     parse_args [command_name CmdClean; x] = ParseError (ErrUnrecognized [x])) /\
  parse_args ["--=x"] = ParseError (ErrAmbiguous "--=x").
Proof. apply (parse_args_exits CmdClean DKeep ["x"] [APos "x"]). reflexivity. Defined.

Section Run.
Context `{Externals}.

(** C36: Every [--keep] value reaches [main]: [str(k)] reads as a
    value and not an option, negative ones included since no option
    looks like a negative number, and [type=int] reads it back, so
    [clean -k <k>], [clean --keep <k>], [clean --keep=<k>] and
    [clean -k<k>] all run [main] with [keep_latest = k], for every
    integer [k]. *)
Theorem run_clean_keep d k :
  run ["clean"; "-k"; PyStr.str_of_Z k] d = main (clean_keep k) d /\
  run ["clean"; "--keep"; PyStr.str_of_Z k] d = main (clean_keep k) d /\
  run ["clean"; attach "--keep" (PyStr.str_of_Z k)] d = main (clean_keep k) d /\
  run ["clean"; "-k" +:+ PyStr.str_of_Z k] d = main (clean_keep k) d.
Proof.
  destruct (parse_optional_int k) as [Hv Hvd].
  unfold run, parse_args. change "clean" with (command_name CmdClean). rewrite !classify_command.
  rewrite (classify_cons "-k" (AOpt (Some DKeep) "-k" None)),
    (classify_cons "--keep" (AOpt (Some DKeep) "--keep" None)), (classify_cons _ _ _ Hvd Hv),
    (classify_attached "--keep" DKeep),
    (classify_cons ("-k" +:+ PyStr.str_of_Z k) _ _ eq_refl (parse_optional_short_keep k))
    by reflexivity.
  cbn -[PyStr.py_int PyStr.str_of_Z]. unfold store_then, store.
  by rewrite PyStr.py_int_str_of_Z.
Qed.

End Run.

End ArgParse.
