(* ===== verification/System.v ===== *)
(** * System: the program as a state machine over the disk

    One transition is one invocation of the program: [ArgParse.run] on
    any command line (a help or usage exit included, then [Cli.main] on
    the parsed arguments), against any behaviour of the outside world (any
    instance of [Externals], chosen anew at every invocation: the clock,
    gitingest, the counter, git and the network answer as they like).
    [reachable d0] is the reflexive-transitive closure from a starting
    disk.  The invariant: [yaml_skel], the stored configuration
    documents with their metadata blocks erased, never changes.  Every
    command keeps the skeleton of the document it loads, on every path,
    exceptions included ([World.keeps_skel]), and writes that document
    back at the path it was read from, so the skeletons are the same on
    every reachable disk.

    The ingestion log against its abstract specification: read as a list
    of entries by [abs_log], one invocation is a step of [astep] (the
    same list, or one entry appended, and only by [ingest]); a log that
    is not a list is never touched.  Hence the log is append-only along
    every sequence of invocations. *)

From S2P Require Import Prelude Config Exclusions World TokenCounter Ingest Clean Cli ArgParse.

Open Scope string_scope.

Module System.

(** The configuration documents on disk, each reduced to its skeleton
    (every metadata block erased). *)
Definition yaml_skel (d : Cli.Disk) : pydict string Config :=
  map (fun kv => (kv.1, config_skel kv.2)) (Cli.d_yaml d).

(** One invocation of the program. *)
Inductive step : Cli.Disk -> Cli.Disk -> Prop :=
  | step_run (X : Externals) (argv : list string) (d : Cli.Disk) :
      step d (fst (@ArgParse.run X argv d)).

Inductive reachable (d0 : Cli.Disk) : Cli.Disk -> Prop :=
  | reach_init : reachable d0 d0
  | reach_step d d' : reachable d0 d -> step d d' -> reachable d0 d'.

(** ** The ingestion log as the program promises it

    [ingestion_log.json] read as a list of entries: an absent file is
    the empty list, a JSON list its entries, anything else no list. *)
Definition abs_log (l : LogFile) : option (list LogEntry) :=
  match l with
  | LogAbsent => Some []
  | LogList es => Some es
  | _ => None
  end.

(** The abstract log machine: an invocation appends at most one entry
    and never rewrites the ones before. *)
Inductive astep : list LogEntry -> list LogEntry -> Prop :=
  | a_skip es : astep es es
  | a_append es e : astep es (es ++ [e]).

(** The log file [l'] after a run from [l]: untouched, or the entries
    of [l] with one entry appended. *)
Definition log_appends (l l' : LogFile) : Prop :=
  l' = l \/ exists es e, abs_log l = Some es /\ l' = LogList (es ++ [e]).

(** A step that does not touch the log, and one that appends at most
    one entry to it, whether it returns or raises. *)
Definition log_frame {A} (m : PyM World A) : Prop := forall w, w_log (fst (m w)) = w_log w.

Definition log_once {A} (m : PyM World A) : Prop :=
  forall w, log_appends (w_log w) (w_log (fst (m w))).

(** A step that, when it raises, leaves the log as it found it. *)
Definition log_exc {A} (m : PyM World A) : Prop :=
  forall w w' e, m w = (w', Exc e) -> w_log w' = w_log w.

(** ** Which steps touch the log *)

Lemma prints_only_log_frame {A} (m : PyM World A) : prints_only m -> log_frame m.
Proof. intros Hm w. by destruct (Hm w) as (_ & _ & _ & _ & ->). Qed.

Lemma log_frame_once {A} (m : PyM World A) : log_frame m -> log_once m.
Proof. intros Hm w. left. apply Hm. Qed.

Lemma pbind_log_frame {A B} (m : PyM World A) (k : A -> PyM World B) :
  log_frame m -> (forall a, log_frame (k a)) -> log_frame (pbind m k).
Proof.
  intros Hm Hk w. unfold pbind. specialize (Hm w).
  destruct (m w) as [w1 [a|e]]; cbn in *; [by rewrite Hk|done].
Qed.

Lemma pbind_frame_once {A B} (m : PyM World A) (k : A -> PyM World B) :
  log_frame m -> (forall a, log_once (k a)) -> log_once (pbind m k).
Proof.
  intros Hm Hk w. unfold pbind. specialize (Hm w).
  destruct (m w) as [w1 [a|e]]; cbn in *; [rewrite <- Hm; apply Hk|left; done].
Qed.

Lemma pbind_once_frame {A B} (m : PyM World A) (k : A -> PyM World B) :
  log_once m -> (forall a, log_frame (k a)) -> log_once (pbind m k).
Proof.
  intros Hm Hk w. unfold pbind. specialize (Hm w).
  destruct (m w) as [w1 [a|e]]; cbn in *; [by rewrite Hk|done].
Qed.

Lemma try_except_log_frame {A} (m : PyM World A) h :
  log_frame m -> (forall e k, h e = Some k -> log_frame k) -> log_frame (try_except m h).
Proof.
  intros Hm Hh w. unfold try_except. specialize (Hm w).
  destruct (m w) as [w1 [a|e]]; [done|]. cbn in Hm.
  destruct (h e) as [k|] eqn:He; [|done]. by rewrite (Hh e k He).
Qed.

Lemma try_except_log_once {A} (m : PyM World A) h :
  log_once m -> (forall e k, h e = Some k -> log_frame k) -> log_once (try_except m h).
Proof.
  intros Hm Hh w. unfold try_except. specialize (Hm w).
  destruct (m w) as [w1 [a|e]]; [done|]. cbn in Hm.
  destruct (h e) as [k|] eqn:He; [|done]. by rewrite (Hh e k He).
Qed.

Lemma log_frame_exc {A} (m : PyM World A) : log_frame m -> log_exc m.
Proof. intros Hm w w' e He. specialize (Hm w). by rewrite He in Hm. Qed.

(** A step that leaves the log alone, followed by steps that keep it
    when they raise. *)
Lemma pbind_frame_exc {A B} (m : PyM World A) (k : A -> PyM World B) :
  log_frame m -> (forall a, log_exc (k a)) -> log_exc (pbind m k).
Proof.
  intros Hm Hk w w' e. unfold pbind. specialize (Hm w).
  destruct (m w) as [w1 [a|e1]]; cbn in Hm.
  - intros Hr. by rewrite (Hk a w1 w' e Hr).
  - by intros [= <- _].
Qed.

Lemma try_except_log_exc {A} (m : PyM World A) h :
  log_exc m -> (forall e k, h e = Some k -> log_frame k) -> log_exc (try_except m h).
Proof.
  intros Hm Hh w w' e. unfold try_except. destruct (m w) as [w1 [a|e1]] eqn:E; [done|].
  specialize (Hm w w1 e1 E). destruct (h e1) as [k|] eqn:He.
  - intros Hk. pose proof (Hh e1 k He w1) as Hf. rewrite Hk in Hf. cbn in Hf. congruence.
  - by intros [= <- _].
Qed.

Lemma set_fs_log_frame fs : log_frame (set_fs fs).
Proof. intros w. done. Qed.

Lemma unlink_log_frame p : log_frame (unlink p).
Proof. intros w. unfold unlink, pbind, pget. cbn. by destruct (PyDict.mem _ _). Qed.

Lemma rename_log_frame src dst : log_frame (rename src dst).
Proof.
  intros w. unfold rename, pbind, pget. cbn.
  destruct (PyDict.get _ _); [by case_bool_decide|done].
Qed.

Create HintDb logdb discriminated.
#[local] Hint Resolve set_fs_log_frame unlink_log_frame rename_log_frame : logdb.
#[local] Hint Resolve prints_only_log_frame : logdb.

Ltac frame_step :=
  match goal with
  | |- log_frame (pbind _ _) => apply pbind_log_frame
  | |- log_frame (try_except _ _) => apply try_except_log_frame
  | |- forall _, _ => intro
  | |- log_frame (match ?x with _ => _ end) => destruct x
  | |- log_frame (if ?b then _ else _) => destruct b
  end.

Ltac solve_frame := repeat frame_step; eauto with logdb pydb.

(** A sequence appends at most once when exactly one of its steps may
    append: the steps before and after it leave the log alone. *)
Ltac once_step :=
  match goal with
  | |- log_once (pbind _ _) =>
      first [apply pbind_frame_once; [solve [solve_frame]|] | apply pbind_once_frame]
  | |- log_once (try_except _ _) => apply try_except_log_once
  | |- forall _, _ => intro
  | |- log_once (match ?x with _ => _ end) => destruct x
  | |- log_once (if ?b then _ else _) => destruct b
  end.

Ltac solve_once := repeat once_step; solve [eauto with logdb pydb | apply log_frame_once; solve_frame | solve_frame].

(** A sequence keeps the log when it raises if every step before the
    last one that may write it leaves the log alone. *)
Ltac exc_step :=
  match goal with
  | |- log_exc (pbind _ _) => first [apply pbind_frame_exc; [solve [solve_frame]|] | eauto with logdb]
  | |- log_exc (try_except _ _) => apply try_except_log_exc
  | |- forall _, _ => intro
  | |- log_exc (match ?x with _ => _ end) => destruct x
  | |- log_exc (if ?b then _ else _) => destruct b
  end.

Ltac solve_exc := repeat exc_step; solve [eauto with logdb pydb | apply log_frame_exc; solve_frame].

(** ** The skeleton is kept by every part of an invocation *)

(** A command run on the document loaded from [path] writes back a
    document with the same skeleton. *)
Lemma with_world_skel {A} path cfg (m : PyM World A) d :
  PyDict.get path (Cli.d_yaml d) = Some cfg -> keeps_skel m ->
  yaml_skel (fst (Cli.with_world path cfg m d)) = yaml_skel d.
Proof.
  intros Hg Hm. unfold Cli.with_world.
  specialize (Hm (config_skel cfg) (Cli.to_world cfg d) (conj eq_refl eq_refl)).
  destruct (m (Cli.to_world cfg d)) as [w' r]. destruct Hm as [_ Hcf].
  by apply (PyDict.map_vals_set config_skel _ _ cfg).
Qed.

Section Main.
Context `{Externals}.

(** *** The log in [ingest], [clean_old] and [main] *)

Lemma save_log_once r p f md : log_once (Ingest._save_ingestion_log r p f md).
Proof.
  intros w. unfold Ingest._save_ingestion_log, pbind, pget, pmodify, pret, raise. cbn.
  unfold log_appends. destruct (w_log w) eqn:Hl; cbn; [right; eauto|right; eauto|left; done|left; done].
Qed.

Lemma run_gitingest_log_frame cmd p : log_frame (Ingest.run_gitingest cmd p).
Proof. unfold Ingest.run_gitingest. destruct (ext_gitingest cmd) as [r written]. solve_frame. Qed.

Lemma store_metadata_log_frame r md : log_frame (Ingest.store_metadata r md).
Proof. intros w. done. Qed.

Lemma save_config_log_frame : log_frame Ingest._save_config.
Proof. intros w. done. Qed.

#[local] Hint Resolve save_log_once run_gitingest_log_frame store_metadata_log_frame
  save_config_log_frame Ingest.lift_prints_only Ingest.repo_config_of_prints_only
  Ingest.file_hash_prints_only Ingest.resolve_version_prints_only
  TokenCounter.count_tokens_prints_only : logdb.

Lemma on_gitingest_error_log_frame temp e k : Ingest.on_gitingest_error temp e = Some k -> log_frame k.
Proof. destruct e; try discriminate. intros [= <-]. solve_frame. Qed.

#[local] Hint Resolve on_gitingest_error_log_frame : logdb.

(** The log write is the last step that may raise: [json.load] or
    [append] raises before the file is written, and the message after
    it cannot raise. *)
Lemma save_log_exc r p f md msg : log_exc (Ingest._save_ingestion_log r p f md ;;; emit msg).
Proof.
  intros w w' e. unfold Ingest._save_ingestion_log, emit, pbind, pget, pmodify, pret, raise. cbn.
  destruct (w_log w) eqn:Hl; cbn; [intros [=]..| |]; by intros [= <- _].
Qed.

#[local] Hint Resolve save_log_exc : logdb.

(** [ingest] leaves the log as it was whenever it raises. *)
Lemma ingest_log_exc mgr r profile version : log_exc (Ingest.ingest mgr r profile version).
Proof. unfold Ingest.ingest, Ingest.ingest_body. solve_exc. Qed.

(** [ingest] appends at most one entry to the log, returning or not. *)
Lemma ingest_log_once mgr r profile version : log_once (Ingest.ingest mgr r profile version).
Proof. unfold Ingest.ingest, Ingest.ingest_body. solve_once. Qed.

Lemma remove_all_log_frame es c b : log_frame (Clean.remove_all es c b).
Proof. revert c b. induction es as [|[p f] es IH]; intros c b; simpl; solve_frame. Qed.

Lemma clean_groups_log_frame keep gs c b : log_frame (Clean.clean_groups keep gs c b).
Proof.
  revert c b. induction gs as [|[r g] gs IH]; intros c b; simpl;
    solve_frame; auto using remove_all_log_frame.
Qed.

Lemma clean_old_log_frame dir keep : log_frame (Clean.clean_old dir keep).
Proof. unfold Clean.clean_old. solve_frame; auto using clean_groups_log_frame. Qed.

(** Start-up writes no document; when it returns, the document it
    returns is the one stored at [path]. *)
Lemma init_yaml path d :
  Cli.d_yaml (fst (Cli.__init__ path d)) = Cli.d_yaml d /\
  forall mgr cfg, snd (Cli.__init__ path d) = Ret (mgr, cfg) ->
    PyDict.get path (Cli.d_yaml d) = Some cfg.
Proof.
  unfold Cli.__init__, Cli._load_config, pbind, pget, pret, raise. cbn.
  destruct (PyDict.get path (Cli.d_yaml d)) as [cfg|] eqn:Hg; [|done].
  destruct (st_output_dir (settings cfg)) as [od|]; [|done].
  unfold Cli.mkdir_exist_ok, pbind, pget, pret, raise, pmodify. cbn.
  case_bool_decide; [|destruct (PyDict.mem od (Cli.d_fs d)); [done|case_bool_decide; [|done]]];
    (destruct (st_token_counter (settings cfg)); [|done]); split; try done;
    by intros mgr c [= _ <-].
Qed.

(** An invocation keeps every document's skeleton, whatever it is asked
    and however it ends. *)
Lemma main_keeps_skel args d : yaml_skel (fst (Cli.main args d)) = yaml_skel d.
Proof.
  destruct (init_yaml (Cli.a_config args) d) as [Hy Hg]. unfold yaml_skel at 2. rewrite <- Hy.
  unfold Cli.main, pbind. destruct (Cli.__init__ _ d) as [d1 [[mgr cfg]|e]]; [|done].
  specialize (Hg mgr cfg eq_refl). cbn in Hy, Hg |- *. rewrite <- Hy in Hg.
  destruct (Cli.a_command args).
  - destruct (Cli.repo_given _); [apply with_world_skel; auto using Ingest.ingest_keeps_skel|done].
  - apply with_world_skel; auto using prints_only_keeps_skel, Cli.list_repos_prints_only.
  - apply with_world_skel; auto using prints_only_keeps_skel, Cli.list_profiles_prints_only.
  - apply with_world_skel; auto using prints_only_keeps_skel, Cli.list_ingested_prints_only.
  - apply with_world_skel; auto using Clean.clean_old_keeps_skel.
Qed.

Lemma with_world_log {A} path cfg (m : PyM World A) d :
  Cli.d_log (fst (Cli.with_world path cfg m d)) = w_log (fst (m (Cli.to_world cfg d))).
Proof. unfold Cli.with_world. by destruct (m _). Qed.

Lemma with_world_snd {A} path cfg (m : PyM World A) d :
  snd (Cli.with_world path cfg m d) = snd (m (Cli.to_world cfg d)).
Proof. unfold Cli.with_world. by destruct (m _). Qed.

Lemma init_log path d : Cli.d_log (fst (Cli.__init__ path d)) = Cli.d_log d.
Proof.
  unfold Cli.__init__, Cli._load_config, Cli.mkdir_exist_ok, pbind, pget, pret, raise, pmodify. cbn.
  destruct (PyDict.get path (Cli.d_yaml d)); [|done]. cbn.
  destruct (st_output_dir _) as [od|]; [|done].
  case_bool_decide; [|destruct (PyDict.mem od _); [done|case_bool_decide; [|done]]];
    by destruct (st_token_counter _).
Qed.

(** One invocation appends at most one entry to the log, and only the
    [ingest] command may. *)
Lemma main_log args d :
  log_appends (Cli.d_log d) (Cli.d_log (fst (Cli.main args d))) /\
  (Cli.a_command args <> Cli.CmdIngest -> Cli.d_log (fst (Cli.main args d)) = Cli.d_log d).
Proof.
  pose proof (init_log (Cli.a_config args) d) as Hi.
  unfold Cli.main, pbind. destruct (Cli.__init__ _ d) as [d1 [[mgr cfg]|e]]; cbn in Hi |- *;
    [|by split; [left|]].
  rewrite <- Hi. destruct (Cli.a_command args); rewrite ?with_world_log.
  - destruct (Cli.repo_given _); [|by split; [left|]].
    split; [rewrite with_world_log; apply (ingest_log_once _ _ _ _ (Cli.to_world cfg d1))|done].
  - split; [left|intros _]; apply prints_only_log_frame, Cli.list_repos_prints_only.
  - split; [left|intros _]; apply prints_only_log_frame, Cli.list_profiles_prints_only.
  - split; [left|intros _]; apply prints_only_log_frame, Cli.list_ingested_prints_only.
  - split; [left|intros _]; apply clean_old_log_frame.
Qed.

(** An invocation that raises leaves the log as it was, whatever the
    command. *)
Lemma main_exc_log args d e :
  snd (Cli.main args d) = Exc e -> Cli.d_log (fst (Cli.main args d)) = Cli.d_log d.
Proof.
  pose proof (init_log (Cli.a_config args) d) as Hi.
  unfold Cli.main, pbind. destruct (Cli.__init__ _ d) as [d1 [[mgr cfg]|e1]]; cbn in Hi |- *; [|done].
  rewrite <- Hi. destruct (Cli.a_command args); rewrite ?with_world_log, ?with_world_snd.
  - destruct (Cli.repo_given _); [|done]. rewrite with_world_log, with_world_snd.
    destruct (Ingest.ingest _ _ _ _ _) as [w' r] eqn:E. cbn. intros ->.
    exact (ingest_log_exc _ _ _ _ _ _ _ E).
  - intros _. apply prints_only_log_frame, Cli.list_repos_prints_only.
  - intros _. apply prints_only_log_frame, Cli.list_profiles_prints_only.
  - intros _. apply prints_only_log_frame, Cli.list_ingested_prints_only.
  - intros _. apply clean_old_log_frame.
Qed.

(** A run of the program from its command line keeps the skeletons:
    the help and usage exits only print. *)
Lemma run_keeps_skel argv d : yaml_skel (fst (ArgParse.run argv d)) = yaml_skel d.
Proof. unfold ArgParse.run. destruct (ArgParse.parse_args argv); [apply main_keeps_skel|done..]. Qed.

Lemma run_log argv d : log_appends (Cli.d_log d) (Cli.d_log (fst (ArgParse.run argv d))).
Proof. unfold ArgParse.run. destruct (ArgParse.parse_args argv); [apply main_log|left; done..]. Qed.

End Main.

(** C13: Invariant: the program never edits the configuration beyond the
    metadata blocks.  Along any sequence of invocations (any commands,
    any answers of the outside world, runs that end in an exception
    included), every configuration document stays at its path with the
    same settings, the same profiles, and the same repositories in the
    same order with the same fields; only their [metadata] blocks may
    change. *)
Theorem reachable_config_skel d0 d : reachable d0 d -> yaml_skel d = yaml_skel d0.
Proof.
  induction 1 as [|d d' _ IH Hs]; [done|].
  destruct Hs as [X argv d]. by rewrite (@run_keeps_skel X).
Qed.

(** C5: Safety: a run of the program that ends with an exception leaves
    the ingestion log file exactly as it was, whatever the command line
    and the outside world: the help and usage exits, a start-up
    failure, [ingest] without [--repo], gitingest's [SystemExit 1], and
    an [ingest] that fails at any later step, the log's own [json.load]
    or [append] included.  With [main_refines_log], every entry the log
    ever gains comes from an [ingest] that returned. *)
Theorem failed_run_keeps_log X argv d e :
  snd (@ArgParse.run X argv d) = Exc e -> Cli.d_log (fst (@ArgParse.run X argv d)) = Cli.d_log d.
Proof.
  unfold ArgParse.run. destruct (ArgParse.parse_args argv); [apply main_exc_log|intros _; done..].
Qed.

(** C4: Refinement: one invocation of the program, whatever the command
    and the outside world, and whether it returns or raises, is a step
    of the abstract log machine [astep]: when the log file is absent or
    holds a JSON list, it still holds the old entries in order, with at
    most one appended, and none unless the command is [ingest]; a log
    file that is not a list is left as it is. *)
Theorem main_refines_log X args d :
  let d' := fst (@Cli.main X args d) in
  match abs_log (Cli.d_log d) with
  | Some es => exists es', abs_log (Cli.d_log d') = Some es' /\ astep es es' /\
                 (Cli.a_command args <> Cli.CmdIngest -> es' = es)
  | None => Cli.d_log d' = Cli.d_log d
  end.
Proof.
  intros d'. subst d'. destruct (@main_log X args d) as [[Hs|(es & e & Habs & He)] Hc].
  - rewrite Hs. destruct (abs_log _) as [es|]; [|done]. exists es. split_and!; [done|constructor|done].
  - rewrite Habs. exists (es ++ [e])%list. rewrite He. split_and!; [done|constructor|].
    intros Hn. rewrite (Hc Hn) in He. rewrite He in Habs. injection Habs as Habs.
    apply (f_equal length) in Habs. rewrite length_app in Habs. cbn in Habs. lia.
Qed.

(** C12: Safety: the ingestion log is append-only: along any sequence of
    invocations from a disk whose log is absent or a list, the log stays
    a list and the entries of the starting log remain its prefix. *)
Theorem reachable_log_prefix d0 d es0 :
  reachable d0 d -> abs_log (Cli.d_log d0) = Some es0 ->
  exists es, abs_log (Cli.d_log d) = Some es /\ es0 `prefix_of` es.
Proof.
  intros Hr H0. induction Hr as [|d d' _ IH Hs]; [by exists es0|].
  destruct IH as (es & Hes & Hp). destruct Hs as [X argv d].
  destruct (@run_log X argv d) as [-> | (es1 & e & Habs & ->)]; [by exists es|].
  rewrite Hes in Habs. injection Habs as <-. exists (es ++ [e])%list. split; [done|].
  by apply prefix_app_r.
Qed.

(** A clean, then an ingest of [repo1], on the CLI scenario's disk. *)
Definition clean_then_ingest : Cli.Disk :=
  fst (@ArgParse.run Cli.cli_ext ["ingest"; "--repo"; "repo1"]
         (fst (@ArgParse.run Cli.cli_ext ["clean"; "-k"; "1"] Cli.cli_disk))).

Lemma clean_then_ingest_reachable : reachable Cli.cli_disk clean_then_ingest.
Proof.
  eapply reach_step; [eapply reach_step; [apply reach_init|apply (step_run Cli.cli_ext)]|].
  apply (step_run Cli.cli_ext).
Qed.

Lemma reachable_config_skel_witness : yaml_skel clean_then_ingest = yaml_skel Cli.cli_disk.
Proof. apply reachable_config_skel, clean_then_ingest_reachable. Defined.

(** [ingest] with no gitingest installed: [FileNotFoundError] escapes. *)
Lemma failed_run_keeps_log_witness :
  snd (@ArgParse.run Cli.cli_ext ["ingest"; "--repo"; "repo1"] Cli.cli_disk) =
    Exc (FileNotFoundError "gitingest") /\
  Cli.d_log (fst (@ArgParse.run Cli.cli_ext ["ingest"; "--repo"; "repo1"] Cli.cli_disk)) =
    Cli.d_log Cli.cli_disk.
Proof.
  split; [vm_compute; reflexivity|].
  apply (failed_run_keeps_log _ _ _ (FileNotFoundError "gitingest")). vm_compute. reflexivity.
Defined.

Lemma reachable_log_prefix_witness :
  exists es, abs_log (Cli.d_log clean_then_ingest) = Some es /\ [] `prefix_of` es.
Proof. apply (reachable_log_prefix Cli.cli_disk); [apply clean_then_ingest_reachable|reflexivity]. Defined.

End System.
